(** * Vemb flight-booking backend: the booking transaction of [server.js]

    A shallow embedding of the three request handlers that carry the
    booking-and-inventory logic of [server.js]:

    - [POST /api/bookings]             ([createBooking]),
    - [PATCH /api/bookings/:id/payment] ([updatePaymentStatus]) and its
      admin twin ([adminUpdatePaymentStatus]),
    - [POST /api/promotions/validate]  ([validatePromotion]),

    together with the helpers [getPriceMultiplierForPassengerType] and
    [determinePassengerTypeFromDOB].

    Modelling conventions.
    - The SQLite store is a record of tables; a table is the list of its rows
      in rowid order.  [SELECT ... WHERE c] through [db.get] is the first row
      satisfying [c]; [UPDATE ... WHERE c] rewrites every row satisfying [c];
      [DELETE ... WHERE c] drops every row satisfying [c].
    - A column that the schema leaves nullable is an [option]; SQL's NULL
      propagates through [+] and [-] and makes a comparison in a [WHERE]
      clause fail.
    - Seat counts and identifiers are integers ([Z]).  Amounts of money are
      JavaScript numbers in the source; they are modelled as exact rationals
      ([Q]), so the theorems speak about the arithmetic the code denotes and
      not about the rounding of doubles.
    - An optional request field is an [option]; JavaScript truthiness is
      written out ([Js.truthy], [Js.or]).
    - What the handler takes from its environment (the clock, the random
      booking identifiers, a failing [INSERT]) is gathered in [Env]. *)

From Stdlib Require Import ZArith QArith Qminmax List String Ascii Bool Lia.
Import ListNotations.

Local Open Scope string_scope.
Local Open Scope Z_scope.

(** ** JavaScript and SQL value helpers *)

Module Js.

(** Truthiness of an optional string: [undefined], [null] and [""] are falsy. *)
Definition truthy (o : option string) : bool :=
  match o with
  | Some s => negb (s =? "")%string
  | None => false
  end.

(** [a || b] on optional strings. *)
Definition or (a b : option string) : option string :=
  if truthy a then a else b.

(** [a || d] where [d] is a string literal. *)
Definition or_default (a : option string) (d : string) : string :=
  match a with
  | Some s => if (s =? "")%string then d else s
  | None => d
  end.

(** [p || d] on prices: [null] and [0] are falsy. *)
Definition or_price (p : option Q) (d : Q) : Q :=
  match p with
  | Some v => if Qeq_bool v 0 then d else v
  | None => d
  end.

(** [v < n] where [v] comes from an integer column: [null] converts to 0. *)
Definition lt_num (v : option Z) (n : Z) : bool :=
  match v with
  | Some x => x <? n
  | None => 0 <? n
  end.

(** [String.prototype.toUpperCase], on the ASCII letters. *)
Definition upper_ascii (c : ascii) : ascii :=
  let n := nat_of_ascii c in
  if (97 <=? n)%nat && (n <=? 122)%nat then ascii_of_nat (n - 32) else c.

Fixpoint toUpperCase (s : string) : string :=
  match s with
  | EmptyString => EmptyString
  | String c rest => String (upper_ascii c) (toUpperCase rest)
  end.

(** [String.prototype.toLowerCase], on the ASCII letters. *)
Definition lower_ascii (c : ascii) : ascii :=
  let n := nat_of_ascii c in
  if (65 <=? n)%nat && (n <=? 90)%nat then ascii_of_nat (n + 32) else c.

Fixpoint toLowerCase (s : string) : string :=
  match s with
  | EmptyString => EmptyString
  | String c rest => String (lower_ascii c) (toLowerCase rest)
  end.

(** [Math.max(0, x)]. *)
Definition max0 (x : Q) : Q := Qmax 0 x.

(** A flight identifier as it arrives in the request body: a JSON number or
    a JSON string. *)
Inductive Id :=
| IdNum (n : Z)
| IdStr (s : string).

(** The value of a string made of decimal digits only. *)
Definition digit (c : ascii) : option Z :=
  let n := nat_of_ascii c in
  if (48 <=? n)%nat && (n <=? 57)%nat then Some (Z.of_nat (n - 48)) else None.

Fixpoint digits (s : string) (acc : Z) : option Z :=
  match s with
  | EmptyString => Some acc
  | String c rest =>
      match digit c with
      | Some d => digits rest (10 * acc + d)
      | None => None
      end
  end.

(** The number an identifier denotes, [None] where [isNaN] holds.  Numeric
    strings are recognised in their plain decimal form. *)
Definition toNumber (i : Id) : option Z :=
  match i with
  | IdNum n => Some n
  | IdStr EmptyString => None
  | IdStr s => digits s 0
  end.

Definition isNaN (i : Id) : bool :=
  match toNumber i with Some _ => false | None => true end.

(** Truthiness of an optional identifier: [0] and [""] are falsy. *)
Definition truthy_id (o : option Id) : bool :=
  match o with
  | Some (IdNum n) => negb (n =? 0)
  | Some (IdStr s) => negb (s =? "")%string
  | None => false
  end.

Definition or_id (a b : option Id) : option Id :=
  if truthy_id a then a else b.

End Js.

Module Sql.

(** [a + n] and [a - n] on a nullable integer column. *)
Definition add (a : option Z) (n : Z) : option Z := option_map (fun x => x + n) a.
Definition sub (a : option Z) (n : Z) : option Z := option_map (fun x => x - n) a.

(** [a < b] in a [WHERE] clause: NULL on either side rejects the row. *)
Definition lt (a b : option Z) : bool :=
  match a, b with
  | Some x, Some y => x <? y
  | _, _ => false
  end.

(** [a <= s] and [a >= s] on a nullable text column against a text value
    (the BINARY collation compares byte by byte). *)
Definition text_le (a : option string) (s : string) : bool :=
  match a with
  | Some x => String.leb x s
  | None => false
  end.

Definition text_ge (a : option string) (s : string) : bool :=
  match a with
  | Some x => String.leb s x
  | None => false
  end.

End Sql.

(** ** The store *)

(** The four fare classes a flight keeps a seat column for. *)
Inductive SeatField :=
| seats_economy_f
| seats_premium_economy_f
| seats_business_f
| seats_first_f.

(** A row of [flights].  The columns the booking transaction never reads
    (airports, times, duration, status, available_classes) are left out. *)
Record Flight := mkFlight {
  flight_id : Z;
  airline_code : string;
  flight_number : string;
  price_economy : Q;
  price_premium_economy : option Q;
  price_business : option Q;
  price_first : option Q;
  seats_economy : Z;
  seats_premium_economy : option Z;
  seats_business : option Z;
  seats_first : option Z;
  available_seats : Z
}.

(** [passengers_info]: the counts serialised on the booking row. *)
Record PassengerCounts := mkCounts {
  numAdults : nat;
  numChildren : nat;
  numInfants : nat
}.

(** A row of [bookings]. *)
Record Booking := mkBooking {
  booking_id : string;
  departure_flight_id : Z;
  return_flight_id : option Z;
  contact_name : string;
  email : option string;
  phone : option string;
  travel_class : string;
  total_amount : Q;
  booking_time : string;
  payment_status : option string;
  promo_code : option string;
  passengers_info : PassengerCounts;
  is_round_trip : Z
}.

(** A row of [booking_details]. *)
Record BookingDetail := mkDetail {
  d_booking_id : string;
  full_name : string;
  d_gender : string;
  d_dob : option string;
  passport_number : string;
  passenger_type : string;
  luggage_weight : Z;
  d_insurance : Z;
  d_meal : Z
}.

(** A row of [payments]. *)
Record Payment := mkPayment {
  p_booking_id : string;
  method : string;
  transaction_info : option string
}.

Inductive DiscountType := percent | fixed.

Inductive PromoStatus := active | inactive | scheduled | expired.

(** A row of [promotions].  [used_count] and [status] are never NULL: every
    [INSERT] of the source gives them a value or leaves the column default. *)
Record Promotion := mkPromotion {
  promo_id : Z;
  code : string;
  promo_name : string;
  discount_type : DiscountType;
  discount_value : Q;
  valid_from : option string;
  valid_to : option string;
  usage_limit : option Z;
  used_count : Z;
  status : PromoStatus
}.

Record Db := mkDb {
  flights : list Flight;
  bookings : list Booking;
  booking_details : list BookingDetail;
  payments : list Payment;
  promotions : list Promotion
}.

(** What a handler takes from outside the store. *)
Record Env := mkEnv {
  (** [date("now")] of SQLite, as [YYYY-MM-DD]. *)
  today : string;
  (** [new Date()] in milliseconds since the epoch. *)
  now_ms : Z;
  (** [new Date().toISOString()]. *)
  now_iso : string;
  (** [new Date(s).getTime()], [None] for an invalid date. *)
  parseDate : string -> option Z;
  (** The successive results of [generateBookingId()]. *)
  bookingIdDraws : list string;
  (** The error message with which the [INSERT] of the i-th passenger row
      fails, if it does. *)
  detailInsertError : nat -> option string
}.

(** ** Requests *)

Record CustomerInfo := mkCustomer {
  ci_fullName : option string;
  ci_email : option string;
  ci_phone : option string;
  seatClass : option string
}.

(** A passenger object of the request.  [calculatedPassengerType] is the
    property the fare loop writes on the object; a client may send it too. *)
Record Passenger := mkPassenger {
  fullName : option string;
  gender : option string;
  dob : option string;
  idNumber : option string;
  passport_number_ : option string;
  passportNumber : option string;
  passengerType : option string;
  type_ : option string;
  calculatedPassengerType : option string
}.

Record SelectedServices := mkServices {
  luggage : bool;
  insurance : bool;
  meal : bool;
  food : bool
}.

(** The body of [POST /api/bookings]; both spellings of a field are kept. *)
Record BookingRequest := mkRequest {
  departureFlightId : option Js.Id;
  departure_flight_id_ : option Js.Id;
  returnFlightId : option Js.Id;
  return_flight_id_ : option Js.Id;
  isRoundTrip : bool;
  is_round_trip_ : bool;
  customerInfo : option CustomerInfo;
  passengers : option (list Passenger);
  selectedServices : option SelectedServices;
  promoCode : option string;
  totalAmount : option Q;
  passengerCounts : option PassengerCounts;
  paymentMethod : option string;
  transactionInfo : option string
}.

(** ** Responses and the handler monad *)

Inductive Leg := Departure | Return.

(** The responses of [POST /api/bookings], one constructor per
    [res.status(..).json(..)] of the handler. *)
Inductive BookingResponse :=
| MissingBookingInfo (missingFields : list string)
    (* 400 'Missing required booking information' *)
| FlightNotFound (leg : Leg) (providedId : Js.Id)
    (* 404 'Departure flight not found' / 'Return flight not found' *)
| NotEnoughSeats (leg : Leg) (available : option Z) (requested : Z) (cls : string)
    (* 400 'Not enough ... seats available on departure/return flight' *)
| PassengerMissingFields
    (* 400 'Passenger data missing required fields' *)
| BookingCreated (bookingId : string) (flightDetails : Flight) (amount : Q)
    (* 201 'Booking created successfully' *)
| ConstraintFailure (details : string)
    (* 500 'Failed to create booking due to database constraint' *)
| BookingFailed (details : string).
    (* 500 'Failed to create booking' *)

(** What a handler can throw: an SQLite error whose code contains
    [SQLITE_CONSTRAINT], or any other error. *)
Inductive Exn :=
| SqliteConstraint (message : string)
| OtherError (message : string).

Section HandlerMonad.

(** The type of the handler's responses. *)
Context {R : Type}.

(** A step of a handler either goes on with a value, has answered the
    request ([return res...json(..)]), has thrown, or is still in the
    booking-identifier loop when the draws run out. *)
Inductive Outcome (A : Type) :=
| Ok (a : A)
| Reply (r : R)
| Throw (e : Exn)
| Spin.

Definition M (A : Type) : Type := Db -> Outcome A * Db.

Definition ret {A} (a : A) : M A := fun db => (Ok A a, db).
Definition reply {A} (r : R) : M A := fun db => (Reply A r, db).
Definition throw {A} (e : Exn) : M A := fun db => (Throw A e, db).
Definition spin {A} : M A := fun db => (Spin A, db).

Definition bind {A B} (m : M A) (k : A -> M B) : M B :=
  fun db =>
    match m db with
    | (Ok _ a, db') => k a db'
    | (Reply _ r, db') => (Reply B r, db')
    | (Throw _ e, db') => (Throw B e, db')
    | (Spin _, db') => (Spin B, db')
    end.

(** [await db.get(..)] / [await db.all(..)]: a query of the store. *)
Definition query {A} (q : Db -> A) : M A := fun db => (Ok A (q db), db).

(** [await db.run(..)]: a statement that rewrites the store. *)
Definition run (f : Db -> Db) : M unit := fun db => (Ok unit tt, f db).

(** The outcome of a handler: the response it sent, or [Pending] while
    the identifier loop has not ended. *)
Inductive Result :=
| Responded (r : R)
| Pending.

(** [try { body } catch (error) { handler }] around a whole handler. *)
Definition handle (catch : Exn -> R) (body : M R) (db : Db) : Result * Db :=
  match body db with
  | (Ok _ r, db') => (Responded r, db')
  | (Reply _ r, db') => (Responded r, db')
  | (Throw _ e, db') => (Responded (catch e), db')
  | (Spin _, db') => (Pending, db')
  end.

End HandlerMonad.

Arguments Outcome : clear implicits.
Arguments M : clear implicits.
Arguments Result : clear implicits.
Arguments Ok {R A} a.
Arguments Reply {R A} r.
Arguments Throw {R A} e.
Arguments Spin {R A}.
Arguments Responded {R} r.
Arguments Pending {R}.

Notation "x <- m ;; k" := (bind m (fun x => k))
  (at level 61, m at next level, right associativity).
Notation "m ;;; k" := (bind m (fun _ => k))
  (at level 61, right associativity).

(** ** Inventory: the seat columns of a flight *)

(** The [switch (seatClass)] that picks the seat column. *)
Definition seatFieldOf (cls : string) : SeatField :=
  if (cls =? "PREMIUM_ECONOMY")%string then seats_premium_economy_f
  else if (cls =? "BUSINESS")%string then seats_business_f
  else if (cls =? "FIRST")%string then seats_first_f
  else seats_economy_f.

(** [flight[seatField]]. *)
Definition seatValueOf (f : Flight) (sf : SeatField) : option Z :=
  match sf with
  | seats_economy_f => Some (seats_economy f)
  | seats_premium_economy_f => seats_premium_economy f
  | seats_business_f => seats_business f
  | seats_first_f => seats_first f
  end.

(** [SET seatField = seatField + delta, available_seats = available_seats + delta]
    on one row. *)
Definition adjustSeats (sf : SeatField) (delta : Z) (f : Flight) : Flight :=
  let agg := available_seats f + delta in
  match sf with
  | seats_economy_f =>
      mkFlight (flight_id f) (airline_code f) (flight_number f)
        (price_economy f) (price_premium_economy f) (price_business f) (price_first f)
        (seats_economy f + delta) (seats_premium_economy f) (seats_business f)
        (seats_first f) agg
  | seats_premium_economy_f =>
      mkFlight (flight_id f) (airline_code f) (flight_number f)
        (price_economy f) (price_premium_economy f) (price_business f) (price_first f)
        (seats_economy f) (Sql.add (seats_premium_economy f) delta) (seats_business f)
        (seats_first f) agg
  | seats_business_f =>
      mkFlight (flight_id f) (airline_code f) (flight_number f)
        (price_economy f) (price_premium_economy f) (price_business f) (price_first f)
        (seats_economy f) (seats_premium_economy f) (Sql.add (seats_business f) delta)
        (seats_first f) agg
  | seats_first_f =>
      mkFlight (flight_id f) (airline_code f) (flight_number f)
        (price_economy f) (price_premium_economy f) (price_business f) (price_first f)
        (seats_economy f) (seats_premium_economy f) (seats_business f)
        (Sql.add (seats_first f) delta) agg
  end.

(** [UPDATE flights SET seatField = seatField - ?, available_seats =
    available_seats - ? WHERE flight_id = ?]: the seat reservation of
    [POST /api/bookings].  The statement has no other condition. *)
Definition reserveSeats (id : Z) (sf : SeatField) (count : Z) (fl : list Flight) : list Flight :=
  map (fun f => if flight_id f =? id then adjustSeats sf (- count) f else f) fl.

(** [UPDATE flights SET seatField = seatField + ?, available_seats =
    available_seats + ? WHERE flight_id = ?]: the seat restoration of the
    payment-status handlers. *)
Definition releaseSeats (id : Z) (sf : SeatField) (count : Z) (fl : list Flight) : list Flight :=
  map (fun f => if flight_id f =? id then adjustSeats sf count f else f) fl.

(** [SELECT * FROM flights WHERE flight_id = ?]. *)
Definition flightById (id : Z) (fl : list Flight) : option Flight :=
  find (fun f => flight_id f =? id) fl.

(** [SELECT * FROM flights WHERE (airline_code || flight_number) = ?]; a
    number bound to the parameter never equals the text on the left. *)
Definition flightByDisplayId (i : Js.Id) (fl : list Flight) : option Flight :=
  match i with
  | Js.IdStr s => find (fun f => (airline_code f ++ flight_number f =? s)%string) fl
  | Js.IdNum _ => None
  end.

(** The two-step lookup of a flight: by database id when the identifier is
    numeric, then by display id. *)
Definition findFlight (i : Js.Id) (fl : list Flight) : option Flight :=
  let byId :=
    match Js.toNumber i with
    | Some n => flightById n fl
    | None => None
    end in
  match byId with
  | Some f => Some f
  | None => flightByDisplayId i fl
  end.

(** ** Fares *)

(** [getPriceMultiplierForPassengerType]: the table, then [|| 1]. *)
Definition multipliers : list (string * Q) :=
  [("ADULT", 1%Q); ("CHILD", (3 # 4)%Q); ("INFANT", (1 # 10)%Q)].

Definition lookupMultiplier (t : string) : option Q :=
  option_map snd (find (fun kv => (fst kv =? t)%string) multipliers).

Definition getPriceMultiplierForPassengerType (t : string) : Q :=
  Js.or_price (lookupMultiplier t) 1%Q.

(** [determinePassengerTypeFromDOB]: the age in years is the elapsed time
    divided by 365.25 days; an invalid date compares false with both bounds. *)
Definition msPerYear : Z := 31557600000.

Definition determinePassengerTypeFromDOB (env : Env) (dobString : option string) : string :=
  match dobString with
  | None => "ADULT"
  | Some s =>
      if (s =? "")%string then "ADULT"
      else
        match parseDate env s with
        | Some t =>
            let elapsed := now_ms env - t in
            if elapsed <? 2 * msPerYear then "INFANT"
            else if elapsed <? 12 * msPerYear then "CHILD"
            else "ADULT"
        | None => "ADULT"
        end
  end.

(** The [switch (seatClass)] that picks the base price, with its fall-back
    on the economy price. *)
Definition basePriceOf (cls : string) (f : Flight) : Q :=
  if (cls =? "PREMIUM_ECONOMY")%string then Js.or_price (price_premium_economy f) (price_economy f)
  else if (cls =? "BUSINESS")%string then Js.or_price (price_business f) (price_economy f)
  else if (cls =? "FIRST")%string then Js.or_price (price_first f) (price_economy f)
  else price_economy f.

(** [passenger.passengerType || passenger.type ||
    determinePassengerTypeFromDOB(passenger.dob) || 'ADULT']. *)
Definition fareType (env : Env) (p : Passenger) : string :=
  Js.or_default
    (Js.or (passengerType p)
       (Js.or (type_ p) (Some (determinePassengerTypeFromDOB env (dob p)))))
    "ADULT".

Definition setCalculatedPassengerType (p : Passenger) (t : string) : Passenger :=
  mkPassenger (fullName p) (gender p) (dob p) (idNumber p) (passport_number_ p)
    (passportNumber p) (passengerType p) (type_ p) (Some t).

(** The first fare loop: adds each passenger's departure fare to
    [calculatedAmount] and writes [calculatedPassengerType] on the passenger. *)
Fixpoint departureFares (env : Env) (basePrice : Q) (ps : list Passenger)
    (calculatedAmount : Q) : Q * list Passenger :=
  match ps with
  | [] => (calculatedAmount, [])
  | passenger :: rest =>
      let passengerType := fareType env passenger in
      let passengerTypeMultiplier :=
        getPriceMultiplierForPassengerType (Js.toUpperCase passengerType) in
      let passengerPrice := (basePrice * passengerTypeMultiplier)%Q in
      let '(total, rest') :=
        departureFares env basePrice rest (calculatedAmount + passengerPrice)%Q in
      (total, setCalculatedPassengerType passenger (Js.toUpperCase passengerType) :: rest')
  end.

(** The second fare loop, over the return flight. *)
Fixpoint returnFares (returnBasePrice : Q) (ps : list Passenger) (calculatedAmount : Q) : Q :=
  match ps with
  | [] => calculatedAmount
  | passenger :: rest =>
      let passengerType := Js.or_default (calculatedPassengerType passenger) "ADULT" in
      let passengerTypeMultiplier := getPriceMultiplierForPassengerType passengerType in
      let passengerReturnPrice := (returnBasePrice * passengerTypeMultiplier)%Q in
      returnFares returnBasePrice rest (calculatedAmount + passengerReturnPrice)%Q
  end.

(** [calculatedAmount] at the end of the two loops, with the passengers as
    the first loop leaves them.  [returnFlight] is [None] unless the request
    is a round trip whose return flight was found. *)
Definition calculateAmount (env : Env) (cls : string) (departureFlight : Flight)
    (returnFlight : option Flight) (ps : list Passenger) : Q * list Passenger :=
  let basePrice := basePriceOf cls departureFlight in
  let '(calculatedAmount, ps') := departureFares env basePrice ps 0%Q in
  match returnFlight with
  | Some rf => (returnFares (basePriceOf cls rf) ps' calculatedAmount, ps')
  | None => (calculatedAmount, ps')
  end.

(** ** Promotions *)

(** The [WHERE] clause of the promotion lookup of [POST /api/bookings]. *)
Definition promoUsable (env : Env) (c : string) (p : Promotion) : bool :=
  (code p =? c)%string
  && Sql.lt (Some (used_count p)) (usage_limit p)
  && Sql.text_le (valid_from p) (today env)
  && Sql.text_ge (valid_to p) (today env).

(** [discountApplied]. *)
Definition discountOf (p : Promotion) (calculatedAmount : Q) : Q :=
  match discount_type p with
  | percent => (calculatedAmount * (discount_value p / 100))%Q
  | fixed => discount_value p
  end.

Definition setUsedCount (p : Promotion) (n : Z) : Promotion :=
  mkPromotion (promo_id p) (code p) (promo_name p) (discount_type p) (discount_value p)
    (valid_from p) (valid_to p) (usage_limit p) n (status p).

(** [UPDATE promotions SET used_count = used_count + 1 WHERE promo_id = ?]. *)
Definition incrementUsedCount (id : Z) (ps : list Promotion) : list Promotion :=
  map (fun p => if promo_id p =? id then setUsedCount p (used_count p + 1) else p) ps.

(** ** Statements on the store *)

Definition withFlights (f : list Flight -> list Flight) (db : Db) : Db :=
  mkDb (f (flights db)) (bookings db) (booking_details db) (payments db) (promotions db).

Definition withBookings (f : list Booking -> list Booking) (db : Db) : Db :=
  mkDb (flights db) (f (bookings db)) (booking_details db) (payments db) (promotions db).

Definition withDetails (f : list BookingDetail -> list BookingDetail) (db : Db) : Db :=
  mkDb (flights db) (bookings db) (f (booking_details db)) (payments db) (promotions db).

Definition withPayments (f : list Payment -> list Payment) (db : Db) : Db :=
  mkDb (flights db) (bookings db) (booking_details db) (f (payments db)) (promotions db).

Definition withPromotions (f : list Promotion -> list Promotion) (db : Db) : Db :=
  mkDb (flights db) (bookings db) (booking_details db) (payments db) (f (promotions db)).

(** [SELECT * FROM bookings WHERE booking_id = ?]. *)
Definition bookingById (id : string) (bs : list Booking) : option Booking :=
  find (fun b => (booking_id b =? id)%string) bs.

(** [DELETE FROM bookings WHERE booking_id = ?]. *)
Definition deleteBooking (id : string) (bs : list Booking) : list Booking :=
  filter (fun b => negb (booking_id b =? id)%string) bs.

(** [generateBookingId] drawn again until no booking carries the identifier;
    [None] when the draws run out first. *)
Fixpoint uniqueBookingId (draws : list string) (bs : list Booking) : option string :=
  match draws with
  | [] => None
  | bookingId :: rest =>
      match bookingById bookingId bs with
      | Some _ => uniqueBookingId rest bs
      | None => Some bookingId
      end
  end.

(** ** [POST /api/bookings] *)

Definition get (o : option string) : string :=
  match o with
  | Some s => s
  | None => ""
  end.

(** [o === s] for a string literal [s]. *)
Definition isLit (o : option string) (s : string) : bool :=
  match o with
  | Some x => (x =? s)%string
  | None => false
  end.

(** The [missingFields] of the validation step. *)
Definition missingFieldsOf (finalDepartureFlightId : option Js.Id)
    (ci : option CustomerInfo) (ps : option (list Passenger)) : list string :=
  ((if Js.truthy_id finalDepartureFlightId then [] else ["departureFlightId"])
   ++ (match ci with Some _ => [] | None => ["customerInfo"] end)
   ++ (match ps with Some (_ :: _) => [] | _ => ["passengers"] end))%list.

(** The counts stored when the request carries no [passengerCounts]. *)
Definition countPassengers (ps : list Passenger) : PassengerCounts :=
  mkCounts
    (List.length (filter (fun p => isLit (type_ p) "adult" || isLit (passengerType p) "ADULT") ps))
    (List.length (filter (fun p => isLit (type_ p) "child" || isLit (passengerType p) "CHILD") ps))
    (List.length (filter (fun p => isLit (type_ p) "infant" || isLit (passengerType p) "INFANT") ps)).

(** The passenger type written on a [booking_details] row. *)
Definition detailType (env : Env) (p : Passenger) : string :=
  if Js.truthy (type_ p) then
    let t := Js.toLowerCase (get (type_ p)) in
    if (t =? "adult")%string then "ADULT"
    else if (t =? "child")%string then "CHILD"
    else if (t =? "infant")%string then "INFANT"
    else "ADULT"
  else if Js.truthy (passengerType p) then Js.toUpperCase (get (passengerType p))
  else if Js.truthy (calculatedPassengerType p) then get (calculatedPassengerType p)
  else Js.or_default (Some (determinePassengerTypeFromDOB env (dob p))) "ADULT".

(** The [booking_details] row of a passenger. *)
Definition detailRow (env : Env) (bookingId : string) (svc : option SelectedServices)
    (p : Passenger) : BookingDetail :=
  let passportNumber :=
    Js.or_default
      (Js.or (idNumber p) (Js.or (passport_number_ p) (passportNumber p))) "UNKNOWN_ID" in
  let on (sel : SelectedServices -> bool) :=
    match svc with Some s => sel s | None => false end in
  mkDetail bookingId (get (fullName p))
    (Js.or_default (gender p) "UNKNOWN")
    (Js.or (dob p) None)
    passportNumber
    (detailType env p)
    (if on luggage then 23 else 0)
    (if on insurance then 1 else 0)
    (if on (fun s => meal s || food s) then 1 else 0).

(** The loop over the passengers after the booking row is written.  A
    passenger without [fullName] answers 400 on the spot; an [INSERT] that
    throws is caught, the booking row is deleted and a new error is thrown. *)
Fixpoint insertPassengers (env : Env) (bookingId : string) (svc : option SelectedServices)
    (i : nat) (ps : list Passenger) : M BookingResponse unit :=
  match ps with
  | [] => ret tt
  | passenger :: rest =>
      if negb (Js.truthy (fullName passenger)) then reply PassengerMissingFields
      else
        match detailInsertError env i with
        | Some insertError =>
            run (withBookings (deleteBooking bookingId)) ;;;
            throw (OtherError ("Failed to save passenger details: " ++ insertError))
        | None =>
            run (withDetails (fun ds => (ds ++ [detailRow env bookingId svc passenger])%list)) ;;;
            insertPassengers env bookingId svc (S i) rest
        end
  end.

(** The two-step lookup of a flight, answering 404 when it finds none. *)
Definition lookupFlight (leg : Leg) (i : Js.Id) : M BookingResponse Flight :=
  found <- query (fun db => findFlight i (flights db)) ;;
  match found with
  | Some f => ret f
  | None => reply (FlightNotFound leg i)
  end.

(** The amount before the clamp, and the passengers as the fare loop leaves
    them: the total the caller supplied, or the calculated amount less the
    discount of a usable promotion, whose [used_count] is incremented. *)
Definition amountOf (env : Env) (req : BookingRequest) (cls : string)
    (departureFlight : Flight) (returnFlight : option Flight) (ps : list Passenger)
    : M BookingResponse (Q * list Passenger) :=
  match totalAmount req with
  | Some t => ret (t, ps)
  | None =>
      let '(calculatedAmount, ps') :=
        calculateAmount env cls departureFlight returnFlight ps in
      if Js.truthy (promoCode req) then
        promo <- query (fun db => find (promoUsable env (get (promoCode req))) (promotions db)) ;;
        match promo with
        | Some p =>
            let discountApplied := discountOf p calculatedAmount in
            run (withPromotions (incrementUsedCount (promo_id p))) ;;;
            ret ((calculatedAmount - discountApplied)%Q, ps')
        | None => ret (calculatedAmount, ps')
        end
      else ret (calculatedAmount, ps')
  end.

(** [finalDepartureFlightId], [finalReturnFlightId], [finalIsRoundTrip]. *)
Definition finalDepartureFlightId (req : BookingRequest) : option Js.Id :=
  Js.or_id (departureFlightId req) (departure_flight_id_ req).

Definition finalReturnFlightId (req : BookingRequest) : option Js.Id :=
  Js.or_id (returnFlightId req) (return_flight_id_ req).

Definition finalIsRoundTrip (req : BookingRequest) : bool :=
  isRoundTrip req || is_round_trip_ req.

(** [customerInfo.seatClass || 'ECONOMY']. *)
Definition seatClassOf (ci : CustomerInfo) : string :=
  Js.or_default (seatClass ci) "ECONOMY".

(** The two seat checks, on the rows as they were read.  [returnFlight] is
    present only for a round trip, so [finalIsRoundTrip && returnFlight] is
    the test that it is present. *)
Definition checkAvailability (cls : string) (totalPassengers : Z)
    (departureFlight : Flight) (returnFlight : option Flight) : M BookingResponse unit :=
  let seatField := seatFieldOf cls in
  let seatValue := seatValueOf departureFlight seatField in
  if Js.lt_num seatValue totalPassengers
  then reply (NotEnoughSeats Departure seatValue totalPassengers cls)
  else
    match returnFlight with
    | Some rf =>
        let returnSeatValue := seatValueOf rf seatField in
        if Js.lt_num returnSeatValue totalPassengers
        then reply (NotEnoughSeats Return returnSeatValue totalPassengers cls)
        else ret tt
    | None => ret tt
    end.

(** The [INSERT INTO payments], when a payment method is given. *)
Definition insertPayment (req : BookingRequest) (bookingId : string) : M BookingResponse unit :=
  if Js.truthy (paymentMethod req) then
    let given := get (paymentMethod req) in
    let paymentMethod :=
      if (given =? "bank_transfer")%string || (given =? "momo")%string
      then given else "momo" in
    taken <- query (fun db =>
      existsb (fun p => (p_booking_id p =? bookingId)%string) (payments db)) ;;
    if (taken : bool) then
      throw (SqliteConstraint
               "SQLITE_CONSTRAINT: UNIQUE constraint failed: payments.booking_id")
    else
      run (withPayments (fun l => (l ++
        [mkPayment bookingId paymentMethod (Js.or (transactionInfo req) None)])%list))
  else ret tt.

(** The booking row of the [INSERT INTO bookings]. *)
Definition bookingRow (env : Env) (req : BookingRequest) (ci : CustomerInfo)
    (bookingId : string) (departureFlight : Flight) (returnId : option Z)
    (contactName : string) (finalAmount : Q) (ps : list Passenger) : Booking :=
  let passengerCountsJSON :=
    match passengerCounts req with
    | Some c => c
    | None => countPassengers ps
    end in
  mkBooking bookingId (flight_id departureFlight) returnId contactName
    (ci_email ci) (ci_phone ci) (seatClassOf ci) finalAmount (now_iso env)
    (Some "unpaid") (Js.or (promoCode req) None) passengerCountsJSON
    (if finalIsRoundTrip req then 1 else 0).

(** From the booking identifier to the 201 response: the identifier loop,
    the two seat reservations, the booking row, the passenger rows and the
    payment row. *)
Definition persistBooking (env : Env) (req : BookingRequest) (ci : CustomerInfo)
    (departureFlight : Flight) (returnFlight : option Flight)
    (finalAmount : Q) (ps : list Passenger) : M BookingResponse BookingResponse :=
  let totalPassengers := Z.of_nat (List.length ps) in
  let seatField := seatFieldOf (seatClassOf ci) in
  drawn <- query (fun db => uniqueBookingId (bookingIdDraws env) (bookings db)) ;;
  bookingId <- (match drawn with Some b => ret b | None => spin end) ;;
  run (withFlights (reserveSeats (flight_id departureFlight) seatField totalPassengers)) ;;;
  (match returnFlight with
   | Some rf => run (withFlights (reserveSeats (flight_id rf) seatField totalPassengers))
   | None => ret tt
   end) ;;;
  returnId <-
    (if finalIsRoundTrip req then
       match returnFlight with
       | Some rf => ret (Some (flight_id rf))
       | None => throw (OtherError "Cannot read properties of null (reading 'flight_id')")
       end
     else ret None) ;;
  contactName <-
    (match ci_fullName ci with
     | Some n => ret n
     | None =>
         throw (SqliteConstraint
                  "SQLITE_CONSTRAINT: NOT NULL constraint failed: bookings.contact_name")
     end) ;;
  run (withBookings (fun bs => (bs ++
    [bookingRow env req ci bookingId departureFlight returnId contactName finalAmount ps])%list)) ;;;
  insertPassengers env bookingId (selectedServices req) 0 ps ;;;
  insertPayment req bookingId ;;;
  ret (BookingCreated bookingId departureFlight finalAmount).

(** The handler once the request is validated and its flights are found. *)
Definition bookFlights (env : Env) (req : BookingRequest) (ci : CustomerInfo)
    (ps : list Passenger) (departureFlight : Flight) (returnFlight : option Flight)
    : M BookingResponse BookingResponse :=
  let totalPassengers := Z.of_nat (List.length ps) in
  let cls := seatClassOf ci in
  checkAvailability cls totalPassengers departureFlight returnFlight ;;;
  priced <- amountOf env req cls departureFlight returnFlight ps ;;
  let finalAmount := Js.max0 (fst priced) in
  persistBooking env req ci departureFlight returnFlight finalAmount (snd priced).

(** The lookup of the return flight, made for a round trip that names one. *)
Definition lookupReturnFlight (req : BookingRequest) : M BookingResponse (option Flight) :=
  match finalReturnFlightId req with
  | Some retId =>
      if finalIsRoundTrip req && Js.truthy_id (finalReturnFlightId req)
      then (rf <- lookupFlight Return retId ;; ret (Some rf))
      else ret None
  | None => ret None
  end.

(** The body of the handler, inside its [try]. *)
Definition createBookingBody (env : Env) (req : BookingRequest)
    : M BookingResponse BookingResponse :=
  let missingFields :=
    missingFieldsOf (finalDepartureFlightId req) (customerInfo req) (passengers req) in
  match missingFields, finalDepartureFlightId req, customerInfo req, passengers req with
  | [], Some depId, Some ci, Some ps =>
      departureFlight <- lookupFlight Departure depId ;;
      returnFlight <- lookupReturnFlight req ;;
      bookFlights env req ci ps departureFlight returnFlight
  | _, _, _, _ => reply (MissingBookingInfo missingFields)
  end.

(** The [catch] of the handler. *)
Definition createBookingCatch (error : Exn) : BookingResponse :=
  match error with
  | SqliteConstraint m => ConstraintFailure m
  | OtherError m => BookingFailed m
  end.

Definition createBooking (env : Env) (req : BookingRequest) (db : Db)
    : Result BookingResponse * Db :=
  handle createBookingCatch (createBookingBody env req) db.

(** ** [PATCH /api/bookings/:id/payment] *)

Inductive PaymentResponse :=
| StatusRequired      (* 400 'Payment status is required' *)
| InvalidStatus       (* 400 'Invalid payment status', admin route only *)
| BookingNotFound     (* 404 'Booking not found' *)
| StatusUpdated       (* 200 'Payment status updated successfully' *)
| UpdateFailed.       (* 500 'Failed to update payment status' *)

(** [SELECT * FROM promotions WHERE code = ?]. *)
Definition promotionByCode (c : string) (ps : list Promotion) : option Promotion :=
  find (fun p => (code p =? c)%string) ps.

(** [SELECT COUNT( * ) FROM booking_details WHERE booking_id = ?]. *)
Definition countDetails (id : string) (ds : list BookingDetail) : Z :=
  Z.of_nat (List.length (filter (fun d => (d_booking_id d =? id)%string) ds)).

Definition setPaymentStatus (b : Booking) (st : string) : Booking :=
  mkBooking (booking_id b) (departure_flight_id b) (return_flight_id b) (contact_name b)
    (email b) (phone b) (travel_class b) (total_amount b) (booking_time b)
    (Some st) (promo_code b) (passengers_info b) (is_round_trip b).

(** [UPDATE bookings SET payment_status = ? WHERE booking_id = ?]. *)
Definition updateStatus (id st : string) (bs : list Booking) : list Booking :=
  map (fun b => if (booking_id b =? id)%string then setPaymentStatus b st else b) bs.

(** [result.changes] of that statement. *)
Definition changesOf (id : string) (bs : list Booking) : nat :=
  List.length (filter (fun b => (booking_id b =? id)%string) bs).

(** The steps both payment-status routes share, from the lookup of the
    booking on. *)
Definition applyPaymentStatus (bookingId paymentStatus : string)
    : M PaymentResponse PaymentResponse :=
  found <- query (fun db => bookingById bookingId (bookings db)) ;;
  match found with
  | None => reply BookingNotFound
  | Some currentBooking =>
      (if (paymentStatus =? "paid")%string
          && negb (isLit (payment_status currentBooking) "paid")
          && Js.truthy (promo_code currentBooking)
       then
         promo <- query (fun db =>
           promotionByCode (get (promo_code currentBooking)) (promotions db)) ;;
         match promo with
         | Some p => run (withPromotions (incrementUsedCount (promo_id p)))
         | None => ret tt
         end
       else ret tt) ;;;
      (if ((paymentStatus =? "cancelled")%string || (paymentStatus =? "refunded")%string)
          && (isLit (payment_status currentBooking) "paid"
              || isLit (payment_status currentBooking) "unpaid")
       then
         passengerCount <- query (fun db => countDetails bookingId (booking_details db)) ;;
         let cls := Js.or_default (Some (travel_class currentBooking)) "ECONOMY" in
         let seatField := seatFieldOf cls in
         run (withFlights
                (releaseSeats (departure_flight_id currentBooking) seatField passengerCount)) ;;;
         match return_flight_id currentBooking with
         | Some returnId =>
             if (is_round_trip currentBooking =? 1) && negb (returnId =? 0)
             then run (withFlights (releaseSeats returnId seatField passengerCount))
             else ret tt
         | None => ret tt
         end
       else ret tt) ;;;
      changes <- query (fun db => changesOf bookingId (bookings db)) ;;
      run (withBookings (updateStatus bookingId paymentStatus)) ;;;
      match changes with
      | O => reply BookingNotFound
      | S _ => ret StatusUpdated
      end
  end.

Definition updatePaymentStatusBody (bookingId : string) (paymentStatus : option string)
    : M PaymentResponse PaymentResponse :=
  if negb (Js.truthy paymentStatus) then reply StatusRequired
  else applyPaymentStatus bookingId (get paymentStatus).

Definition updatePaymentStatus (bookingId : string) (paymentStatus : option string) (db : Db)
    : Result PaymentResponse * Db :=
  handle (fun _ => UpdateFailed) (updatePaymentStatusBody bookingId paymentStatus) db.




(** ** [POST /api/promotions/validate] *)

Inductive ValidateResponse :=
| CodeRequired        (* 400 'Promotion code is required' *)
| InvalidOrInactive   (* 404 'Invalid or inactive promotion code' *)
| NotValidYet         (* 404 'Promotion code is not valid yet' *)
| HasExpired          (* 404 'Promotion code has expired' *)
| PromoValid (promoCode promoName : string) (discountType : DiscountType)
    (discountValue : Q) (promoStatus : PromoStatus)
                      (* 200 with valid: true *)
| ValidateFailed.     (* 500 'Failed to validate promotion code' *)

(** [new Date(text)] of a nullable text column, in milliseconds: [null]
    is the epoch, an unreadable text is an invalid date ([None]). *)
Definition dateOf (env : Env) (text : option string) : option Z :=
  match text with
  | Some s => parseDate env s
  | None => Some 0
  end.

(** [a < b] on two dates; an invalid date compares false. *)
Definition date_lt (a b : option Z) : bool :=
  match a, b with
  | Some x, Some y => x <? y
  | _, _ => false
  end.

Definition notInactive (st : PromoStatus) : bool :=
  match st with
  | inactive => false
  | _ => true
  end.

(** The [WHERE] clause of the lookup: [code = ? AND status != "inactive" AND
    used_count < usage_limit]. *)
Definition promoOpen (c : string) (p : Promotion) : bool :=
  (code p =? c)%string && notInactive (status p)
  && Sql.lt (Some (used_count p)) (usage_limit p).

Definition validatePromotionBody (env : Env) (codeGiven : option string)
    : M ValidateResponse ValidateResponse :=
  if negb (Js.truthy codeGiven) then reply CodeRequired
  else
    promo <- query (fun db => find (promoOpen (get codeGiven)) (promotions db)) ;;
    match promo with
    | None => reply InvalidOrInactive
    | Some p =>
        let currentDate := Some (now_ms env) in
        let validFrom := dateOf env (valid_from p) in
        let validTo := dateOf env (valid_to p) in
        if date_lt currentDate validFrom then reply NotValidYet
        else if date_lt validTo currentDate then reply HasExpired
        else ret (PromoValid (code p) (promo_name p) (discount_type p) (discount_value p)
                    (status p))
    end.

Definition validatePromotion (env : Env) (codeGiven : option string) (db : Db)
    : Result ValidateResponse * Db :=
  handle (fun _ => ValidateFailed) (validatePromotionBody env codeGiven) db.

(** ** Predicates used by the statements *)

(** The return leg of a request against a store: none for a request that
    is not a round trip or names no return flight, otherwise the flight the
    two-step lookup finds. *)
Inductive ReturnResolved (req : BookingRequest) (db : Db) : option Flight -> Prop :=
| NoReturnLeg :
    finalIsRoundTrip req && Js.truthy_id (finalReturnFlightId req) = false ->
    ReturnResolved req db None
| ReturnLeg (retId : Js.Id) (rf : Flight) :
    finalIsRoundTrip req = true ->
    finalReturnFlightId req = Some retId ->
    Js.truthy_id (Some retId) = true ->
    findFlight retId (flights db) = Some rf ->
    ReturnResolved req db (Some rf).

(** A request that passes the validation step and whose flights are found:
    [ci] and [ps] are its customer and passengers, [dep] and [ret] the rows
    of its departure and return flights. *)
Record Resolved (req : BookingRequest) (db : Db) (ci : CustomerInfo)
    (ps : list Passenger) (dep : Flight) (ret : option Flight) : Prop := mkResolved {
  res_departure :
    exists depId, finalDepartureFlightId req = Some depId
                  /\ Js.truthy_id (Some depId) = true
                  /\ findFlight depId (flights db) = Some dep;
  res_customer : customerInfo req = Some ci;
  res_passengers : passengers req = Some ps;
  res_nonempty : ps <> [];
  res_return : ReturnResolved req db ret
}.

(** A resolved request that the handler carries as far as the [INSERT] of
    the booking row: each leg has the seats, [bid] is the identifier the
    loop settles on, the return flight of a round trip is known and the
    customer has a name, [contactName]. *)
Record Accepted (env : Env) (req : BookingRequest) (db : Db) (ci : CustomerInfo)
    (ps : list Passenger) (dep : Flight) (ret : option Flight)
    (bid contactName : string) : Prop := mkAccepted {
  acc_resolved : Resolved req db ci ps dep ret;
  acc_departure_seats :
    Js.lt_num (seatValueOf dep (seatFieldOf (seatClassOf ci)))
      (Z.of_nat (List.length ps)) = false;
  acc_return_seats :
    forall rf, ret = Some rf ->
      Js.lt_num (seatValueOf rf (seatFieldOf (seatClassOf ci)))
        (Z.of_nat (List.length ps)) = false;
  acc_identifier : uniqueBookingId (bookingIdDraws env) (bookings db) = Some bid;
  acc_return_known : finalIsRoundTrip req = true -> ret <> None;
  acc_contact : ci_fullName ci = Some contactName
}.

(** The flights table once the seats of a booking are reserved. *)
Definition reservedFlights (ci : CustomerInfo) (ps : list Passenger) (dep : Flight)
    (ret : option Flight) (fl : list Flight) : list Flight :=
  let n := Z.of_nat (List.length ps) in
  let sf := seatFieldOf (seatClassOf ci) in
  let reserved := reserveSeats (flight_id dep) sf n fl in
  match ret with
  | Some rf => reserveSeats (flight_id rf) sf n reserved
  | None => reserved
  end.

(** A relation between the store before a step and the store after it that
    holds whatever the outcome of the step. *)
Definition stable {R A} (P : Db -> Db -> Prop) (m : M R A) : Prop :=
  forall db, P db (snd (m db)).

(** Every response with which a step answers the request satisfies [Q]. *)
Definition replies {R A} (Q : R -> Prop) (m : M R A) : Prop :=
  forall db r db', m db = (Reply r, db') -> Q r.

(** ** The specification's fare and discount rules *)

(** [passengerMultiplier] as the specification words it: ADULT 1.0,
    CHILD 0.75, INFANT 0.10, any other type 1.0. *)
Definition passengerMultiplier (passengerType : string) : Q :=
  if (passengerType =? "ADULT")%string then 1%Q
  else if (passengerType =? "CHILD")%string then (3 # 4)%Q
  else if (passengerType =? "INFANT")%string then (1 # 10)%Q
  else 1%Q.

(** The type under which the handler prices a passenger: the type the
    request gives, or the one derived from the date of birth, in upper case. *)
Definition classifiedType (env : Env) (p : Passenger) : string :=
  Js.toUpperCase (fareType env p).



(** [applyDiscount(amount, kind, magnitude)] before the floor at 0. *)
Definition applyDiscount (amount : Q) (kind : DiscountType) (magnitude : Q) : Q :=
  match kind with
  | percent => (amount - amount * (magnitude / 100))%Q
  | fixed => (amount - magnitude)%Q
  end.

(** The promotion a request's promo code selects at creation time: the
    first row the lookup of the handler accepts, none without a code. *)
Definition promoFor (env : Env) (req : BookingRequest) (db : Db) : option Promotion :=
  if Js.truthy (promoCode req)
  then find (promoUsable env (get (promoCode req))) (promotions db)
  else None.

(** The amount a booking is to carry: the caller's total when there is one,
    otherwise the calculated amount less the discount of the promotion, if
    any; never below 0. *)
Definition expectedAmount (env : Env) (req : BookingRequest) (db : Db)
    (calculatedAmount : Q) : Q :=
  Js.max0
    match totalAmount req with
    | Some t => t
    | None =>
        match promoFor env req db with
        | Some p => applyDiscount calculatedAmount (discount_type p) (discount_value p)
        | None => calculatedAmount
        end
    end.

(** ** The specification's promotion validator *)

(** The outcomes of [validate(code, now)] in the specification. *)
Inductive PromoOutcome :=
| PromoNotFound
| PromoExhausted
| PromoNotYetValid
| PromoExpired
| PromoAccepted (kind : DiscountType) (magnitude : Q).

(** Usage count at or above the usage cap. *)
Definition exhausted (p : Promotion) : bool :=
  match usage_limit p with
  | Some cap => cap <=? used_count p
  | None => false
  end.

(** [validate(code, now)] as the specification words it: not found when the
    code is absent or the promotion inactive, then exhausted, then not yet
    valid, then expired, else the discount kind and magnitude. *)
Definition specValidate (env : Env) (c : string) (ps : list Promotion) : PromoOutcome :=
  match promotionByCode c ps with
  | None => PromoNotFound
  | Some p =>
      if negb (notInactive (status p)) then PromoNotFound
      else if exhausted p then PromoExhausted
      else if date_lt (Some (now_ms env)) (dateOf env (valid_from p)) then PromoNotYetValid
      else if date_lt (dateOf env (valid_to p)) (Some (now_ms env)) then PromoExpired
      else PromoAccepted (discount_type p) (discount_value p)
  end.

(** The same, except that a promotion whose usage count is not below its
    usage cap (exhausted, or without a cap) is reported as not found. *)
Definition validateOutcome (env : Env) (c : string) (ps : list Promotion) : PromoOutcome :=
  match promotionByCode c ps with
  | None => PromoNotFound
  | Some p =>
      if negb (notInactive (status p)) then PromoNotFound
      else if negb (Sql.lt (Some (used_count p)) (usage_limit p)) then PromoNotFound
      else if date_lt (Some (now_ms env)) (dateOf env (valid_from p)) then PromoNotYetValid
      else if date_lt (dateOf env (valid_to p)) (Some (now_ms env)) then PromoExpired
      else PromoAccepted (discount_type p) (discount_value p)
  end.

(** What a response of the validation route says, in the specification's
    terms; the 400 and 500 responses say nothing about the promotion. *)
Definition outcomeOf (r : ValidateResponse) : option PromoOutcome :=
  match r with
  | InvalidOrInactive => Some PromoNotFound
  | NotValidYet => Some PromoNotYetValid
  | HasExpired => Some PromoExpired
  | PromoValid _ _ kind magnitude _ => Some (PromoAccepted kind magnitude)
  | CodeRequired => None
  | ValidateFailed => None
  end.

(** ** Seat-count invariants *)

(** A seat count that is NULL counts for nothing in a total, as in the
    [(seats || 0)] of the statement that creates a flight. *)
Definition orZero (v : option Z) : Z :=
  match v with
  | Some x => x
  | None => 0
  end.

(** The sum of the per-class seat counts of a flight. *)
Definition seatTotal (f : Flight) : Z :=
  seats_economy f + orZero (seats_premium_economy f) + orZero (seats_business f)
  + orZero (seats_first f).

(** The aggregate seat count equals the sum of the per-class counts. *)
Definition aggregateMatches (f : Flight) : Prop :=
  available_seats f = seatTotal f.




(** No seat count of the flight, per class or aggregate, is negative. *)
Definition seatsNonNegative (f : Flight) : Prop :=
  0 <= seats_economy f /\ 0 <= orZero (seats_premium_economy f)
  /\ 0 <= orZero (seats_business f) /\ 0 <= orZero (seats_first f)
  /\ 0 <= available_seats f.


(** [travel_class || 'ECONOMY'] of a booking row, as a seat column. *)
Definition seatFieldOfBooking (b : Booking) : SeatField :=
  seatFieldOf (Js.or_default (Some (travel_class b)) "ECONOMY").

(** ** A sample store and sample requests *)

Module Sample.

(** Flight 1 has 3 economy and 4 business seats; premium economy is not
    offered. *)
Definition flight1 : Flight :=
  mkFlight 1 "VN" "100" (1000000 # 1) None (Some (2500000 # 1)) None
    3 (Some 0) (Some 4) (Some 0) 7.

Definition flight2 : Flight :=
  mkFlight 2 "VN" "101" (800000 # 1) None None None 10 (Some 0) (Some 0) (Some 0) 10.

Definition welcome10 : Promotion :=
  mkPromotion 1 "WELCOME10" "Welcome" percent (10 # 1)
    (Some "2025-01-01") (Some "2025-12-31") (Some 500) 0 active.

Definition fixed200k : Promotion :=
  mkPromotion 2 "FIXED200K" "200K off" fixed (200000 # 1)
    (Some "2025-05-01") (Some "2025-07-31") (Some 50) 50 active.

Definition db : Db := mkDb [flight1; flight2] [] [] [] [welcome10; fixed200k].

(** Dates are read as days since the epoch here; 20254 is 2025-06-15. *)
Definition env : Env :=
  mkEnv "2025-06-15" (20254 * 86400000) "2025-06-15T12:00:00.000Z"
    (fun s =>
       if (s =? "2025-01-01")%string then Some (20089 * 86400000)
       else if (s =? "2025-05-01")%string then Some (20209 * 86400000)
       else if (s =? "2025-07-31")%string then Some (20300 * 86400000)
       else if (s =? "2025-12-31")%string then Some (20453 * 86400000)
       else None)
    ["AAAAAAAAAA"; "BBBBBBBBBB"] (fun _ => None).

(** The same environment, where the insertion of the second passenger row
    fails. *)
Definition failingEnv : Env :=
  mkEnv (today env) (now_ms env) (now_iso env) (parseDate env) (bookingIdDraws env)
    (fun i => if (i =? 1)%nat then Some "SQLITE_BUSY: database is locked" else None).

Definition adult (n : string) : Passenger :=
  mkPassenger (Some n) None None None None None (Some "ADULT") None None.

Definition child (n : string) : Passenger :=
  mkPassenger (Some n) None None None None None None (Some "child") None.

Definition customer : CustomerInfo := mkCustomer (Some "Lan") None None None.

(** One way on flight 1, with the given passengers and optional fields. *)
Definition oneWay (ps : list Passenger) (promo : option string) (total : option Q)
    : BookingRequest :=
  mkRequest (Some (Js.IdNum 1)) None None None false false (Some customer) (Some ps)
    None promo total None None None.

(** Round trip from flight 1 (by display id) to the flight [back]. *)
Definition roundTrip (back : Z) (ps : list Passenger) (promo : option string)
    (total : option Q) : BookingRequest :=
  mkRequest (Some (Js.IdStr "VN100")) None (Some (Js.IdNum back)) None true false
    (Some customer) (Some ps) None promo total None None None.

Definition two : list Passenger := [adult "A"; child "B"].
Definition five : list Passenger := [adult "A"; adult "B"; adult "C"; adult "D"; adult "E"].

End Sample.


From Stdlib Require Import Qround Lqa.

(** * The rest of the booking, payment, promotion and flight routes

    ** [formatFlightForClient] *)

(** [p || null] on a nullable price: a price of 0 is shown as none. *)
Definition orNull (p : option Q) : option Q :=
  match p with
  | Some v => if Qeq_bool v 0 then None else Some v
  | None => None
  end.

(** The fields of the object [formatFlightForClient] builds that come from
    the columns of [Flight]; the fields built from the other columns (names,
    airports, times, status, classes) are left out with them. *)
Record FlightView := mkView {
  v_id : string;
  v_flight_id : Z;
  v_price : Q;
  v_price_economy : Q;
  v_price_premium_economy : option Q;
  v_price_business : option Q;
  v_price_first : option Q;
  v_seats_economy : Z;
  v_seats_premium_economy : Z;
  v_seats_business : Z;
  v_seats_first : Z;
  v_available_seats : Z
}.

Definition formatFlightForClient (flight : Flight) : FlightView :=
  (* flight.price_economy || flight.price || 0, there being no column [price] *)
  let basePrice := Js.or_price (Some (price_economy flight)) 0%Q in
  mkView
    (airline_code flight ++ flight_number flight)
    (flight_id flight)
    basePrice
    (Js.or_price (Some (price_economy flight)) basePrice)
    (orNull (price_premium_economy flight))
    (orNull (price_business flight))
    (orNull (price_first flight))
    (orZero (Some (seats_economy flight)))
    (orZero (seats_premium_economy flight))
    (orZero (seats_business flight))
    (orZero (seats_first flight))
    (available_seats flight).

(** The price the view shows for a fare class: [prices[seatClass]]. *)
Definition viewPrice (v : FlightView) (sf : SeatField) : option Q :=
  match sf with
  | seats_economy_f => Some (v_price_economy v)
  | seats_premium_economy_f => v_price_premium_economy v
  | seats_business_f => v_price_business v
  | seats_first_f => v_price_first v
  end.

(** ** [GET /api/bookings/:id] *)

Inductive GetBookingResponse :=
| GetBookingNotFound            (* 404 'Booking not found' *)
| GetDepartureMissing           (* 404 'Departure flight not found for this booking' *)
| BookingFound (booking : Booking) (departureFlight : FlightView)
    (returnFlight : option FlightView) (passengers : list BookingDetail)
    (paymentInfo : option Payment)
| GetBookingFailed.             (* 500 'Failed to fetch booking details' *)

(** [SELECT * FROM booking_details WHERE booking_id = ?]. *)
Definition detailsOf (id : string) (ds : list BookingDetail) : list BookingDetail :=
  filter (fun d => (d_booking_id d =? id)%string) ds.

(** [SELECT * FROM payments WHERE booking_id = ?]. *)
Definition paymentOf (id : string) (ps : list Payment) : option Payment :=
  find (fun p => (p_booking_id p =? id)%string) ps.

Definition getBookingBody (bookingId : string) : M GetBookingResponse GetBookingResponse :=
  found <- query (fun db => bookingById bookingId (bookings db)) ;;
  match found with
  | None => reply GetBookingNotFound
  | Some booking =>
      departure <- query (fun db => flightById (departure_flight_id booking) (flights db)) ;;
      match departure with
      | None => reply GetDepartureMissing
      | Some departureFlight =>
          returnFlight <-
            (match return_flight_id booking with
             | Some returnId =>
                 if (is_round_trip booking =? 1) && negb (returnId =? 0)
                 then query (fun db => flightById returnId (flights db))
                 else ret None
             | None => ret None
             end) ;;
          passengers <- query (fun db => detailsOf bookingId (booking_details db)) ;;
          paymentInfo <- query (fun db => paymentOf bookingId (payments db)) ;;
          ret (BookingFound booking (formatFlightForClient departureFlight)
                 (option_map formatFlightForClient returnFlight) passengers paymentInfo)
      end
  end.

Definition getBooking (bookingId : string) (db : Db) : Result GetBookingResponse * Db :=
  handle (fun _ => GetBookingFailed) (getBookingBody bookingId) db.

(** ** [POST /api/payments] and [GET /api/payments/:bookingId] *)

Inductive SavePaymentResponse :=
| PaymentInfoMissing      (* 400 'Missing required payment information' *)
| InvalidPaymentMethod    (* 400 'Invalid payment method' *)
| PaymentBookingNotFound  (* 404 'Booking not found' *)
| PaymentSaved            (* 200 'Payment information saved successfully' *)
| SavePaymentFailed.      (* 500 'Failed to save payment information' *)

(** [UPDATE payments SET method = ?, transaction_info = ? WHERE booking_id = ?]
    (the column [payment_date], which it also sets, is not in [Payment]). *)
Definition updatePayment (id method : string) (info : option string) (ps : list Payment)
    : list Payment :=
  map (fun p => if (p_booking_id p =? id)%string then mkPayment (p_booking_id p) method info
                else p) ps.

Definition savePaymentBody (bookingId method transactionInfo : option string)
    : M SavePaymentResponse SavePaymentResponse :=
  if negb (Js.truthy bookingId) || negb (Js.truthy method) then reply PaymentInfoMissing
  else
    let id := get bookingId in
    let m := get method in
    if negb (m =? "bank_transfer")%string && negb (m =? "momo")%string
    then reply InvalidPaymentMethod
    else
      existingBooking <- query (fun db => bookingById id (bookings db)) ;;
      match existingBooking with
      | None => reply PaymentBookingNotFound
      | Some _ =>
          existingPayment <- query (fun db => paymentOf id (payments db)) ;;
          (match existingPayment with
           | Some _ => run (withPayments (updatePayment id m (Js.or transactionInfo None)))
           | None =>
               run (withPayments (fun l =>
                      (l ++ [mkPayment id m (Js.or transactionInfo None)])%list))
           end) ;;;
          run (withBookings (updateStatus id "pending")) ;;;
          ret PaymentSaved
      end.

Definition savePayment (bookingId method transactionInfo : option string) (db : Db)
    : Result SavePaymentResponse * Db :=
  handle (fun _ => SavePaymentFailed) (savePaymentBody bookingId method transactionInfo) db.

Inductive GetPaymentResponse :=
| GetPaymentBookingNotFound   (* 404 'Booking not found' *)
| PaymentNotFound             (* 404 'Payment information not found' *)
| PaymentFound (payment : Payment)
| GetPaymentFailed.           (* 500 'Failed to fetch payment information' *)

Definition getPaymentBody (bookingId : string) : M GetPaymentResponse GetPaymentResponse :=
  existingBooking <- query (fun db => bookingById bookingId (bookings db)) ;;
  match existingBooking with
  | None => reply GetPaymentBookingNotFound
  | Some _ =>
      payment <- query (fun db => paymentOf bookingId (payments db)) ;;
      match payment with
      | None => reply PaymentNotFound
      | Some p => ret (PaymentFound p)
      end
  end.

Definition getPayment (bookingId : string) (db : Db) : Result GetPaymentResponse * Db :=
  handle (fun _ => GetPaymentFailed) (getPaymentBody bookingId) db.

(** ** The promotion administration routes *)

(** A numeric field of a request body: absent, [null], or a number. *)
Inductive JsNum :=
| NumUndefined
| NumNull
| Num (v : Q).

(** The body of [POST /api/promotions/create] and [/update] (the
    description, like its column, is left out). *)
Record PromotionRequest := mkPromotionRequest {
  pr_promo_id : option Z;
  pr_code : option string;
  pr_name : option string;
  pr_type : option string;
  pr_discount_type : option string;
  pr_discount_value : JsNum;
  pr_valid_from : option string;
  pr_valid_to : option string;
  pr_usage_limit : option Z;
  pr_status : option string
}.

Inductive PromotionResponse :=
| PromotionInfoMissing    (* 400 'Missing required promotion information' *)
| PromotionIdRequired     (* 400 'Promotion ID is required' *)
| PromotionCodeExists     (* 400 'Promotion code already exists' *)
| PromotionNotFound       (* 404 'Promotion not found' *)
| PromotionCreated (p : option Promotion)   (* 201 with the row read back *)
| PromotionUpdated (p : option Promotion)   (* 200 with the row read back *)
| PromotionDeleted        (* 200 'Promotion deleted successfully' *)
| PromotionFailed.        (* 500 'Failed to create / update / delete promotion' *)

(** The values the [CHECK] constraints of [promotions] admit. *)
Definition parseDiscountType (s : string) : option DiscountType :=
  if (s =? "percent")%string then Some percent
  else if (s =? "fixed")%string then Some fixed
  else None.

Definition parseStatus (s : string) : option PromoStatus :=
  if (s =? "active")%string then Some active
  else if (s =? "inactive")%string then Some inactive
  else if (s =? "scheduled")%string then Some scheduled
  else if (s =? "expired")%string then Some expired
  else None.

(** [discount_type || (type === 'percentage' ? 'percent' : type)], for a
    request in which one of the two is given. *)
Definition finalDiscountType (req : PromotionRequest) : string :=
  if Js.truthy (pr_discount_type req) then get (pr_discount_type req)
  else if isLit (pr_type req) "percentage" then "percent"
  else get (pr_type req).

(** The validation the create and update routes share. *)
Definition promotionInfoMissing (req : PromotionRequest) : bool :=
  negb (Js.truthy (pr_code req)) || negb (Js.truthy (pr_name req))
  || (negb (Js.truthy (pr_type req)) && negb (Js.truthy (pr_discount_type req)))
  || match pr_discount_value req with NumUndefined => true | _ => false end.

(** [SELECT * FROM promotions WHERE promo_id = ?]. *)
Definition promotionById (id : Z) (ps : list Promotion) : option Promotion :=
  find (fun p => promo_id p =? id) ps.

(** A value for each constrained column, or the constraint error the
    statement fails with. *)
Definition checkedColumns (req : PromotionRequest) (st : option PromoStatus)
    : M PromotionResponse (DiscountType * Q * PromoStatus) :=
  match parseDiscountType (finalDiscountType req), pr_discount_value req, st with
  | Some kind, Num v, Some s => ret (kind, v, s)
  | None, _, _ =>
      throw (SqliteConstraint "SQLITE_CONSTRAINT: CHECK constraint failed: discount_type")
  | _, NumNull, _ | _, NumUndefined, _ =>
      throw (SqliteConstraint
               "SQLITE_CONSTRAINT: NOT NULL constraint failed: promotions.discount_value")
  | _, _, None =>
      throw (SqliteConstraint "SQLITE_CONSTRAINT: CHECK constraint failed: status")
  end.

(** [POST /api/promotions/create]; [lastID] is the [promo_id] SQLite gives
    the new row. *)
Definition createPromotionBody (lastID : Z) (req : PromotionRequest)
    : M PromotionResponse PromotionResponse :=
  if promotionInfoMissing req then reply PromotionInfoMissing
  else
    let c := get (pr_code req) in
    existingPromo <- query (fun db => promotionByCode c (promotions db)) ;;
    match existingPromo with
    | Some _ => reply PromotionCodeExists
    | None =>
        (* status || 'active' *)
        let promoStatus := Js.or_default (pr_status req) "active" in
        cols <- checkedColumns req (parseStatus promoStatus) ;;
        let '(kind, value, st) := cols in
        run (withPromotions (fun l =>
               (l ++ [mkPromotion lastID c (get (pr_name req)) kind value
                        (pr_valid_from req) (pr_valid_to req) (pr_usage_limit req) 0 st])%list)) ;;;
        newPromotion <- query (fun db => promotionById lastID (promotions db)) ;;
        ret (PromotionCreated newPromotion)
    end.

Definition createPromotion (lastID : Z) (req : PromotionRequest) (db : Db)
    : Result PromotionResponse * Db :=
  handle (fun _ => PromotionFailed) (createPromotionBody lastID req) db.

(** The [UPDATE promotions SET ... WHERE promo_id = ?] of the update route:
    every column but [promo_id] and [used_count]. *)
Definition rewritePromotion (id : Z) (c name : string) (kind : DiscountType) (value : Q)
    (from to : option string) (limit : option Z) (st : PromoStatus) (ps : list Promotion)
    : list Promotion :=
  map (fun p => if promo_id p =? id
                then mkPromotion (promo_id p) c name kind value from to limit (used_count p) st
                else p) ps.

(** [POST /api/promotions/update]. *)
Definition updatePromotionBody (req : PromotionRequest)
    : M PromotionResponse PromotionResponse :=
  let idGiven := match pr_promo_id req with Some n => negb (n =? 0) | None => false end in
  if negb idGiven || promotionInfoMissing req then reply PromotionInfoMissing
  else
    let id := match pr_promo_id req with Some n => n | None => 0 end in
    let c := get (pr_code req) in
    existingPromo <- query (fun db => promotionById id (promotions db)) ;;
    match existingPromo with
    | None => reply PromotionNotFound
    | Some existing =>
        codeConflict <- query (fun db =>
          find (fun p => (code p =? c)%string && negb (promo_id p =? id)) (promotions db)) ;;
        match codeConflict with
        | Some _ => reply PromotionCodeExists
        | None =>
            (* status || existingPromo.status || 'active' *)
            let promoStatus :=
              if Js.truthy (pr_status req) then parseStatus (get (pr_status req))
              else Some (status existing) in
            cols <- checkedColumns req promoStatus ;;
            let '(kind, value, st) := cols in
            run (withPromotions
                   (rewritePromotion id c (get (pr_name req)) kind value
                      (pr_valid_from req) (pr_valid_to req) (pr_usage_limit req) st)) ;;;
            updatedPromotion <- query (fun db => promotionById id (promotions db)) ;;
            ret (PromotionUpdated updatedPromotion)
        end
    end.

Definition updatePromotion (req : PromotionRequest) (db : Db)
    : Result PromotionResponse * Db :=
  handle (fun _ => PromotionFailed) (updatePromotionBody req) db.

(** [POST /api/promotions/delete]. *)
Definition deletePromotionBody (promoId : option Z) : M PromotionResponse PromotionResponse :=
  match promoId with
  | None => reply PromotionIdRequired
  | Some id =>
      if id =? 0 then reply PromotionIdRequired
      else
        promotion <- query (fun db => promotionById id (promotions db)) ;;
        match promotion with
        | None => reply PromotionNotFound
        | Some _ =>
            run (withPromotions (filter (fun p => negb (promo_id p =? id)))) ;;;
            ret PromotionDeleted
        end
  end.

Definition deletePromotion (promoId : option Z) (db : Db) : Result PromotionResponse * Db :=
  handle (fun _ => PromotionFailed) (deletePromotionBody promoId) db.

(** ** [updatePromotionStatuses], the hourly sweep *)

Definition statusEqb (a b : PromoStatus) : bool :=
  match a, b with
  | active, active | inactive, inactive | scheduled, scheduled | expired, expired => true
  | _, _ => false
  end.

Definition setStatus (p : Promotion) (st : PromoStatus) : Promotion :=
  mkPromotion (promo_id p) (code p) (promo_name p) (discount_type p) (discount_value p)
    (valid_from p) (valid_to p) (usage_limit p) (used_count p) st.

(** [a < s] on a nullable text column in a [WHERE] clause. *)
Definition text_lt (a : option string) (s : string) : bool :=
  match a with
  | Some x => String.ltb x s
  | None => false
  end.

(** [SET status = 'expired' WHERE valid_to < ? AND status != 'expired' AND
    status != 'inactive'], on one row. *)
Definition expireRow (currentDate : string) (p : Promotion) : Promotion :=
  if text_lt (valid_to p) currentDate
     && negb (statusEqb (status p) expired) && negb (statusEqb (status p) inactive)
  then setStatus p expired else p.

(** [SET status = 'active' WHERE valid_from <= ? AND valid_to >= ? AND
    status = 'scheduled'], on one row. *)
Definition activateRow (currentDate : string) (p : Promotion) : Promotion :=
  if Sql.text_le (valid_from p) currentDate && Sql.text_ge (valid_to p) currentDate
     && statusEqb (status p) scheduled
  then setStatus p active else p.

(** The two statements of the sweep, with [new Date().toISOString()] as the
    current date. *)
Definition updatePromotionStatuses (env : Env) (db : Db) : Db :=
  withPromotions (map (activateRow (now_iso env)))
    (withPromotions (map (expireRow (now_iso env))) db).

(** ** The flight administration routes *)

(** [available_classes] of a request: an array or a string.  An array is
    truthy even when empty. *)
Inductive Classes :=
| ClassList (l : list string)
| ClassText (s : string).

(** The body of [POST /api/flights] and of the two [PUT] routes. *)
Record FlightRequest := mkFlightRequest {
  fr_airline : option string;
  fr_airline_code : option string;
  fr_flight_number : option string;
  fr_departure_airport : option string;
  fr_arrival_airport : option string;
  fr_departure_time : option string;
  fr_arrival_time : option string;
  fr_price_economy : option Q;
  fr_price_premium_economy : option Q;
  fr_price_business : option Q;
  fr_price_first : option Q;
  fr_seats_economy : option Z;
  fr_seats_premium_economy : option Z;
  fr_seats_business : option Z;
  fr_seats_first : option Z;
  fr_available_seats : option Z;
  fr_available_classes : option Classes
}.

Inductive FlightResponse :=
| FlightInfoMissing       (* 400 'Missing required flight information' *)
| FlightMissing           (* 404 'Flight not found' *)
| FlightHasBookings (bookingsCount : Z)
                          (* 400 'Cannot delete flight with existing bookings' *)
| FlightSaved (flight : FlightView)   (* 201 / 200 with the row read back *)
| FlightDeleted           (* 200 'Flight deleted successfully' *)
| FlightFailed.           (* 500 'Failed to create / update / delete flight' *)

Definition truthy_price (p : option Q) : bool :=
  match p with
  | Some v => negb (Qeq_bool v 0)
  | None => false
  end.

Definition truthy_int (n : option Z) : bool :=
  match n with
  | Some v => negb (v =? 0)
  | None => false
  end.

Definition truthy_classes (c : option Classes) : bool :=
  match c with
  | Some (ClassList _) => true
  | Some (ClassText s) => negb (s =? "")%string
  | None => false
  end.

(** The fields every flight route requires. *)
Definition flightBasicsMissing (req : FlightRequest) : bool :=
  negb (Js.truthy (fr_airline req)) || negb (Js.truthy (fr_airline_code req))
  || negb (Js.truthy (fr_flight_number req))
  || negb (Js.truthy (fr_departure_airport req)) || negb (Js.truthy (fr_arrival_airport req))
  || negb (Js.truthy (fr_departure_time req)) || negb (Js.truthy (fr_arrival_time req))
  || negb (truthy_price (fr_price_economy req)).

(** [(seats_economy || 0) + (seats_premium_economy || 0) + (seats_business || 0)
    + (seats_first || 0)]. *)
Definition total_seats (req : FlightRequest) : Z :=
  orZero (fr_seats_economy req) + orZero (fr_seats_premium_economy req)
  + orZero (fr_seats_business req) + orZero (fr_seats_first req).

(** The row the create route and the update-by-code route write: the prices
    and seat counts as given, the aggregate computed. *)
Definition flightRowOf (id : Z) (req : FlightRequest) : Flight :=
  mkFlight id (get (fr_airline_code req)) (get (fr_flight_number req))
    (match fr_price_economy req with Some v => v | None => 0%Q end)
    (fr_price_premium_economy req) (fr_price_business req) (fr_price_first req)
    (orZero (fr_seats_economy req))
    (fr_seats_premium_economy req) (fr_seats_business req) (fr_seats_first req)
    (total_seats req).

(** The row the update-by-id route writes: prices of 0 become NULL, missing
    seat counts become 0, the aggregate is the one given. *)
Definition flightRowById (id : Z) (req : FlightRequest) : Flight :=
  mkFlight id (get (fr_airline_code req)) (get (fr_flight_number req))
    (match fr_price_economy req with Some v => v | None => 0%Q end)
    (orNull (fr_price_premium_economy req)) (orNull (fr_price_business req))
    (orNull (fr_price_first req))
    (orZero (fr_seats_economy req))
    (Some (orZero (fr_seats_premium_economy req))) (Some (orZero (fr_seats_business req)))
    (Some (orZero (fr_seats_first req)))
    (orZero (fr_available_seats req)).

(** A path parameter compared with the integer column [flight_id]: a text
    of decimal digits is compared as the number it spells.  (The other
    spellings of a number that SQLite's affinity would also convert, with a
    sign, blanks or a fraction of 0, are taken as matching no row.) *)
Definition flightByParam (param : string) (fl : list Flight) : option Flight :=
  match Js.toNumber (Js.IdStr param) with
  | Some n => flightById n fl
  | None => None
  end.

(** [GET /api/flights/:id]. *)
Definition getFlight (param : string) (db : Db) : Result FlightResponse * Db :=
  handle (fun _ => FlightFailed)
    (found <- query (fun db => flightByParam param (flights db)) ;;
     match found with
     | None => reply FlightMissing
     | Some f => ret (FlightSaved (formatFlightForClient f))
     end) db.

(** [res.json(formatFlightForClient(row))] for a row read back with
    [db.get]: formatting [undefined] throws. *)
Definition formatted (row : option Flight) : M FlightResponse FlightResponse :=
  match row with
  | Some f => ret (FlightSaved (formatFlightForClient f))
  | None => throw (OtherError "Cannot read properties of undefined")
  end.

(** [POST /api/flights]; [lastID] is the [flight_id] SQLite gives the new
    row. *)
Definition createFlightBody (lastID : Z) (req : FlightRequest)
    : M FlightResponse FlightResponse :=
  if flightBasicsMissing req || negb (truthy_int (fr_seats_economy req))
     || negb (truthy_classes (fr_available_classes req))
  then reply FlightInfoMissing
  else
    run (withFlights (fun l => (l ++ [flightRowOf lastID req])%list)) ;;;
    newFlight <- query (fun db => flightById lastID (flights db)) ;;
    formatted newFlight.

Definition createFlight (lastID : Z) (req : FlightRequest) (db : Db)
    : Result FlightResponse * Db :=
  handle (fun _ => FlightFailed) (createFlightBody lastID req) db.

(** [PUT /api/flights/:id]. *)
Definition updateFlightBody (param : string) (req : FlightRequest)
    : M FlightResponse FlightResponse :=
  if flightBasicsMissing req || negb (truthy_int (fr_available_seats req))
     || negb (truthy_classes (fr_available_classes req))
  then reply FlightInfoMissing
  else
    existingFlight <- query (fun db => flightByParam param (flights db)) ;;
    match existingFlight with
    | None => reply FlightMissing
    | Some existing =>
        run (withFlights
               (map (fun f => if flight_id f =? flight_id existing
                              then flightRowById (flight_id f) req else f))) ;;;
        updatedFlight <- query (fun db => flightByParam param (flights db)) ;;
        formatted updatedFlight
    end.

Definition updateFlight (param : string) (req : FlightRequest) (db : Db)
    : Result FlightResponse * Db :=
  handle (fun _ => FlightFailed) (updateFlightBody param req) db.

(** [SELECT * FROM flights WHERE airline_code || flight_number = ?]. *)
Definition flightByCode (flightCode : string) (fl : list Flight) : option Flight :=
  find (fun f => (airline_code f ++ flight_number f =? flightCode)%string) fl.

(** [PUT /api/flights/code/:flightCode]. *)
Definition updateFlightByCodeBody (flightCode : string) (req : FlightRequest)
    : M FlightResponse FlightResponse :=
  if flightBasicsMissing req || negb (truthy_int (fr_seats_economy req))
     || negb (truthy_classes (fr_available_classes req))
  then reply FlightInfoMissing
  else
    existingFlight <- query (fun db => flightByCode flightCode (flights db)) ;;
    match existingFlight with
    | None => reply FlightMissing
    | Some existing =>
        run (withFlights
               (map (fun f => if flight_id f =? flight_id existing
                              then flightRowOf (flight_id f) req else f))) ;;;
        updatedFlight <- query (fun db => flightById (flight_id existing) (flights db)) ;;
        formatted updatedFlight
    end.

Definition updateFlightByCode (flightCode : string) (req : FlightRequest) (db : Db)
    : Result FlightResponse * Db :=
  handle (fun _ => FlightFailed) (updateFlightByCodeBody flightCode req) db.

(** [SELECT COUNT( * ) as count FROM bookings WHERE flight_id = ?]: the table
    [bookings] has no column [flight_id] (its flight columns are
    [departure_flight_id] and [return_flight_id]), so SQLite rejects the
    statement. *)
Definition countBookingsOfFlight : M FlightResponse Z :=
  throw (OtherError "SQLITE_ERROR: no such column: flight_id").

(** What both delete routes do once the flight is found. *)
Definition deleteFound (existingFlight : Flight) : M FlightResponse FlightResponse :=
  count <- countBookingsOfFlight ;;
  if 0 <? count then reply (FlightHasBookings count)
  else
    run (withFlights (filter (fun f => negb (flight_id f =? flight_id existingFlight)))) ;;;
    ret FlightDeleted.

(** [DELETE /api/flights/:id]. *)
Definition deleteFlight (param : string) (db : Db) : Result FlightResponse * Db :=
  handle (fun _ => FlightFailed)
    (existingFlight <- query (fun db => flightByParam param (flights db)) ;;
     match existingFlight with
     | None => reply FlightMissing
     | Some f => deleteFound f
     end) db.

(** The match of [/^([A-Z]+)(\d+)$/]: the longest prefix of capital letters,
    which must not be empty, followed to the end by digits, at least one. *)
Definition isUpper (c : ascii) : bool :=
  let n := nat_of_ascii c in (65 <=? n)%nat && (n <=? 90)%nat.

Definition isDigit (c : ascii) : bool :=
  let n := nat_of_ascii c in (48 <=? n)%nat && (n <=? 57)%nat.

Fixpoint allDigits (s : string) : bool :=
  match s with
  | EmptyString => true
  | String c rest => isDigit c && allDigits rest
  end.

Fixpoint upperPrefix (s : string) : string * string :=
  match s with
  | EmptyString => (EmptyString, EmptyString)
  | String c rest =>
      if isUpper c
      then let '(letters, tail) := upperPrefix rest in (String c letters, tail)
      else (EmptyString, s)
  end.

(** [airlineCode] and [flightNum] of the delete-by-code route: the two groups
    of the match, or the whole code and the empty string. *)
Definition splitFlightCode (flightCode : string) : string * string :=
  let '(letters, tail) := upperPrefix flightCode in
  match letters, tail with
  | String _ _, String _ _ => if allDigits tail then (letters, tail) else (flightCode, "")
  | _, _ => (flightCode, "")
  end.

(** [DELETE /api/flights/code/:flightCode]. *)
Definition deleteFlightByCode (flightCode : string) (db : Db) : Result FlightResponse * Db :=
  handle (fun _ => FlightFailed)
    (let '(airlineCode, flightNum) := splitFlightCode flightCode in
     existingFlight <- query (fun db =>
       find (fun f => (airline_code f =? airlineCode)%string
                      && (flight_number f =? flightNum)%string) (flights db)) ;;
     match existingFlight with
     | None => reply FlightMissing
     | Some f => deleteFound f
     end) db.

(** ** Small helpers *)

(** [calculatePercentageChange]. *)
Definition calculatePercentageChange (current previous : Q) : Q :=
  if Qeq_bool previous 0
  then (if negb (Qle_bool current 0) then 100 else 0)%Q
  else ((current - previous) / previous * 100)%Q.

(** [characters.charAt(i)]: the empty string out of range. *)
Definition charAt (s : string) (i : Z) : string :=
  if i <? 0 then ""
  else match String.get (Z.to_nat i) s with
       | Some c => String c EmptyString
       | None => ""
       end.

Definition characters : string := "ABCDEFGHIJKLMNOPQRSTUVWXYZ0123456789".

(** The loop of [generateBookingId], [count] rounds from round [i] on;
    [random i] is what [Math.random()] returns in round [i]. *)
Fixpoint bookingIdFrom (random : nat -> Q) (i count : nat) (result : string) : string :=
  match count with
  | O => result
  | S count' =>
      bookingIdFrom random (S i) count'
        (result ++ charAt characters
                     (Qfloor (random i * inject_Z (Z.of_nat (String.length characters)))))
  end.

Definition generateBookingId (random : nat -> Q) : string :=
  bookingIdFrom random 0 10 "".

(** [dateString.split('-')]. *)
Fixpoint splitDash (s : string) (current : string) : list string :=
  match s with
  | EmptyString => [current]
  | String c rest =>
      if Ascii.eqb c "-"%char then current :: splitDash rest ""
      else splitDash rest (current ++ String c EmptyString)
  end.

(** A missing element of the array prints as [undefined] in the template. *)
Definition part (parts : list string) (i : nat) : string :=
  nth i parts "undefined".

(** [formatDateForDB]. *)
Definition formatDateForDB (dateString : string) : string :=
  let parts := splitDash dateString "" in
  part parts 0 ++ "-" ++ part parts 1 ++ "-" ++ part parts 2.

(** ** The store after a payment-status update *)

(** The booking is being paid for the first time and carries a promo code. *)
Definition countsPromo (b : Booking) (st : string) : bool :=
  (st =? "paid")%string && negb (isLit (payment_status b) "paid")
  && Js.truthy (promo_code b).

(** The booking is being cancelled or refunded from paid or unpaid. *)
Definition releasesSeats (b : Booking) (st : string) : bool :=
  ((st =? "cancelled")%string || (st =? "refunded")%string)
  && (isLit (payment_status b) "paid" || isLit (payment_status b) "unpaid").

(** The store after the promotion step of the update of booking [b]. *)
Definition promoStep (b : Booking) (st : string) (db : Db) : Db :=
  if countsPromo b st then
    match promotionByCode (get (promo_code b)) (promotions db) with
    | Some p => withPromotions (incrementUsedCount (promo_id p)) db
    | None => db
    end
  else db.

(** The store after the seat step of the update of booking [b]. *)
Definition releaseStep (bid : string) (b : Booking) (st : string) (db : Db) : Db :=
  if releasesSeats b st then
    let n := countDetails bid (booking_details db) in
    let sf := seatFieldOfBooking b in
    let db1 := withFlights (releaseSeats (departure_flight_id b) sf n) db in
    match return_flight_id b with
    | Some r =>
        if (is_round_trip b =? 1) && negb (r =? 0)
        then withFlights (releaseSeats r sf n) db1 else db1
    | None => db1
    end
  else db.

Definition afterPaymentStatus (bid : string) (b : Booking) (st : string) (db : Db) : Db :=
  withBookings (updateStatus bid st) (releaseStep bid b st (promoStep b st db)).

(** ** The store after a payment is saved *)

(** The [UPDATE] or [INSERT] on [payments], then the [UPDATE] on [bookings]. *)
Definition afterSavePayment (id m : string) (info : option string) (db : Db) : Db :=
  withBookings (updateStatus id "pending")
    (withPayments
       (match paymentOf id (payments db) with
        | Some _ => updatePayment id m (Js.or info None)
        | None => fun l => (l ++ [mkPayment id m (Js.or info None)])%list
        end) db).

(** ** The rows of a booking that was created *)

(** The [return_flight_id] of the booking row: [finalIsRoundTrip ?
    returnFlight.flight_id : null], for a return flight that is there when
    the flag is set. *)
Definition returnIdOf (req : BookingRequest) (ret : option Flight) : option Z :=
  if finalIsRoundTrip req then option_map flight_id ret else None.

(** The number of legs of a booking on the flights [dep] and [ret] that the
    row [f] serves. *)
Definition legsOn (dep : Flight) (ret : option Flight) (f : Flight) : Z :=
  (if flight_id f =? flight_id dep then 1 else 0)
  + match ret with
    | Some rf => if flight_id f =? flight_id rf then 1 else 0
    | None => 0
    end.

(** ** The keys of the promotions table *)

(** The primary key and the [UNIQUE] column of [promotions]: no two rows
    share a [promo_id], no two rows share a [code]. *)
Definition promotionKeys (db : Db) : Prop :=
  NoDup (map promo_id (promotions db)) /\ NoDup (map code (promotions db)).

(** No usage count is above its cap. *)
Definition capRespected (db : Db) : Prop :=
  Forall (fun p => match usage_limit p with
                   | Some cap => used_count p <= cap
                   | None => True
                   end) (promotions db).

(** ** The seat counts a flight view shows *)

(** The aggregate of the view equals the sum of its per-class counts. *)
Definition viewAggregateMatches (v : FlightView) : Prop :=
  v_available_seats v
  = v_seats_economy v + v_seats_premium_economy v + v_seats_business v + v_seats_first v.

(** ** Strings of the helpers *)

(** The number of dashes in a string. *)
Fixpoint dashes (s : string) : nat :=
  match s with
  | EmptyString => 0
  | String c rest => if Ascii.eqb c "-"%char then S (dashes rest) else dashes rest
  end.

(** Every character of [s] is one of [alphabet]. *)
Fixpoint allIn (alphabet : string) (s : string) : bool :=
  match s with
  | EmptyString => true
  | String c rest =>
      existsb (Ascii.eqb c) (list_ascii_of_string alphabet) && allIn alphabet rest
  end.

(** ** The rows of the bookings table *)

(** No two bookings share a [booking_id], and the departure flight of every
    booking is a flight of the store. *)
Definition bookingsWellFormed (db : Db) : Prop :=
  NoDup (map booking_id (bookings db))
  /\ Forall (fun b => In (departure_flight_id b) (map flight_id (flights db))) (bookings db).

(** ** Passenger types *)

(** The string is made of ASCII characters, on which [Js.toUpperCase] and
    [Js.toLowerCase] are the conversions of JavaScript. *)
Definition isAscii (s : string) : bool :=
  forallb (fun c => (nat_of_ascii c <? 128)%nat) (list_ascii_of_string s).

(** The passenger gives at most one of [type] and [passengerType], and a
    [type] in ASCII. *)
Definition typedOnce (p : Passenger) : bool :=
  negb (Js.truthy (type_ p) && Js.truthy (passengerType p)) && isAscii (get (type_ p)).

(** ** More sample data *)

Module Demo.

(** The sample store after a round trip from flight 1 to flight 2 for two
    passengers is booked with the promo code WELCOME10. *)
Definition booked : Db :=
  snd (createBooking Sample.env
         (Sample.roundTrip 2 Sample.two (Some "WELCOME10") None) Sample.db).

(** A request flagged as a round trip that names no return flight. *)
Definition flaggedOnly : BookingRequest :=
  mkRequest (Some (Js.IdNum 1)) None None None true false (Some Sample.customer)
    (Some Sample.two) None None None None None None.

(** A passenger without a name. *)
Definition nameless : Passenger :=
  mkPassenger None None None None None None (Some "ADULT") None None.

(** A request to create a promotion, open from the first of June to the
    end of the year, for 100 uses. *)
Definition summer : PromotionRequest :=
  mkPromotionRequest None (Some "SUMMER25") (Some "Summer sale") (Some "percentage") None
    (Num (25 # 1)) (Some "2025-05-01") (Some "2025-12-31") (Some 100) None.

(** A request to create or rewrite a flight with 150 economy and 20
    business seats. *)
Definition newFlight : FlightRequest :=
  mkFlightRequest (Some "Vietnam Airlines") (Some "VN") (Some "100") (Some "HAN") (Some "SGN")
    (Some "2025-07-01T08:00") (Some "2025-07-01T10:10")
    (Some (1200000 # 1)) None (Some (3000000 # 1)) None
    (Some 150) None (Some 20) None None (Some (ClassList ["ECONOMY"; "BUSINESS"])).

(** A request to rewrite a flight that gives 150 economy seats and an
    aggregate of 5. *)
Definition fewSeats : FlightRequest :=
  mkFlightRequest (Some "Vietnam Airlines") (Some "VN") (Some "100") (Some "HAN") (Some "SGN")
    (Some "2025-07-01T08:00") (Some "2025-07-01T10:10")
    (Some (1200000 # 1)) None None None
    (Some 150) None None None (Some 5) (Some (ClassText "ECONOMY")).

End Demo.
(** * Facts

    ** The handler monad *)

Section MonadFacts.

Context {R : Type}.

Lemma bind_ok {A B} (m : M R A) (k : A -> M R B) db a db1 :
  m db = (Ok a, db1) -> bind m k db = k a db1.
Proof. intros H. unfold bind. now rewrite H. Qed.

Lemma bind_reply {A B} (m : M R A) (k : A -> M R B) db r db1 :
  m db = (Reply r, db1) -> bind m k db = (Reply r, db1).
Proof. intros H. unfold bind. now rewrite H. Qed.

Lemma bind_throw {A B} (m : M R A) (k : A -> M R B) db e db1 :
  m db = (Throw e, db1) -> bind m k db = (Throw e, db1).
Proof. intros H. unfold bind. now rewrite H. Qed.

(** A bind that goes on has gone through both of its parts. *)
Lemma bind_ok_inv {A B} (m : M R A) (k : A -> M R B) db b db' :
  bind m k db = (Ok b, db') ->
  exists a db1, m db = (Ok a, db1) /\ k a db1 = (Ok b, db').
Proof.
  unfold bind. destruct (m db) as [[a | r | e | ] db1]; intros H; try discriminate.
  now exists a, db1.
Qed.

Section Stable.

Variable P : Db -> Db -> Prop.
Hypothesis P_refl : forall db, P db db.
Hypothesis P_trans : forall a b c, P a b -> P b c -> P a c.

Lemma stable_ret {A} (a : A) : stable P (ret (R := R) a).
Proof. intros db. apply P_refl. Qed.

Lemma stable_reply {A} (r : R) : stable P (reply (A := A) r).
Proof. intros db. apply P_refl. Qed.

Lemma stable_throw {A} (e : Exn) : stable P (throw (R := R) (A := A) e).
Proof. intros db. apply P_refl. Qed.

Lemma stable_spin {A} : stable P (spin (R := R) (A := A)).
Proof. intros db. apply P_refl. Qed.

Lemma stable_query {A} (q : Db -> A) : stable P (query (R := R) q).
Proof. intros db. apply P_refl. Qed.

Lemma stable_run (f : Db -> Db) :
  (forall db, P db (f db)) -> stable P (run (R := R) f).
Proof. intros H db. apply H. Qed.

Lemma stable_bind {A B} (m : M R A) (k : A -> M R B) :
  stable P m -> (forall a, stable P (k a)) -> stable P (bind m k).
Proof.
  intros Hm Hk db. unfold bind. specialize (Hm db).
  destruct (m db) as [[a | r | e | ] db1]; cbn in *; auto.
  eapply P_trans; [exact Hm | apply Hk].
Qed.

Lemma stable_handle (catch : Exn -> R) (body : M R R) db :
  stable P body -> P db (snd (handle catch body db)).
Proof.
  intros H. unfold handle. specialize (H db).
  destruct (body db) as [[a | r | e | ] db1]; exact H.
Qed.

End Stable.

Lemma replies_ret {A} Q (a : A) : replies (R := R) Q (ret a).
Proof. intros db r db' H. discriminate. Qed.

Lemma replies_reply {A} (Q : R -> Prop) r : Q r -> replies Q (reply (A := A) r).
Proof. intros HQ db r' db' H. inversion H. now subst. Qed.

Lemma replies_throw {A} Q e : replies (R := R) Q (throw (A := A) e).
Proof. intros db r db' H. discriminate. Qed.

Lemma replies_spin {A} Q : replies (R := R) Q (spin (A := A)).
Proof. intros db r db' H. discriminate. Qed.

Lemma replies_query {A} Q (q : Db -> A) : replies (R := R) Q (query q).
Proof. intros db r db' H. discriminate. Qed.

Lemma replies_run Q f : replies (R := R) Q (run f).
Proof. intros db r db' H. discriminate. Qed.

Lemma replies_bind {A B} Q (m : M R A) (k : A -> M R B) :
  replies Q m -> (forall a, replies Q (k a)) -> replies Q (bind m k).
Proof.
  intros Hm Hk db r db'. unfold bind.
  destruct (m db) as [[a | r1 | e | ] db1] eqn:E; intros H; try discriminate.
  - eapply Hk; eauto.
  - inversion H; subst. eapply Hm; eauto.
Qed.

Lemma query_ok_inv {A} (q : Db -> A) db a db' :
  query (R := R) q db = (Ok a, db') -> a = q db /\ db' = db.
Proof. unfold query. intros H. inversion H. auto. Qed.

Lemma run_ok_inv f db u db' :
  run (R := R) f db = (Ok u, db') -> db' = f db.
Proof. unfold run. intros H. inversion H. auto. Qed.

Lemma ret_ok_inv {A} (a b : A) db db' :
  ret (R := R) a db = (Ok b, db') -> b = a /\ db' = db.
Proof. unfold ret. intros H. inversion H. auto. Qed.

End MonadFacts.

Create HintDb replies.

#[local] Hint Resolve replies_ret replies_throw replies_spin replies_query replies_run
  replies_bind : replies.
#[local] Hint Resolve replies_reply : replies.

(** Splits a hypothesis [bind m k db = (Ok b, db')] in its two parts: [Hm]
    for the first step, which ends with [a] in store [d], and [H] for the rest. *)
Tactic Notation "inv_bind" hyp(H) "as" ident(a) ident(d) ident(Hm) :=
  apply bind_ok_inv in H; destruct H as (a & d & Hm & H).

(** ** [POST /api/bookings]: validation and lookups *)

Lemma lookupFlight_found leg i db f :
  findFlight i (flights db) = Some f -> lookupFlight leg i db = (Ok f, db).
Proof. intros H. unfold lookupFlight, bind, query. now rewrite H. Qed.

Lemma lookupFlight_missing leg i db :
  findFlight i (flights db) = None -> lookupFlight leg i db = (Reply (FlightNotFound leg i), db).
Proof. intros H. unfold lookupFlight, bind, query. now rewrite H. Qed.

Lemma lookupReturnFlight_resolved req db ret :
  ReturnResolved req db ret -> lookupReturnFlight req db = (Ok ret, db).
Proof.
  intros [Hno | retId rf Hrt Hid Ht Hf]; unfold lookupReturnFlight.
  - destruct (finalReturnFlightId req); [rewrite Hno |]; reflexivity.
  - rewrite Hid, Hrt, Ht. cbn [andb].
    now rewrite (bind_ok _ _ _ _ _ (lookupFlight_found Return retId db rf Hf)).
Qed.

(** A resolved request goes on to the seat checks with the rows found. *)
Lemma createBookingBody_resolved env req db ci ps dep ret :
  Resolved req db ci ps dep ret ->
  createBookingBody env req db = bookFlights env req ci ps dep ret db.
Proof.
  intros [(depId & Hid & Ht & Hf) Hci Hps Hne Hret].
  unfold createBookingBody. rewrite Hid, Hci, Hps.
  unfold missingFieldsOf. rewrite Ht.
  destruct ps as [| p ps]; [congruence |]. cbn [app].
  rewrite (bind_ok _ _ _ _ _ (lookupFlight_found Departure depId db dep Hf)).
  now rewrite (bind_ok _ _ _ _ _ (lookupReturnFlight_resolved req db ret Hret)).
Qed.

(** Conversely, the handler either answers from the validation or the
    lookups, with the store untouched, or its request is resolved. *)
Lemma createBookingBody_cases env req db :
  (exists r, createBookingBody env req db = (Reply r, db)
             /\ forall bid fd amt, r <> BookingCreated bid fd amt)
  \/ (exists ci ps dep ret,
         Resolved req db ci ps dep ret
         /\ createBookingBody env req db = bookFlights env req ci ps dep ret db).
Proof.
  unfold createBookingBody.
  destruct (finalDepartureFlightId req) as [depId |] eqn:Hid;
    destruct (customerInfo req) as [ci |] eqn:Hci;
    destruct (passengers req) as [ps |] eqn:Hps;
    destruct (missingFieldsOf _ _ _) as [| m ms] eqn:Hm;
    try (left; eexists; split; [reflexivity | congruence]).
  unfold missingFieldsOf in Hm.
  destruct (Js.truthy_id (Some depId)) eqn:Ht; [| discriminate].
  destruct ps as [| p ps]; [discriminate |].
  destruct (findFlight depId (flights db)) as [dep |] eqn:Hf.
  2: { left. eexists. rewrite (bind_reply _ _ _ _ _ (lookupFlight_missing Departure depId db Hf)).
       split; [reflexivity | congruence]. }
  rewrite (bind_ok _ _ _ _ _ (lookupFlight_found Departure depId db dep Hf)).
  assert (Hret : (exists ret, ReturnResolved req db ret)
                 \/ exists retId, lookupReturnFlight req db = (Reply (FlightNotFound Return retId), db)).
  { unfold lookupReturnFlight.
    destruct (finalReturnFlightId req) as [retId |] eqn:Hrid.
    - destruct (finalIsRoundTrip req) eqn:Hrt; cbn [andb].
      + destruct (Js.truthy_id (Some retId)) eqn:Hrtr.
        * destruct (findFlight retId (flights db)) as [rf |] eqn:Hrf.
          -- left. exists (Some rf). eapply ReturnLeg; eauto.
          -- right. exists retId.
             now rewrite (bind_reply _ _ _ _ _ (lookupFlight_missing Return retId db Hrf)).
        * left. exists None. apply NoReturnLeg. rewrite Hrid, Hrt, Hrtr. reflexivity.
      + left. exists None. apply NoReturnLeg. now rewrite Hrt.
    - left. exists None. apply NoReturnLeg. rewrite Hrid. cbn. apply andb_false_r. }
  destruct Hret as [[ret Hret] | [retId Hret]].
  - right. exists ci, (p :: ps), dep, ret. split.
    + constructor; eauto. congruence.
    + now rewrite (bind_ok _ _ _ _ _ (lookupReturnFlight_resolved req db ret Hret)).
  - left. eexists. rewrite (bind_reply _ _ _ _ _ Hret). split; [reflexivity | congruence].
Qed.

(** ** [POST /api/bookings]: the seat checks *)

(** C1.  A request that is valid and whose flights are found, but whose fare
    class has fewer seats than passengers on the departure flight, or (the
    departure flight having enough) on the return flight of a round trip, is
    answered with the not-enough-seats error of that leg, carrying the seat
    count read and the number of passengers; the store is left as it was:
    no seat count of any flight changes and no booking, passenger, payment
    or promotion row is written.  ([Js.lt_num] is the comparison of the
    source, under which a NULL seat count is fewer than any passenger.) *)
Theorem insufficient_seats_rejected env req db ci ps dep ret :
  Resolved req db ci ps dep ret ->
  let cls := seatClassOf ci in
  let requested := Z.of_nat (List.length ps) in
  let available := seatValueOf dep (seatFieldOf cls) in
  (Js.lt_num available requested = true ->
   createBooking env req db
   = (Responded (NotEnoughSeats Departure available requested cls), db))
  /\ (forall rf,
        ret = Some rf ->
        Js.lt_num available requested = false ->
        Js.lt_num (seatValueOf rf (seatFieldOf cls)) requested = true ->
        createBooking env req db
        = (Responded
             (NotEnoughSeats Return (seatValueOf rf (seatFieldOf cls)) requested cls), db)).
Proof.
  intros Hres cls requested available.
  unfold createBooking, handle.
  rewrite (createBookingBody_resolved env req db ci ps dep ret Hres).
  unfold bookFlights, checkAvailability.
  fold cls. fold requested. fold available. split.
  - intros Hlt. rewrite Hlt. reflexivity.
  - intros rf -> Hdep Hlt. rewrite Hdep, Hlt. reflexivity.
Qed.

Lemma insufficient_seats_rejected_witness :
  createBooking Sample.env (Sample.oneWay Sample.five None None) Sample.db
  = (Responded (NotEnoughSeats Departure (Some 3) 5 "ECONOMY"), Sample.db)
  /\ createBooking Sample.env
       (mkRequest (Some (Js.IdNum 2)) None (Some (Js.IdNum 1)) None true false
          (Some Sample.customer) (Some Sample.five) None None None None None None)
       Sample.db
     = (Responded (NotEnoughSeats Return (Some 3) 5 "ECONOMY"), Sample.db).
Proof.
  assert (R1 : Resolved (Sample.oneWay Sample.five None None) Sample.db
                 Sample.customer Sample.five Sample.flight1 None).
  { constructor; try reflexivity.
    - exists (Js.IdNum 1). repeat split; reflexivity.
    - discriminate.
    - apply NoReturnLeg. reflexivity. }
  assert (R2 : Resolved
                 (mkRequest (Some (Js.IdNum 2)) None (Some (Js.IdNum 1)) None true false
                    (Some Sample.customer) (Some Sample.five) None None None None None None)
                 Sample.db Sample.customer Sample.five Sample.flight2 (Some Sample.flight1)).
  { constructor; try reflexivity.
    - exists (Js.IdNum 2). repeat split; reflexivity.
    - discriminate.
    - apply (ReturnLeg _ _ (Js.IdNum 1) Sample.flight1); reflexivity. }
  split.
  - exact (proj1 (insufficient_seats_rejected Sample.env _ _ _ _ _ _ R1) eq_refl).
  - exact (proj2 (insufficient_seats_rejected Sample.env _ _ _ _ _ _ R2)
             Sample.flight1 eq_refl eq_refl eq_refl).
Defined.

(** ** Fares *)

(** The table of the source and the table of the specification agree. *)
Lemma multiplier_table t :
  getPriceMultiplierForPassengerType t = passengerMultiplier t.
Proof.
  unfold getPriceMultiplierForPassengerType, lookupMultiplier, passengerMultiplier, multipliers.
  cbn [find fst snd].
  rewrite (String.eqb_sym "ADULT" t), (String.eqb_sym "CHILD" t), (String.eqb_sym "INFANT" t).
  destruct (t =? "ADULT")%string; [reflexivity |].
  destruct (t =? "CHILD")%string; [reflexivity |].
  destruct (t =? "INFANT")%string; reflexivity.
Qed.


Lemma departureFares_passengers env base ps : forall acc,
  snd (departureFares env base ps acc)
  = map (fun p => setCalculatedPassengerType p (classifiedType env p)) ps.
Proof.
  induction ps as [| p ps IH]; intros acc; cbn [departureFares map]; [reflexivity |].
  specialize (IH (acc + base * getPriceMultiplierForPassengerType
                                (Js.toUpperCase (fareType env p)))%Q).
  destruct (departureFares env base ps _) as [total rest]. cbn [snd] in *.
  now rewrite IH.
Qed.




Lemma calculateAmount_passengers env cls dep ret ps :
  snd (calculateAmount env cls dep ret ps)
  = map (fun p => setCalculatedPassengerType p (classifiedType env p)) ps.
Proof.
  unfold calculateAmount.
  pose proof (departureFares_passengers env (basePriceOf cls dep) ps 0) as Hp.
  destruct (departureFares env (basePriceOf cls dep) ps 0) as [calc ps'].
  destruct ret; exact Hp.
Qed.

(** ** [POST /api/bookings]: the amount *)

(** The amount step always goes on; it leaves the store as it is unless a
    promotion applies, whose [used_count] it increments. *)
Lemma amountOf_spec env req cls dep ret ps db :
  exists priced,
    amountOf env req cls dep ret ps db
    = (Ok priced,
       match totalAmount req, promoFor env req db with
       | None, Some p => withPromotions (incrementUsedCount (promo_id p)) db
       | _, _ => db
       end)
    /\ Js.max0 (fst priced)
       = expectedAmount env req db (fst (calculateAmount env cls dep ret ps))
    /\ snd priced
       = match totalAmount req with
         | Some _ => ps
         | None => snd (calculateAmount env cls dep ret ps)
         end.
Proof.
  unfold amountOf, expectedAmount, promoFor.
  destruct (totalAmount req) as [t |].
  - exists (t, ps). repeat split.
  - destruct (calculateAmount env cls dep ret ps) as [calc ps'].
    destruct (Js.truthy (promoCode req)).
    + unfold bind, query, run.
      destruct (find _ (promotions db)) as [p |].
      * eexists. repeat split. cbn [fst]. unfold applyDiscount, discountOf.
        destruct (discount_type p); reflexivity.
      * eexists. repeat split.
    + eexists. repeat split.
Qed.

Lemma amountOf_replies Q env req cls dep ret ps :
  replies Q (amountOf env req cls dep ret ps).
Proof.
  intros db r db' H.
  destruct (amountOf_spec env req cls dep ret ps db) as (priced & E & _).
  rewrite E in H. discriminate.
Qed.

(** ** [POST /api/bookings]: the rows *)

Lemma insertPassengers_replies (Q : BookingResponse -> Prop) env bid svc ps :
  Q PassengerMissingFields -> forall i, replies Q (insertPassengers env bid svc i ps).
Proof.
  intros HQ. induction ps as [| p ps IH]; intros i; cbn [insertPassengers].
  - auto with replies.
  - destruct (negb (Js.truthy (fullName p))); [auto with replies |].
    destruct (detailInsertError env i); auto with replies.
Qed.

(** A passenger loop that ends has added one row per passenger and nothing
    else. *)
Lemma insertPassengers_ok env bid svc ps : forall i db u db',
  insertPassengers env bid svc i ps db = (Ok u, db') ->
  flights db' = flights db /\ bookings db' = bookings db
  /\ payments db' = payments db /\ promotions db' = promotions db
  /\ booking_details db' = (booking_details db ++ map (detailRow env bid svc) ps)%list.
Proof.
  induction ps as [| p ps IH]; intros i db u db'; cbn [insertPassengers map].
  - intros H. apply ret_ok_inv in H as [_ ->]. now rewrite app_nil_r.
  - destruct (negb (Js.truthy (fullName p))); [discriminate |].
    destruct (detailInsertError env i).
    + intros H. inv_bind H as u1 d1 Hm. discriminate.
    + intros H. inv_bind H as u1 d1 Hm. apply run_ok_inv in Hm. subst d1.
      apply IH in H as (Hf & Hb & Hp & Hpr & Hd).
      rewrite Hf, Hb, Hp, Hpr, Hd. cbn. now rewrite <- app_assoc.
Qed.

Lemma insertPayment_ok req bid db u db' :
  insertPayment req bid db = (Ok u, db') ->
  flights db' = flights db /\ bookings db' = bookings db
  /\ booking_details db' = booking_details db /\ promotions db' = promotions db.
Proof.
  unfold insertPayment. destruct (Js.truthy (paymentMethod req)).
  - intros H. inv_bind H as taken d1 Hm. apply query_ok_inv in Hm as [-> ->].
    destruct (existsb _ _); [discriminate |].
    apply run_ok_inv in H. subst db'. auto.
  - intros H. apply ret_ok_inv in H as [_ ->]. auto.
Qed.

Lemma insertPayment_replies Q req bid : replies Q (insertPayment req bid).
Proof.
  unfold insertPayment. destruct (Js.truthy (paymentMethod req)); auto with replies.
  apply replies_bind; auto with replies. intros []; auto with replies.
Qed.

(** What reaching the 201 response tells about the second half of the
    handler: the identifier was free, the seats of each leg were reserved
    once, the booking row and one row per passenger were written, and the
    promotions were left alone. *)
Lemma persistBooking_ok env req ci dep ret amt ps db r db' :
  persistBooking env req ci dep ret amt ps db = (Ok r, db') ->
  exists bid returnId contactName,
    r = BookingCreated bid dep amt
    /\ uniqueBookingId (bookingIdDraws env) (bookings db) = Some bid
    /\ flights db'
       = (let n := Z.of_nat (List.length ps) in
          let sf := seatFieldOf (seatClassOf ci) in
          let reserved := reserveSeats (flight_id dep) sf n (flights db) in
          match ret with
          | Some rf => reserveSeats (flight_id rf) sf n reserved
          | None => reserved
          end)
    /\ bookings db'
       = (bookings db ++ [bookingRow env req ci bid dep returnId contactName amt ps])%list
    /\ booking_details db'
       = (booking_details db ++ map (detailRow env bid (selectedServices req)) ps)%list
    /\ promotions db' = promotions db.
Proof.
  unfold persistBooking. intros H.
  inv_bind H as drawn d0 Hm. apply query_ok_inv in Hm as [-> ->].
  inv_bind H as bid0 d0 Hm.
  destruct (uniqueBookingId _ _) as [bid |] eqn:Hid; [| discriminate].
  apply ret_ok_inv in Hm as [-> ->].
  inv_bind H as u1 d1 Hm. apply run_ok_inv in Hm. subst d1.
  inv_bind H as u2 d2 Hm.
  assert (Hfl : flights d2
                = match ret with
                  | Some rf =>
                      reserveSeats (flight_id rf) (seatFieldOf (seatClassOf ci))
                        (Z.of_nat (List.length ps))
                        (reserveSeats (flight_id dep) (seatFieldOf (seatClassOf ci))
                           (Z.of_nat (List.length ps)) (flights db))
                  | None =>
                      reserveSeats (flight_id dep) (seatFieldOf (seatClassOf ci))
                        (Z.of_nat (List.length ps)) (flights db)
                  end
                /\ bookings d2 = bookings db /\ booking_details d2 = booking_details db
                /\ promotions d2 = promotions db).
  { destruct ret as [rf |].
    - apply run_ok_inv in Hm. subst d2. auto.
    - apply ret_ok_inv in Hm as [_ ->]. auto. }
  clear Hm. destruct Hfl as (Hfl & Hbk & Hdt & Hpr).
  inv_bind H as returnId d3 Hm.
  assert (d3 = d2) as ->.
  { destruct (finalIsRoundTrip req); [destruct ret |];
      first [now apply ret_ok_inv in Hm | discriminate]. }
  clear Hm.
  inv_bind H as contactName d3 Hm.
  assert (d3 = d2) as ->.
  { destruct (ci_fullName ci); first [now apply ret_ok_inv in Hm | discriminate]. }
  clear Hm.
  inv_bind H as u4 d4 Hm. apply run_ok_inv in Hm. subst d4.
  inv_bind H as u5 d5 Hm. apply insertPassengers_ok in Hm as (Hf1 & Hb1 & _ & Hp1 & Hd1).
  inv_bind H as u6 d6 Hm. apply insertPayment_ok in Hm as (Hf2 & Hb2 & Hd2 & Hp2).
  apply ret_ok_inv in H as [-> ->].
  exists bid, returnId, contactName.
  rewrite Hf2, Hb2, Hd2, Hp2, Hf1, Hb1, Hd1, Hp1. cbn.
  rewrite Hfl, Hbk, Hdt, Hpr. repeat split; reflexivity.
Qed.

Lemma persistBooking_replies env req ci dep ret amt ps :
  replies (fun r => forall bid fd a, r <> BookingCreated bid fd a)
    (persistBooking env req ci dep ret amt ps).
Proof.
  unfold persistBooking.
  repeat first
    [ apply replies_bind; [| intros ?]
    | apply insertPassengers_replies; congruence
    | apply insertPayment_replies
    | solve [auto with replies]
    | match goal with |- replies _ (match ?x with _ => _ end) => destruct x end
    | match goal with |- replies _ (if ?x then _ else _) => destruct x end ].
Qed.

Lemma checkAvailability_ok cls n dep ret db u db' :
  checkAvailability cls n dep ret db = (Ok u, db') ->
  db' = db
  /\ Js.lt_num (seatValueOf dep (seatFieldOf cls)) n = false
  /\ forall rf, ret = Some rf -> Js.lt_num (seatValueOf rf (seatFieldOf cls)) n = false.
Proof.
  unfold checkAvailability.
  destruct (Js.lt_num (seatValueOf dep _) n); [discriminate |].
  destruct ret as [rf |].
  - destruct (Js.lt_num (seatValueOf rf _) n) eqn:E; [discriminate |].
    intros H. apply ret_ok_inv in H as [_ ->]. repeat split. now intros ? [= <-].
  - intros H. apply ret_ok_inv in H as [_ ->]. repeat split. discriminate.
Qed.

Lemma bookFlights_replies env req ci ps dep ret :
  replies (fun r => forall bid fd a, r <> BookingCreated bid fd a)
    (bookFlights env req ci ps dep ret).
Proof.
  unfold bookFlights. apply replies_bind; [| intros _; apply replies_bind].
  - unfold checkAvailability.
    destruct (Js.lt_num _ _); [apply replies_reply; congruence |].
    destruct ret as [rf |]; [| auto with replies].
    destruct (Js.lt_num _ _); [apply replies_reply; congruence | auto with replies].
  - apply amountOf_replies.
  - intros priced. apply persistBooking_replies.
Qed.

(** The inversion of a 201 response: the request was resolved, each leg had
    the seats, the amount is the expected one, and the store carries the
    reservations and the rows of the booking. *)
Lemma createBooking_created env req db bid fd amt db' :
  createBooking env req db = (Responded (BookingCreated bid fd amt), db') ->
  exists ci ps dep ret returnId contactName,
    Resolved req db ci ps dep ret
    /\ fd = dep
    /\ amt = expectedAmount env req db
               (fst (calculateAmount env (seatClassOf ci) dep ret ps))
    /\ promotions db'
       = match totalAmount req, promoFor env req db with
         | None, Some p => incrementUsedCount (promo_id p) (promotions db)
         | _, _ => promotions db
         end
    /\ bookings db'
       = (bookings db
          ++ [bookingRow env req ci bid dep returnId contactName amt
                match totalAmount req with
                | Some _ => ps
                | None => snd (calculateAmount env (seatClassOf ci) dep ret ps)
                end])%list
    /\ bookingById bid (bookings db) = None.
Proof.
  unfold createBooking, handle. intros H.
  destruct (createBookingBody_cases env req db)
    as [(r & Hr & Hne) | (ci & ps & dep & ret & Hres & Hb)].
  { rewrite Hr in H. inversion H; subst. now destruct (Hne bid fd amt). }
  rewrite Hb in H.
  destruct (bookFlights env req ci ps dep ret db) as [[r | r | e |] d] eqn:E;
    inversion H; subst; clear H.
  2: { now destruct (bookFlights_replies env req ci ps dep ret _ _ _ E bid fd amt). }
  2: { destruct e; discriminate. }
  unfold bookFlights in E. inv_bind E as u1 d1 Hm.
  apply checkAvailability_ok in Hm as (-> & _ & _).
  inv_bind E as priced' d2 Hm.
  destruct (amountOf_spec env req (seatClassOf ci) dep ret ps db) as (priced & Ha & Hamt & Hps).
  rewrite Ha in Hm. inversion Hm; subst priced' d2. clear Hm.
  apply persistBooking_ok in E
    as (bid' & returnId & contactName & Hr & Hid & _ & Hbk & _ & Hpr).
  inversion Hr; subst. clear Hr.
  exists ci, ps, dep, ret, returnId, contactName.
  rewrite Hamt, Hps in *.
  split; [exact Hres |]. split; [reflexivity |]. split; [reflexivity |].
  split; [| split].
  - rewrite Hpr. destruct (totalAmount req); [reflexivity |].
    destruct (promoFor env req db); reflexivity.
  - rewrite Hbk. destruct (totalAmount req); [reflexivity |].
    destruct (promoFor env req db); reflexivity.
  - assert (Hsame : bookings
                      match totalAmount req, promoFor env req db with
                      | None, Some p => withPromotions (incrementUsedCount (promo_id p)) db
                      | _, _ => db
                      end = bookings db).
    { destruct (totalAmount req); [reflexivity |].
      destruct (promoFor env req db); reflexivity. }
    rewrite Hsame in Hid. clear - Hid.
    induction (bookingIdDraws env) as [| b bs IH]; cbn in Hid; [discriminate |].
    destruct (bookingById b (bookings db)) eqn:Eb; [auto |].
    now inversion Hid; subst.
Qed.



(** The row a 201 response names is in the store, under its identifier. *)
Lemma bookingById_appended bid bs row :
  bookingById bid bs = None -> booking_id row = bid ->
  bookingById bid (bs ++ [row]) = Some row.
Proof.
  unfold bookingById. intros Hnone Hid.
  induction bs as [| b bs IH]; cbn in *.
  - now rewrite Hid, String.eqb_refl.
  - destruct (booking_id b =? bid)%string; [discriminate | auto].
Qed.



(** ** Frames of [POST /api/bookings] *)

(** Takes a step of a handler apart, down to its statements, for a relation
    [P] that is reflexive ([Hrefl]) and transitive ([Htrans]); a statement is
    left to the hypotheses at hand. *)
Ltac stable_steps P Hrefl Htrans :=
  repeat first
    [ match goal with
      | |- stable _ (bind _ _) => apply (stable_bind P Htrans); [| intros ?]
      end
    | apply (stable_ret P Hrefl)
    | apply (stable_reply P Hrefl)
    | apply (stable_throw P Hrefl)
    | apply (stable_spin P Hrefl)
    | apply (stable_query P Hrefl)
    | apply (stable_run P); intros ?; solve [auto]
    | match goal with |- stable _ (match ?x with _ => _ end) => destruct x end
    | match goal with |- stable _ (if ?x then _ else _) => destruct x end ].

Section BookingFrames.

(** A relation on stores that every statement of the second half of the
    handler respects. *)
Variable P : Db -> Db -> Prop.
Hypothesis P_refl : forall db, P db db.
Hypothesis P_trans : forall a b c, P a b -> P b c -> P a c.
Hypothesis P_reserve : forall id sf n db, P db (withFlights (reserveSeats id sf n) db).
Hypothesis P_bookings : forall f db, P db (withBookings f db).
Hypothesis P_details : forall f db, P db (withDetails f db).
Hypothesis P_payments : forall f db, P db (withPayments f db).

Lemma insertPassengers_stable env bid svc ps :
  forall i, stable P (insertPassengers env bid svc i ps).
Proof.
  induction ps as [| p ps IH]; intros i; cbn [insertPassengers]; stable_steps P P_refl P_trans.
  apply IH.
Qed.

Lemma insertPayment_stable req bid : stable P (insertPayment req bid).
Proof. unfold insertPayment. stable_steps P P_refl P_trans. Qed.

Lemma persistBooking_stable env req ci dep ret amt ps :
  stable P (persistBooking env req ci dep ret amt ps).
Proof.
  unfold persistBooking. stable_steps P P_refl P_trans.
  all: first [apply insertPassengers_stable | apply insertPayment_stable].
Qed.

Lemma bookFlights_stable env req ci ps dep ret :
  stable P (amountOf env req (seatClassOf ci) dep ret ps) ->
  stable P (bookFlights env req ci ps dep ret).
Proof.
  intros Hamount. unfold bookFlights, checkAvailability. stable_steps P P_refl P_trans.
  - exact Hamount.
  - apply persistBooking_stable.
Qed.

Lemma createBooking_stable env req db :
  (forall ci ps dep ret, stable P (amountOf env req (seatClassOf ci) dep ret ps)) ->
  P db (snd (createBooking env req db)).
Proof.
  intros Hamount. unfold createBooking. apply (stable_handle P).
  unfold createBookingBody, lookupReturnFlight, lookupFlight. stable_steps P P_refl P_trans.
  all: apply bookFlights_stable, Hamount.
Qed.

End BookingFrames.

(** C10.  When the request supplies an explicit total, the promotions table
    after the call is the table before it, whatever the outcome of the call
    and whatever promo code the request carries; and the booking row of a
    created booking stores the promo code of the request ([NULL] in place
    of a missing or empty code). *)
Theorem explicit_total_keeps_promotions env req db t :
  totalAmount req = Some t ->
  promotions (snd (createBooking env req db)) = promotions db
  /\ forall bid fd amt db',
       createBooking env req db = (Responded (BookingCreated bid fd amt), db') ->
       exists b, bookingById bid (bookings db') = Some b
                 /\ promo_code b = Js.or (promoCode req) None.
Proof.
  intros Ht. split.
  - apply (createBooking_stable (fun a b => promotions b = promotions a)); auto.
    + intros a b c Hab Hbc. congruence.
    + intros ci ps dep ret d. unfold amountOf. rewrite Ht. reflexivity.
  - intros bid fd amt db' H.
    apply createBooking_created in H
      as (ci & ps & dep & ret & returnId & contactName & _ & _ & _ & _ & Hbk & Hfresh).
    eexists. split.
    + rewrite Hbk. apply bookingById_appended; [exact Hfresh | reflexivity].
    + reflexivity.
Qed.

(** ** Frames of the payment-status handlers *)

Section PaymentFrames.

Variable P : Db -> Db -> Prop.
Hypothesis P_refl : forall db, P db db.
Hypothesis P_trans : forall a b c, P a b -> P b c -> P a c.
Hypothesis P_release : forall id sf n db, P db (withFlights (releaseSeats id sf n) db).
Hypothesis P_bookings : forall f db, P db (withBookings f db).
Hypothesis P_promotions : forall f db, P db (withPromotions f db).




End PaymentFrames.

(** ** Seat counts *)

Lemma seatValueOf_adjust sf delta f :
  seatValueOf (adjustSeats sf delta f) sf = Sql.add (seatValueOf f sf) delta.
Proof. destruct sf; reflexivity. Qed.


Lemma available_seats_adjust sf delta f :
  available_seats (adjustSeats sf delta f) = available_seats f + delta.
Proof. destruct sf; reflexivity. Qed.

Lemma flight_id_adjust sf delta f : flight_id (adjustSeats sf delta f) = flight_id f.
Proof. destruct sf; reflexivity. Qed.




Section Rowwise.

Variable Q : Flight -> Flight -> Prop.
Hypothesis Q_refl : forall f, Q f f.
Hypothesis Q_trans : forall a b c, Q a b -> Q b c -> Q a c.




(** A relation that every seat adjustment respects holds row by row across
    the two handlers that write seat counts. *)
Hypothesis Q_adjust : forall sf delta f, Q f (adjustSeats sf delta f).





End Rowwise.


(** ** The payment-status handler *)

Lemma changesOf_found bid bs b :
  bookingById bid bs = Some b -> exists k, changesOf bid bs = S k.
Proof.
  unfold bookingById, changesOf. induction bs as [| x bs IH]; cbn; [discriminate |].
  destruct (booking_id x =? bid)%string; cbn; eauto.
Qed.

Lemma Forall2_map_same {A} (Q : A -> A -> Prop) (g : A -> A) l :
  (forall x, Q x (g x)) -> Forall2 Q l (map g l).
Proof. intros H. induction l; cbn; constructor; auto. Qed.

Lemma sql_add_0 v : Sql.add v 0 = v.
Proof. destruct v; cbn; [now rewrite Z.add_0_r | reflexivity]. Qed.

Lemma sql_add_add v a b : Sql.add (Sql.add v a) b = Sql.add v (a + b).
Proof. destruct v; cbn; [now rewrite Z.add_assoc | reflexivity]. Qed.

Lemma adjustSeats_adjustSeats sf a b f :
  adjustSeats sf b (adjustSeats sf a f) = adjustSeats sf (a + b) f.
Proof.
  destruct sf; unfold adjustSeats; cbn; rewrite ?sql_add_add, <- ?Z.add_assoc; reflexivity.
Qed.

Lemma adjustSeats_0 sf f : adjustSeats sf 0 f = f.
Proof.
  destruct f, sf; unfold adjustSeats; cbn; rewrite ?sql_add_0, ?Z.add_0_r; reflexivity.
Qed.

(** Releasing what was reserved gives the flights table back. *)
Lemma release_reserve id sf n fl : releaseSeats id sf n (reserveSeats id sf n fl) = fl.
Proof.
  unfold releaseSeats, reserveSeats. rewrite map_map.
  induction fl as [| f fl IH]; cbn [map]; [reflexivity |]. rewrite IH. f_equal.
  destruct (flight_id f =? id) eqn:E.
  - rewrite flight_id_adjust, E, adjustSeats_adjustSeats.
    replace (- n + n) with 0 by lia. apply adjustSeats_0.
  - now rewrite E.
Qed.


(** One row after the release on the departure flight and, when [back], on
    the return flight [r]. *)
Lemma released_row sf n dep (back : bool) r f :
  (let f1 := if flight_id f =? dep then adjustSeats sf n f else f in
   if back then (if flight_id f1 =? r then adjustSeats sf n f1 else f1) else f1)
  = adjustSeats sf
      (n * ((if flight_id f =? dep then 1 else 0)
            + (if back && (flight_id f =? r) then 1 else 0))) f.
Proof.
  cbv zeta.
  destruct (flight_id f =? dep) eqn:E1; destruct back; cbn [andb];
    rewrite ?flight_id_adjust; try destruct (flight_id f =? r) eqn:E2;
    rewrite ?adjustSeats_adjustSeats;
    try (symmetry; replace (n * (0 + 0)) with 0 by lia; apply adjustSeats_0);
    f_equal; lia.
Qed.




(** ** Promotion usage *)

Lemma code_setUsedCount p n : code (setUsedCount p n) = code p.
Proof. reflexivity. Qed.



(** ** [POST /api/bookings]: a failing passenger row *)

Lemma uniqueBookingId_fresh draws bs bid :
  uniqueBookingId draws bs = Some bid -> bookingById bid bs = None.
Proof.
  induction draws as [| d draws IH]; cbn; [discriminate |].
  destruct (bookingById d bs) eqn:E; [auto |]. now intros [= <-].
Qed.

(** Deleting the row just appended under a fresh identifier gives the
    bookings table back. *)
Lemma deleteBooking_appended bid bs row :
  bookingById bid bs = None -> booking_id row = bid ->
  deleteBooking bid (bs ++ [row]) = bs.
Proof.
  unfold bookingById, deleteBooking. intros Hfresh Hid.
  rewrite filter_app. cbn [filter]. rewrite Hid, String.eqb_refl. cbn [negb].
  rewrite app_nil_r.
  induction bs as [| b bs IH]; cbn in *; [reflexivity |].
  destruct (booking_id b =? bid)%string; [discriminate |]. cbn. now rewrite IH.
Qed.

(** The passenger loop when the [INSERT] of passenger [k] is the first to
    fail: the rows of the passengers before [k] are in, the booking row is
    deleted and the error is thrown again under a new message. *)
Lemma insertPassengers_fails env bid svc insertError ps : forall i k db,
  (k < List.length ps)%nat ->
  Forall (fun p => Js.truthy (fullName p) = true) (firstn (S k) ps) ->
  (forall j, (j < k)%nat -> detailInsertError env (i + j) = None) ->
  detailInsertError env (i + k) = Some insertError ->
  exists db',
    insertPassengers env bid svc i ps db
    = (Throw (OtherError ("Failed to save passenger details: " ++ insertError)), db')
    /\ flights db' = flights db
    /\ bookings db' = deleteBooking bid (bookings db)
    /\ booking_details db'
       = (booking_details db ++ map (detailRow env bid svc) (firstn k ps))%list
    /\ payments db' = payments db
    /\ promotions db' = promotions db.
Proof.
  induction ps as [| p ps IH]; intros i k db Hk Hnames Hbefore Hfail;
    [cbn in Hk; lia |].
  cbn [insertPassengers]. cbn [firstn] in Hnames.
  inversion Hnames as [| ? ? Hp Hrest]; subst. rewrite Hp. cbn [negb].
  destruct k as [| k].
  - rewrite Nat.add_0_r in Hfail. rewrite Hfail.
    eexists. split; [reflexivity |]. cbn. now rewrite app_nil_r.
  - pose proof (Hbefore 0%nat ltac:(lia)) as H0. rewrite Nat.add_0_r in H0. rewrite H0.
    destruct (IH (S i) k
                (withDetails (fun ds => (ds ++ [detailRow env bid svc p])%list) db))
      as (db' & Hrun & Hf & Hb & Hd & Hpay & Hpr).
    + cbn in Hk. lia.
    + exact Hrest.
    + intros j Hj. replace (S i + j)%nat with (i + S j)%nat by lia. apply Hbefore. lia.
    + now replace (S i + k)%nat with (i + S k)%nat by lia.
    + exists db'. split.
      * unfold bind at 1. unfold run at 1. exact Hrun.
      * rewrite Hf, Hb, Hd, Hpay, Hpr. cbn. rewrite <- app_assoc. repeat split.
Qed.

Lemma checkAvailability_pass cls n dep ret db :
  Js.lt_num (seatValueOf dep (seatFieldOf cls)) n = false ->
  (forall rf, ret = Some rf -> Js.lt_num (seatValueOf rf (seatFieldOf cls)) n = false) ->
  checkAvailability cls n dep ret db = (Ok tt, db).
Proof.
  intros Hd Hr. unfold checkAvailability. rewrite Hd.
  destruct ret as [rf |]; [| reflexivity]. now rewrite (Hr rf eq_refl).
Qed.

Lemma amountOf_passengers env req cls dep ret ps db priced db1 :
  amountOf env req cls dep ret ps db = (Ok priced, db1) ->
  map fullName (snd priced) = map fullName ps
  /\ flights db1 = flights db /\ bookings db1 = bookings db
  /\ booking_details db1 = booking_details db /\ payments db1 = payments db.
Proof.
  destruct (amountOf_spec env req cls dep ret ps db) as (priced' & E & _ & Hps).
  rewrite E. intros H. inversion H; subst. clear H. rewrite Hps. split.
  - destruct (totalAmount req); [reflexivity |].
    rewrite calculateAmount_passengers, map_map. reflexivity.
  - destruct (totalAmount req); [auto |]. destruct (promoFor env req db); auto.
Qed.

(** An accepted request reaches the passenger loop with its seats reserved
    and its booking row written. *)
Lemma createBooking_accepted env req db ci ps dep rtn bid contactName :
  Accepted env req db ci ps dep rtn bid contactName ->
  exists priced db1 returnId,
    amountOf env req (seatClassOf ci) dep rtn ps db = (Ok priced, db1)
    /\ createBooking env req db
       = handle createBookingCatch
           (insertPassengers env bid (selectedServices req) 0 (snd priced) ;;;
            insertPayment req bid ;;;
            ret (BookingCreated bid dep (Js.max0 (fst priced))))
           (withBookings
              (fun bs => (bs ++ [bookingRow env req ci bid dep returnId contactName
                                   (Js.max0 (fst priced)) (snd priced)])%list)
              (withFlights (reservedFlights ci ps dep rtn) db1)).
Proof.
  intros [Hres Hdep Hret Hid Hknown Hname].
  destruct (amountOf_spec env req (seatClassOf ci) dep rtn ps db) as (priced & Ha & _).
  set (db1 := match totalAmount req, promoFor env req db with
              | None, Some p => withPromotions (incrementUsedCount (promo_id p)) db
              | _, _ => db
              end) in *.
  destruct (amountOf_passengers _ _ _ _ _ _ _ _ _ Ha) as (Hnames & _ & Hbk & _).
  assert (Hlen : List.length (snd priced) = List.length ps).
  { rewrite <- (length_map fullName), Hnames. apply length_map. }
  exists priced, db1,
    (if finalIsRoundTrip req then option_map flight_id rtn else None).
  split; [exact Ha |].
  unfold createBooking, handle.
  rewrite (createBookingBody_resolved env req db ci ps dep rtn Hres).
  unfold bookFlights.
  rewrite (bind_ok _ _ _ _ _ (checkAvailability_pass _ _ _ _ db Hdep Hret)).
  rewrite (bind_ok _ _ _ _ _ Ha).
  unfold persistBooking. rewrite Hlen.
  unfold bind at 1. unfold query at 1. rewrite Hbk, Hid.
  unfold bind at 1. unfold ret at 1.
  unfold bind at 1. unfold run at 1.
  unfold reservedFlights.
  destruct rtn as [rf |].
  - unfold bind at 1. unfold run at 1.
    destruct (finalIsRoundTrip req); unfold bind at 1; unfold ret at 1;
      rewrite Hname; unfold bind at 1; unfold ret at 1;
      unfold bind at 1; unfold run at 1; reflexivity.
  - unfold bind at 1. unfold ret at 1.
    destruct (finalIsRoundTrip req) eqn:Hrt; [now destruct (Hknown eq_refl) |].
    unfold bind at 1; unfold ret at 1;
      rewrite Hname; unfold bind at 1; unfold ret at 1;
      unfold bind at 1; unfold run at 1; reflexivity.
Qed.

(** C5.  When the handler has written the booking row and the [INSERT] of a
    passenger row throws (the passengers up to it having a name and the rows
    before it having gone in), the booking row is deleted, so that the
    bookings table is again what it was, and the caller is answered 500
    'Failed to create booking' with the message of the insertion error in
    the details.  The seats stay reserved, no payment row is written, and
    the passenger rows inserted before the failure stay. *)
Theorem passenger_insert_failure_rolls_back
    env req db ci ps dep rtn bid contactName k insertError :
  Accepted env req db ci ps dep rtn bid contactName ->
  (k < List.length ps)%nat ->
  Forall (fun p => Js.truthy (fullName p) = true) (firstn (S k) ps) ->
  (forall j, (j < k)%nat -> detailInsertError env j = None) ->
  detailInsertError env k = Some insertError ->
  exists db',
    createBooking env req db
    = (Responded (BookingFailed ("Failed to save passenger details: " ++ insertError)), db')
    /\ bookingById bid (bookings db') = None
    /\ bookings db' = bookings db
    /\ flights db' = reservedFlights ci ps dep rtn (flights db)
    /\ payments db' = payments db
    /\ exists rows,
         List.length rows = k
         /\ booking_details db' = (booking_details db ++ rows)%list.
Proof.
  intros Hacc Hk Hnames Hbefore Hfail.
  destruct (createBooking_accepted _ _ _ _ _ _ _ _ _ Hacc)
    as (priced & db1 & returnId & Ha & Hrun).
  destruct (amountOf_passengers _ _ _ _ _ _ _ _ _ Ha) as (Hfn & Hfl & Hbk & Hdt & Hpay).
  assert (Hlen : List.length (snd priced) = List.length ps).
  { rewrite <- (length_map fullName), Hfn. apply length_map. }
  assert (Hnames' : Forall (fun p => Js.truthy (fullName p) = true)
                      (firstn (S k) (snd priced))).
  { apply (proj1 (Forall_map fullName (fun n => Js.truthy n = true) _)).
    rewrite <- firstn_map, Hfn, firstn_map. apply Forall_map. exact Hnames. }
  destruct (insertPassengers_fails env bid (selectedServices req) insertError
              (snd priced) 0 k
              (withBookings
                 (fun bs => (bs ++ [bookingRow env req ci bid dep returnId contactName
                                      (Js.max0 (fst priced)) (snd priced)])%list)
                 (withFlights (reservedFlights ci ps dep rtn) db1)))
    as (db' & Hloop & Hf' & Hb' & Hd' & Hp' & _); auto.
  { now rewrite Hlen. }
  pose proof (uniqueBookingId_fresh _ _ _ (acc_identifier _ _ _ _ _ _ _ _ _ Hacc)) as Hfresh.
  exists db'. split; [| split; [| split; [| split; [| split]]]].
  - rewrite Hrun. unfold handle. rewrite (bind_throw _ _ _ _ _ Hloop). reflexivity.
  - rewrite Hb'. cbn [bookings withBookings withFlights].
    rewrite Hbk, deleteBooking_appended; auto.
  - rewrite Hb'. cbn [bookings withBookings withFlights].
    rewrite Hbk. apply deleteBooking_appended; auto.
  - rewrite Hf'. cbn [flights withBookings withFlights]. now rewrite Hfl.
  - rewrite Hp'. cbn [payments withBookings withFlights]. exact Hpay.
  - eexists. split; [| rewrite Hd'; cbn [booking_details withBookings withFlights];
                       rewrite Hdt; reflexivity].
    rewrite length_map, length_firstn, Hlen. lia.
Qed.

(** ** [POST /api/promotions/validate] *)

Lemma find_promoOpen_absent c ps :
  ~ In c (map code ps) -> find (promoOpen c) ps = None.
Proof.
  induction ps as [| q ps IH]; cbn; [reflexivity |]. intros Hn.
  unfold promoOpen at 1. destruct (code q =? c)%string eqn:E.
  - apply String.eqb_eq in E. tauto.
  - cbn. apply IH. tauto.
Qed.

(** With codes unique, the lookup of the route is the lookup by code
    followed by the two other conditions of its [WHERE] clause. *)
Lemma find_promoOpen c ps :
  NoDup (map code ps) ->
  find (promoOpen c) ps
  = match promotionByCode c ps with
    | Some p =>
        if notInactive (status p) && Sql.lt (Some (used_count p)) (usage_limit p)
        then Some p else None
    | None => None
    end.
Proof.
  unfold promotionByCode.
  induction ps as [| q ps IH]; cbn [map find]; [reflexivity |]. intros Hnd.
  inversion Hnd as [| ? ? Hnotin Hnd']; subst.
  unfold promoOpen at 1. destruct (code q =? c)%string eqn:E; cbn [andb].
  - destruct (notInactive (status q) && Sql.lt (Some (used_count q)) (usage_limit q));
      [reflexivity |].
    apply find_promoOpen_absent. apply String.eqb_eq in E. now subst c.
  - now apply IH.
Qed.

(** C9, as amended.  For a request that gives a code, the codes of the store
    being unique, the validation route leaves the store as it is and
    answers: not found when no promotion has the code, when the promotion is
    inactive, or when its usage count is not below its usage cap (there is
    no separate answer for an exhausted promotion); then not yet valid when
    the current time is before [valid_from]; then expired when it is after
    [valid_to]; else valid, with the discount kind and magnitude. *)
Theorem validate_promo_outcome env c db :
  c <> "" ->
  NoDup (map code (promotions db)) ->
  exists r,
    validatePromotion env (Some c) db = (Responded r, db)
    /\ outcomeOf r = Some (validateOutcome env c (promotions db)).
Proof.
  intros Hc Hnd.
  unfold validatePromotion, handle, validatePromotionBody, validateOutcome.
  assert (Ht : Js.truthy (Some c) = true)
    by (cbn; now apply negb_true_iff, String.eqb_neq).
  rewrite Ht. cbn [negb get]. unfold bind, query.
  rewrite (find_promoOpen c (promotions db) Hnd).
  destruct (promotionByCode c (promotions db)) as [p |]; [| eexists; split; reflexivity].
  destruct (notInactive (status p)); cbn [andb negb]; [| eexists; split; reflexivity].
  destruct (Sql.lt (Some (used_count p)) (usage_limit p)); cbn [negb];
    [| eexists; split; reflexivity].
  destruct (date_lt (Some (now_ms env)) (dateOf env (valid_from p)));
    [eexists; split; reflexivity |].
  destruct (date_lt (dateOf env (valid_to p)) (Some (now_ms env)));
    eexists; split; reflexivity.
Qed.

Lemma validate_promo_outcome_witness :
  exists r,
    validatePromotion Sample.env (Some "WELCOME10") Sample.db = (Responded r, Sample.db)
    /\ outcomeOf r = Some (PromoAccepted percent (10 # 1)).
Proof.
  apply (validate_promo_outcome Sample.env "WELCOME10" Sample.db).
  - discriminate.
  - repeat constructor; cbn; intuition discriminate.
Defined.

(** C9, as stated, fails: a promotion that is exhausted is answered with the
    not-found response, the same as an unknown code, where the
    specification's validator reports it as exhausted. *)
Lemma exhausted_promo_reported_not_found :
  validatePromotion Sample.env (Some "FIXED200K") Sample.db
  = (Responded InvalidOrInactive, Sample.db)
  /\ validatePromotion Sample.env (Some "NOSUCHCODE") Sample.db
     = (Responded InvalidOrInactive, Sample.db)
  /\ specValidate Sample.env "FIXED200K" (promotions Sample.db) = PromoExhausted
  /\ ~ (forall env c db,
           c <> "" -> NoDup (map code (promotions db)) ->
           exists r, validatePromotion env (Some c) db = (Responded r, db)
                     /\ outcomeOf r = Some (specValidate env c (promotions db))).
Proof.
  split; [reflexivity |]. split; [reflexivity |]. split; [reflexivity |].
  intros H.
  destruct (H Sample.env "FIXED200K" Sample.db) as (r & Hr & Ho).
  - discriminate.
  - repeat constructor; cbn; intuition discriminate.
  - vm_compute in Hr. inversion Hr; subst. discriminate.
Qed.

(** ** The seat reservation *)

Lemma seatsNonNegative_adjust sf count f :
  seatsNonNegative f ->
  Js.lt_num (seatValueOf f sf) count = false ->
  count <= available_seats f ->
  seatsNonNegative (adjustSeats sf (- count) f).
Proof.
  unfold seatsNonNegative, Js.lt_num.
  intros (He & Hp & Hb & Hf & Ha) Hlt Hagg.
  destruct sf; cbn in *;
    try match type of Hlt with
        | context [match ?x with _ => _ end] => destruct x; cbn in *
        end;
    apply Z.ltb_ge in Hlt; repeat split; lia.
Qed.

(** C2, as amended.  The reservation is an unconditional decrement: on the
    rows of the flight it takes [count] from the class's seat count and from
    the aggregate, and leaves the other rows alone.  It keeps every count at
    0 or above on a flight whose class count is not below [count] (the
    availability check of the handler) and whose aggregate is not below
    [count]. *)
Theorem reserve_unguarded id sf count fl :
  Forall2
    (fun f f' =>
       if flight_id f =? id
       then seatValueOf f' sf = Sql.sub (seatValueOf f sf) count
            /\ available_seats f' = available_seats f - count
       else f' = f)
    fl (reserveSeats id sf count fl)
  /\ (Forall seatsNonNegative fl ->
      Forall (fun f => flight_id f = id ->
                       Js.lt_num (seatValueOf f sf) count = false
                       /\ count <= available_seats f) fl ->
      Forall seatsNonNegative (reserveSeats id sf count fl)).
Proof.
  split.
  - unfold reserveSeats. apply Forall2_map_same. intros f.
    destruct (flight_id f =? id); [| reflexivity].
    rewrite seatValueOf_adjust, available_seats_adjust. split; [| lia].
    destruct (seatValueOf f sf); cbn; [f_equal; lia | reflexivity].
  - intros Hnn Henough. unfold reserveSeats.
    induction fl as [| f fl IH]; cbn [map]; constructor;
      inversion Hnn; inversion Henough; subst; auto.
    destruct (flight_id f =? id) eqn:E; [| assumption].
    apply Z.eqb_eq in E.
    apply seatsNonNegative_adjust; tauto.
Qed.

Lemma reserve_unguarded_witness :
  Forall seatsNonNegative (reserveSeats 1 seats_economy_f 2 (flights Sample.db)).
Proof.
  apply (proj2 (reserve_unguarded 1 seats_economy_f 2 (flights Sample.db))).
  - repeat constructor; cbn; lia.
  - repeat constructor; cbn; intros; try lia; discriminate.
Defined.

(** C2, as stated, fails: the statement has no guard.  Taking 5 seats from
    the 3 economy seats of a flight leaves -2; and a round trip whose two
    legs are the same flight passes both seat checks against the row as
    read and is then reserved twice, which leaves -1. *)
Lemma reserve_drives_count_negative :
  Forall seatsNonNegative (flights Sample.db)
  /\ map seats_economy (reserveSeats 1 seats_economy_f 5 (flights Sample.db)) = [-2; 10]
  /\ (exists fd amt db',
         createBooking Sample.env (Sample.roundTrip 1 Sample.two None None) Sample.db
         = (Responded (BookingCreated "AAAAAAAAAA" fd amt), db')
         /\ map seats_economy (flights db') = [-1; 10])
  /\ ~ (forall id sf count fl,
           Forall seatsNonNegative fl ->
           Forall seatsNonNegative (reserveSeats id sf count fl)).
Proof.
  assert (Hnn : Forall seatsNonNegative (flights Sample.db))
    by (repeat constructor; cbn; lia).
  split; [exact Hnn |]. split; [reflexivity |]. split.
  - do 3 eexists. split; reflexivity.
  - intros H. specialize (H 1 seats_economy_f 5 (flights Sample.db) Hnn).
    inversion H as [| ? ? Hf _]; subst. destruct Hf as (He & _). cbn in He. lia.
Qed.

(** ** The statements at the sample store *)





Lemma sample_accepted :
  Accepted Sample.failingEnv (Sample.oneWay Sample.two None None) Sample.db
    Sample.customer Sample.two Sample.flight1 None "AAAAAAAAAA" "Lan".
Proof.
  constructor; try reflexivity; try discriminate.
  constructor; try reflexivity.
  - exists (Js.IdNum 1). repeat split; reflexivity.
  - discriminate.
  - apply NoReturnLeg. reflexivity.
Qed.

Lemma passenger_insert_failure_rolls_back_witness :
  exists db',
    createBooking Sample.failingEnv (Sample.oneWay Sample.two None None) Sample.db
    = (Responded
         (BookingFailed
            ("Failed to save passenger details: " ++ "SQLITE_BUSY: database is locked")),
       db')
    /\ bookingById "AAAAAAAAAA" (bookings db') = None
    /\ bookings db' = bookings Sample.db
    /\ flights db'
       = reservedFlights Sample.customer Sample.two Sample.flight1 None (flights Sample.db)
    /\ payments db' = payments Sample.db
    /\ exists rows,
         List.length rows = 1%nat
         /\ booking_details db' = (booking_details Sample.db ++ rows)%list.
Proof.
  apply (passenger_insert_failure_rolls_back Sample.failingEnv
           (Sample.oneWay Sample.two None None) Sample.db Sample.customer Sample.two
           Sample.flight1 None "AAAAAAAAAA" "Lan" 1 "SQLITE_BUSY: database is locked").
  - exact sample_accepted.
  - cbn. lia.
  - repeat constructor.
  - intros j Hj. assert (j = 0)%nat as -> by lia. reflexivity.
  - reflexivity.
Defined.



Lemma explicit_total_keeps_promotions_witness :
  promotions
    (snd (createBooking Sample.env
            (Sample.roundTrip 2 Sample.two (Some "WELCOME10") (Some (5 # 1)%Q)) Sample.db))
  = promotions Sample.db
  /\ exists b,
       bookingById "AAAAAAAAAA"
         (bookings
            (snd (createBooking Sample.env
                    (Sample.roundTrip 2 Sample.two (Some "WELCOME10") (Some (5 # 1)%Q))
                    Sample.db)))
       = Some b
       /\ promo_code b = Some "WELCOME10".
Proof.
  destruct (explicit_total_keeps_promotions Sample.env
              (Sample.roundTrip 2 Sample.two (Some "WELCOME10") (Some (5 # 1)%Q))
              Sample.db (5 # 1)%Q eq_refl) as [Hkeep Hrow].
  split; [exact Hkeep |].
  exact (Hrow "AAAAAAAAAA" Sample.flight1 (Js.max0 (5 # 1))
           (snd (createBooking Sample.env
                   (Sample.roundTrip 2 Sample.two (Some "WELCOME10") (Some (5 # 1)%Q))
                   Sample.db))
           eq_refl).
Defined.

(** ** The admin route *)


(** ** The examples of the specification *)

Example discount_percent :
  (Js.max0 (applyDiscount (1000000 # 1) percent (25 # 1)) == 750000 # 1)%Q.
Proof. reflexivity. Qed.

Example discount_fixed :
  (Js.max0 (applyDiscount (1000000 # 1) fixed (200000 # 1)) == 800000 # 1)%Q.
Proof. reflexivity. Qed.

Example discount_floored :
  (Js.max0 (applyDiscount (100000 # 1) fixed (200000 # 1)) == 0)%Q.
Proof. reflexivity. Qed.

(** Two adults, one way, economy at 1,000,000, no promotion: the total is
    2,000,000 and the economy seats of the flight go from 3 to 1. *)
Example two_adults_one_way :
  let out := createBooking Sample.env
               (Sample.oneWay [Sample.adult "A"; Sample.adult "B"] None None) Sample.db in
  match fst out with
  | Responded (BookingCreated _ _ amount) => (amount == 2000000 # 1)%Q
  | _ => False
  end
  /\ map seats_economy (flights (snd out)) = [1; 10]
  /\ map available_seats (flights (snd out)) = [5; 10].
Proof. repeat split. Qed.

(** A promo code that is out of uses does not fail the booking and takes
    nothing off the amount. *)
Example unusable_promo_is_skipped :
  fst (createBooking Sample.env (Sample.oneWay Sample.two (Some "FIXED200K") None) Sample.db)
  = fst (createBooking Sample.env (Sample.oneWay Sample.two None None) Sample.db).
Proof. reflexivity. Qed.

(** * More facts

    ** The payment-status route, in full *)

(** The route on a booking that exists: it always succeeds, and the store
    it leaves is the one the three steps build. *)
Lemma updatePaymentStatus_found bid st db b :
  st <> "" ->
  bookingById bid (bookings db) = Some b ->
  updatePaymentStatus bid (Some st) db
  = (Responded StatusUpdated, afterPaymentStatus bid b st db).
Proof.
  intros Hst Hb.
  destruct (changesOf_found _ _ _ Hb) as [k Hk].
  unfold updatePaymentStatus, handle, updatePaymentStatusBody.
  assert (Ht : Js.truthy (Some st) = true)
    by (cbn; now apply negb_true_iff, String.eqb_neq).
  rewrite Ht. cbn [negb get]. unfold applyPaymentStatus.
  rewrite (bind_ok _ _ db (Some b) db) by (unfold query; now rewrite Hb).
  unfold afterPaymentStatus, releaseStep, promoStep, countsPromo, releasesSeats.
  fold (seatFieldOfBooking b).
  destruct ((st =? "paid")%string && negb (isLit (payment_status b) "paid")
            && Js.truthy (promo_code b)).
  - unfold bind at 1. unfold bind at 1. unfold query at 1.
    destruct (promotionByCode (get (promo_code b)) (promotions db)) as [p |].
    + unfold run at 1.
      destruct (((st =? "cancelled")%string || (st =? "refunded")%string)
                && (isLit (payment_status b) "paid" || isLit (payment_status b) "unpaid")).
      * unfold bind, query, run, ret.
        cbn [fst snd withPromotions withFlights bookings booking_details].
        destruct (return_flight_id b) as [r |];
          [destruct ((is_round_trip b =? 1) && negb (r =? 0)) |];
          cbn [fst snd withPromotions withFlights bookings booking_details];
          rewrite Hk; reflexivity.
      * unfold bind, query, run, ret. cbn [fst snd withPromotions bookings]. now rewrite Hk.
    + unfold ret at 1.
      destruct (((st =? "cancelled")%string || (st =? "refunded")%string)
                && (isLit (payment_status b) "paid" || isLit (payment_status b) "unpaid")).
      * unfold bind, query, run, ret.
        cbn [fst snd withFlights bookings booking_details].
        destruct (return_flight_id b) as [r |];
          [destruct ((is_round_trip b =? 1) && negb (r =? 0)) |];
          cbn [fst snd withFlights bookings booking_details];
          rewrite Hk; reflexivity.
      * unfold bind, query, run, ret. cbn [fst snd]. now rewrite Hk.
  - unfold bind at 1. unfold ret at 1.
    destruct (((st =? "cancelled")%string || (st =? "refunded")%string)
              && (isLit (payment_status b) "paid" || isLit (payment_status b) "unpaid")).
    + unfold bind, query, run, ret.
      cbn [fst snd withFlights bookings booking_details].
      destruct (return_flight_id b) as [r |];
        [destruct ((is_round_trip b =? 1) && negb (r =? 0)) |];
        cbn [fst snd withFlights bookings booking_details];
        rewrite Hk; reflexivity.
    + unfold bind, query, run, ret. cbn [fst snd]. now rewrite Hk.
Qed.

Lemma bookingById_updateStatus bid st bs :
  bookingById bid (updateStatus bid st bs)
  = option_map (fun b => setPaymentStatus b st) (bookingById bid bs).
Proof.
  unfold bookingById, updateStatus.
  induction bs as [| x bs IH]; cbn [map find option_map]; [reflexivity |].
  destruct (booking_id x =? bid)%string eqn:E; cbn [booking_id setPaymentStatus];
    rewrite E; [reflexivity | exact IH].
Qed.

Lemma bookingById_updateStatus_other bid other st bs :
  other <> bid ->
  bookingById other (updateStatus bid st bs) = bookingById other bs.
Proof.
  intros Hne. unfold bookingById, updateStatus.
  induction bs as [| x bs IH]; cbn [map find]; [reflexivity |].
  destruct (booking_id x =? bid)%string eqn:E; cbn [booking_id setPaymentStatus].
  - apply String.eqb_eq in E.
    destruct (booking_id x =? other)%string eqn:E'; [| exact IH].
    apply String.eqb_eq in E'. congruence.
  - destruct (booking_id x =? other)%string; [reflexivity | exact IH].
Qed.

Lemma bookings_releaseStep bid b st db :
  bookings (releaseStep bid b st db) = bookings db.
Proof.
  unfold releaseStep. destruct (releasesSeats b st); [| reflexivity].
  destruct (return_flight_id b) as [r |]; [| reflexivity].
  destruct ((is_round_trip b =? 1) && negb (r =? 0)); reflexivity.
Qed.

Lemma bookings_promoStep b st db : bookings (promoStep b st db) = bookings db.
Proof.
  unfold promoStep. destruct (countsPromo b st); [| reflexivity].
  destruct (promotionByCode _ _); reflexivity.
Qed.

(** Every outcome of the route, in one equation. *)
Lemma updatePaymentStatus_cases bid st db :
  updatePaymentStatus bid st db
  = if Js.truthy st then
      match bookingById bid (bookings db) with
      | Some b => (Responded StatusUpdated, afterPaymentStatus bid b (get st) db)
      | None => (Responded BookingNotFound, db)
      end
    else (Responded StatusRequired, db).
Proof.
  destruct (Js.truthy st) eqn:Ht.
  - destruct (bookingById bid (bookings db)) as [b |] eqn:Hb.
    + destruct st as [s |]; [| discriminate]. cbn [get].
      apply updatePaymentStatus_found; [| exact Hb].
      cbn in Ht. now apply negb_true_iff, String.eqb_neq in Ht.
    + unfold updatePaymentStatus, handle, updatePaymentStatusBody.
      rewrite Ht. cbn [negb]. unfold applyPaymentStatus, bind, query. now rewrite Hb.
  - unfold updatePaymentStatus, handle, updatePaymentStatusBody. now rewrite Ht.
Qed.

(** X1.  The public payment-status route answers 400 when no status is
    given and 404 when no booking has the identifier, the store staying as it
    was; on any other request, whatever the status text, it answers success,
    after which the booking read back carries the new status and is otherwise
    the row it was, every other booking reads as before, and the passenger
    rows and payment rows are untouched. *)
Theorem payment_status_outcome bid st db :
  (Js.truthy st = false ->
   updatePaymentStatus bid st db = (Responded StatusRequired, db))
  /\ (Js.truthy st = true -> bookingById bid (bookings db) = None ->
      updatePaymentStatus bid st db = (Responded BookingNotFound, db))
  /\ (forall b, Js.truthy st = true -> bookingById bid (bookings db) = Some b ->
      exists db',
        updatePaymentStatus bid st db = (Responded StatusUpdated, db')
        /\ bookingById bid (bookings db') = Some (setPaymentStatus b (get st))
        /\ (forall other, other <> bid ->
              bookingById other (bookings db') = bookingById other (bookings db))
        /\ booking_details db' = booking_details db
        /\ payments db' = payments db).
Proof.
  rewrite updatePaymentStatus_cases. split; [| split].
  - now intros ->.
  - now intros -> ->.
  - intros b Ht Hb. rewrite Ht, Hb.
    exists (afterPaymentStatus bid b (get st) db). split; [reflexivity |].
    unfold afterPaymentStatus. cbn [bookings withBookings booking_details payments].
    rewrite bookings_releaseStep, bookings_promoStep.
    split; [| split; [| split]].
    + now rewrite bookingById_updateStatus, Hb.
    + intros other Hne. now apply bookingById_updateStatus_other.
    + unfold releaseStep, promoStep.
      destruct (releasesSeats b (get st)), (countsPromo b (get st));
        try destruct (return_flight_id b) as [r |];
        try destruct ((is_round_trip b =? 1) && negb (r =? 0));
        try destruct (promotionByCode _ _); reflexivity.
    + unfold releaseStep, promoStep.
      destruct (releasesSeats b (get st)), (countsPromo b (get st));
        try destruct (return_flight_id b) as [r |];
        try destruct ((is_round_trip b =? 1) && negb (r =? 0));
        try destruct (promotionByCode _ _); reflexivity.
Qed.

Lemma payment_status_outcome_witness :
  exists db' b,
    updatePaymentStatus "AAAAAAAAAA" (Some "on hold") Demo.booked
    = (Responded StatusUpdated, db')
    /\ bookingById "AAAAAAAAAA" (bookings db') = Some b
    /\ payment_status b = Some "on hold".
Proof.
  destruct (proj2 (proj2 (payment_status_outcome "AAAAAAAAAA" (Some "on hold") Demo.booked))
              _ eq_refl eq_refl) as (db' & Hrun & Hb & _).
  exists db'. eexists. split; [exact Hrun |]. split; [exact Hb | reflexivity].
Defined.

(** ** What a payment-status update leaves alone *)

Lemma flights_afterPaymentStatus bid b st db :
  releasesSeats b st = false -> flights (afterPaymentStatus bid b st db) = flights db.
Proof.
  intros H. unfold afterPaymentStatus, releaseStep, promoStep. rewrite H.
  destruct (countsPromo b st); [| reflexivity].
  destruct (promotionByCode _ _); reflexivity.
Qed.

Lemma promotions_afterPaymentStatus bid b st db :
  countsPromo b st = false -> promotions (afterPaymentStatus bid b st db) = promotions db.
Proof.
  intros H. unfold afterPaymentStatus, releaseStep, promoStep. rewrite H.
  destruct (releasesSeats b st); [| reflexivity].
  destruct (return_flight_id b) as [r |]; [| reflexivity].
  destruct ((is_round_trip b =? 1) && negb (r =? 0)); reflexivity.
Qed.


(** X2.  A payment-status update changes no seat count unless it cancels
    or refunds a booking whose status is paid or unpaid, and changes no
    promotion unless it pays a booking that is not yet paid and carries a
    promo code. *)
Theorem payment_status_frames bid st db :
  ((forall b, bookingById bid (bookings db) = Some b -> releasesSeats b (get st) = false) ->
   flights (snd (updatePaymentStatus bid st db)) = flights db)
  /\ ((forall b, bookingById bid (bookings db) = Some b -> countsPromo b (get st) = false) ->
      promotions (snd (updatePaymentStatus bid st db)) = promotions db).
Proof.
  rewrite updatePaymentStatus_cases.
  destruct (Js.truthy st); [| split; reflexivity].
  destruct (bookingById bid (bookings db)) as [b |]; [| split; reflexivity].
  cbn [snd]. split; intros H.
  - apply flights_afterPaymentStatus. now apply H.
  - apply promotions_afterPaymentStatus. now apply H.
Qed.

Lemma payment_status_frames_witness :
  flights (snd (updatePaymentStatus "AAAAAAAAAA" (Some "paid") Demo.booked))
  = flights Demo.booked
  /\ promotions (snd (updatePaymentStatus "AAAAAAAAAA" (Some "cancelled") Demo.booked))
     = promotions Demo.booked.
Proof.
  split.
  - apply (proj1 (payment_status_frames "AAAAAAAAAA" (Some "paid") Demo.booked)).
    intros b [= <-]. reflexivity.
  - apply (proj2 (payment_status_frames "AAAAAAAAAA" (Some "cancelled") Demo.booked)).
    intros b [= <-]. reflexivity.
Defined.




(** X4.  A payment is counted once: after an update to paid, a second
    update of the same booking to paid changes no promotion. *)
Theorem promo_counted_once_per_payment bid db :
  promotions (snd (updatePaymentStatus bid (Some "paid")
                     (snd (updatePaymentStatus bid (Some "paid") db))))
  = promotions (snd (updatePaymentStatus bid (Some "paid") db)).
Proof.
  rewrite (updatePaymentStatus_cases bid (Some "paid") db). cbn [Js.truthy negb String.eqb
    Ascii.eqb Bool.eqb].
  destruct (bookingById bid (bookings db)) as [b |] eqn:Hb; cbn [snd get].
  - rewrite updatePaymentStatus_cases. cbn [Js.truthy negb String.eqb Ascii.eqb Bool.eqb].
    unfold afterPaymentStatus at 1. cbn [bookings withBookings].
    rewrite bookings_releaseStep, bookings_promoStep, bookingById_updateStatus, Hb.
    cbn [option_map snd get].
    apply promotions_afterPaymentStatus. reflexivity.
  - rewrite updatePaymentStatus_cases, Hb. reflexivity.
Qed.



(** ** Saving and reading a payment *)

Lemma paymentOf_updatePayment id m info ps p :
  paymentOf id ps = Some p ->
  paymentOf id (updatePayment id m info ps) = Some (mkPayment id m info).
Proof.
  unfold paymentOf, updatePayment. induction ps as [| q ps IH]; [discriminate |].
  cbn [find map]. destruct (p_booking_id q =? id)%string eqn:E.
  - intros _. cbn [p_booking_id]. rewrite E. now apply String.eqb_eq in E as ->.
  - intros H. rewrite E. now apply IH.
Qed.

Lemma paymentOf_appended id ps row :
  paymentOf id ps = None -> p_booking_id row = id ->
  paymentOf id (ps ++ [row]) = Some row.
Proof.
  unfold paymentOf. intros Hnone Hrow. induction ps as [| q ps IH]; cbn [find app] in *.
  - now rewrite Hrow, String.eqb_refl.
  - destruct (p_booking_id q =? id)%string; [discriminate | now apply IH].
Qed.

Lemma paymentOf_updatePayment_other id other m info ps :
  other <> id ->
  paymentOf other (updatePayment id m info ps) = paymentOf other ps.
Proof.
  intros Hneq. unfold paymentOf, updatePayment. induction ps as [| q ps IH]; [reflexivity |].
  cbn [find map]. destruct (p_booking_id q =? id)%string eqn:E.
  - cbn [p_booking_id]. apply String.eqb_eq in E. rewrite E.
    destruct (id =? other)%string eqn:E'; [| exact IH].
    apply String.eqb_eq in E'. congruence.
  - destruct (p_booking_id q =? other)%string; [reflexivity | exact IH].
Qed.

Lemma paymentOf_appended_other other ps row :
  p_booking_id row <> other ->
  paymentOf other (ps ++ [row]) = paymentOf other ps.
Proof.
  intros Hneq. unfold paymentOf. induction ps as [| q ps IH]; cbn [find app].
  - now apply String.eqb_neq in Hneq as ->.
  - destruct (p_booking_id q =? other)%string; [reflexivity | exact IH].
Qed.

(** The route in one equation. *)
Lemma savePayment_cases bookingId method info db :
  savePayment bookingId method info db
  = if negb (Js.truthy bookingId) || negb (Js.truthy method)
    then (Responded PaymentInfoMissing, db)
    else if negb (get method =? "bank_transfer")%string && negb (get method =? "momo")%string
    then (Responded InvalidPaymentMethod, db)
    else match bookingById (get bookingId) (bookings db) with
         | None => (Responded PaymentBookingNotFound, db)
         | Some _ =>
             (Responded PaymentSaved, afterSavePayment (get bookingId) (get method) info db)
         end.
Proof.
  unfold savePayment, handle, savePaymentBody, afterSavePayment.
  destruct (negb (Js.truthy bookingId) || negb (Js.truthy method)); [reflexivity |].
  destruct (negb (get method =? "bank_transfer")%string && negb (get method =? "momo")%string);
    [reflexivity |].
  unfold bind at 1. unfold query at 1.
  destruct (bookingById (get bookingId) (bookings db)); [| reflexivity].
  unfold bind at 1. unfold query at 1.
  destruct (paymentOf (get bookingId) (payments db)); reflexivity.
Qed.

(** X6.  POST /api/payments answers 400 when the booking id or the method
    is missing or empty, 400 when the method is neither bank_transfer nor
    momo, and 404 when no booking has the id; in all three cases the store
    is left as it was. *)
Theorem save_payment_rejections bookingId method info db :
  (Js.truthy bookingId = false \/ Js.truthy method = false ->
   savePayment bookingId method info db = (Responded PaymentInfoMissing, db))
  /\ (Js.truthy bookingId = true -> Js.truthy method = true ->
      get method <> "bank_transfer" -> get method <> "momo" ->
      savePayment bookingId method info db = (Responded InvalidPaymentMethod, db))
  /\ (Js.truthy bookingId = true ->
      get method = "bank_transfer" \/ get method = "momo" ->
      bookingById (get bookingId) (bookings db) = None ->
      savePayment bookingId method info db = (Responded PaymentBookingNotFound, db)).
Proof.
  rewrite savePayment_cases. split; [| split].
  - intros [-> | ->]; [reflexivity |]. now rewrite orb_true_r.
  - intros -> -> H1 H2. apply String.eqb_neq in H1, H2. now rewrite H1, H2.
  - intros -> Hm ->.
    assert (Js.truthy method = true) as ->
      by (destruct method as [m |]; cbn in *;
          [destruct Hm as [-> | ->]; reflexivity | destruct Hm; discriminate]).
    destruct Hm as [-> | ->]; reflexivity.
Qed.

Lemma save_payment_rejections_witness :
  savePayment None (Some "momo") None Demo.booked = (Responded PaymentInfoMissing, Demo.booked)
  /\ savePayment (Some "AAAAAAAAAA") (Some "cash") None Demo.booked
     = (Responded InvalidPaymentMethod, Demo.booked)
  /\ savePayment (Some "ZZZZZZZZZZ") (Some "momo") None Demo.booked
     = (Responded PaymentBookingNotFound, Demo.booked).
Proof.
  split; [| split].
  - apply (proj1 (save_payment_rejections None (Some "momo") None Demo.booked)).
    now left.
  - apply (proj1 (proj2 (save_payment_rejections (Some "AAAAAAAAAA") (Some "cash") None
                           Demo.booked))); [reflexivity | reflexivity | |]; discriminate.
  - apply (proj2 (proj2 (save_payment_rejections (Some "ZZZZZZZZZZ") (Some "momo") None
                           Demo.booked))); [reflexivity | now right | reflexivity].
Defined.

(** X7.  A payment saved for an existing booking with one of the two
    methods is answered 200 and can be read back: GET /api/payments/:id
    then returns the method and the transaction info given (an empty one as
    NULL), whether the row was inserted or rewritten.  The booking's status
    becomes pending, no other booking's payment changes, and flights,
    passengers and promotions are untouched. *)
Theorem save_then_get_payment id m info db b :
  m = "bank_transfer" \/ m = "momo" ->
  id <> "" ->
  bookingById id (bookings db) = Some b ->
  exists db',
    savePayment (Some id) (Some m) info db = (Responded PaymentSaved, db')
    /\ getPayment id db' = (Responded (PaymentFound (mkPayment id m (Js.or info None))), db')
    /\ bookingById id (bookings db') = Some (setPaymentStatus b "pending")
    /\ (forall other, other <> id ->
          paymentOf other (payments db') = paymentOf other (payments db))
    /\ flights db' = flights db
    /\ booking_details db' = booking_details db
    /\ promotions db' = promotions db.
Proof.
  intros Hm Hid Hb. exists (afterSavePayment id m info db).
  assert (Hpay : paymentOf id (payments (afterSavePayment id m info db))
                 = Some (mkPayment id m (Js.or info None))).
  { unfold afterSavePayment. cbn [payments withBookings withPayments].
    destruct (paymentOf id (payments db)) as [p |] eqn:Hp.
    - now apply paymentOf_updatePayment with p.
    - now apply paymentOf_appended. }
  assert (Hbook : bookingById id (bookings (afterSavePayment id m info db))
                  = Some (setPaymentStatus b "pending")).
  { unfold afterSavePayment. cbn [bookings withBookings withPayments].
    now rewrite bookingById_updateStatus, Hb. }
  split; [| split; [| split; [| split; [| split; [| split]]]]];
    try reflexivity; try assumption.
  - rewrite savePayment_cases. cbn [get Js.truthy]. apply String.eqb_neq in Hid. rewrite Hid.
    rewrite Hb. destruct Hm as [-> | ->]; reflexivity.
  - unfold getPayment, handle, getPaymentBody, bind, query, ret. cbn [fst snd].
    now rewrite Hbook, Hpay.
  - intros other Hneq. unfold afterSavePayment. cbn [payments withBookings withPayments].
    destruct (paymentOf id (payments db)).
    + now apply paymentOf_updatePayment_other.
    + apply paymentOf_appended_other. cbn. congruence.
Qed.

Lemma save_then_get_payment_witness :
  exists db',
    savePayment (Some "AAAAAAAAAA") (Some "momo") (Some "0901234567") Demo.booked
    = (Responded PaymentSaved, db')
    /\ getPayment "AAAAAAAAAA" db'
       = (Responded (PaymentFound (mkPayment "AAAAAAAAAA" "momo" (Some "0901234567"))), db').
Proof.
  destruct (save_then_get_payment "AAAAAAAAAA" "momo" (Some "0901234567") Demo.booked
              _ (or_intror eq_refl) ltac:(discriminate) eq_refl)
    as (db' & H1 & H2 & _).
  exists db'. split; assumption.
Defined.

(** X8.  Once a payment is saved for a booking its status is pending, which
    is neither paid nor unpaid: a payment-status update that follows, to
    cancelled, refunded or any other status, gives back no seat. *)
Theorem pending_booking_keeps_seats id m info st db b :
  m = "bank_transfer" \/ m = "momo" ->
  id <> "" ->
  bookingById id (bookings db) = Some b ->
  flights (snd (updatePaymentStatus id st (snd (savePayment (Some id) (Some m) info db))))
  = flights db.
Proof.
  intros Hm Hid Hb.
  assert (Hsave : savePayment (Some id) (Some m) info db
                  = (Responded PaymentSaved, afterSavePayment id m info db)).
  { rewrite savePayment_cases. cbn [get Js.truthy].
    apply String.eqb_neq in Hid. rewrite Hid, Hb.
    destruct Hm as [-> | ->]; reflexivity. }
  rewrite Hsave. cbn [snd].
  rewrite updatePaymentStatus_cases.
  destruct (Js.truthy st); [| reflexivity].
  unfold afterSavePayment at 1. cbn [bookings withBookings].
  rewrite bookingById_updateStatus.
  change (bookings (withPayments ?f db)) with (bookings db). rewrite Hb.
  cbn [option_map snd]. rewrite flights_afterPaymentStatus; [reflexivity |].
  unfold releasesSeats. cbn. apply andb_false_r.
Qed.

Lemma pending_booking_keeps_seats_witness :
  map seats_economy
    (flights (snd (updatePaymentStatus "AAAAAAAAAA" (Some "cancelled")
                     (snd (savePayment (Some "AAAAAAAAAA") (Some "momo") None Demo.booked)))))
  = [1; 8].
Proof.
  rewrite (pending_booking_keeps_seats "AAAAAAAAAA" "momo" None (Some "cancelled")
             Demo.booked _ (or_intror eq_refl) ltac:(discriminate) eq_refl).
  reflexivity.
Defined.

(** ** [POST /api/bookings]: the answers before and after the seat checks *)




(** The booking row that reaching the 201 response has written. *)
Lemma persistBooking_row env req ci dep ret amt ps db r db' :
  persistBooking env req ci dep ret amt ps db = (Ok r, db') ->
  exists bid contactName,
    r = BookingCreated bid dep amt
    /\ ci_fullName ci = Some contactName
    /\ (finalIsRoundTrip req = true -> ret <> None)
    /\ bookings db'
       = (bookings db
          ++ [bookingRow env req ci bid dep (returnIdOf req ret) contactName amt ps])%list.
Proof.
  unfold persistBooking, returnIdOf. intros H.
  inv_bind H as drawn d0 Hm. apply query_ok_inv in Hm as [-> ->].
  inv_bind H as bid0 d0 Hm.
  destruct (uniqueBookingId _ _) as [bid |] eqn:Hid; [| discriminate].
  apply ret_ok_inv in Hm as [-> ->].
  inv_bind H as u1 d1 Hm. apply run_ok_inv in Hm. subst d1.
  inv_bind H as u2 d2 Hm.
  assert (Hbk : bookings d2 = bookings db).
  { destruct ret as [rf |].
    - apply run_ok_inv in Hm. now subst d2.
    - now apply ret_ok_inv in Hm as [_ ->]. }
  clear Hm.
  inv_bind H as returnId d3 Hm.
  assert (Hret : d3 = d2
                 /\ returnId = (if finalIsRoundTrip req then option_map flight_id ret else None)
                 /\ (finalIsRoundTrip req = true -> ret <> None)).
  { destruct (finalIsRoundTrip req); [destruct ret |].
    - apply ret_ok_inv in Hm as [-> ->]. repeat split. discriminate.
    - discriminate.
    - apply ret_ok_inv in Hm as [-> ->]. repeat split. discriminate. }
  clear Hm. destruct Hret as (-> & -> & Hknown).
  inv_bind H as contactName d3 Hm.
  destruct (ci_fullName ci) as [name |] eqn:Hname; [| discriminate].
  apply ret_ok_inv in Hm as [-> ->].
  inv_bind H as u4 d4 Hm. apply run_ok_inv in Hm. subst d4.
  inv_bind H as u5 d5 Hm. apply insertPassengers_ok in Hm as (_ & Hb1 & _).
  inv_bind H as u6 d6 Hm. apply insertPayment_ok in Hm as (_ & Hb2 & _).
  apply ret_ok_inv in H as [-> ->].
  exists bid, name. rewrite Hb2, Hb1. cbn [bookings withBookings]. rewrite Hbk.
  repeat split; auto.
Qed.

(** What a 201 response tells about the request and the store. *)
Lemma createBooking_created_store env req db bid fd amt db' :
  createBooking env req db = (Responded (BookingCreated bid fd amt), db') ->
  exists ci ps ret priced contactName,
    Resolved req db ci ps fd ret
    /\ List.length priced = List.length ps
    /\ Js.lt_num (seatValueOf fd (seatFieldOf (seatClassOf ci)))
         (Z.of_nat (List.length ps)) = false
    /\ (forall rf, ret = Some rf ->
          Js.lt_num (seatValueOf rf (seatFieldOf (seatClassOf ci)))
            (Z.of_nat (List.length ps)) = false)
    /\ (finalIsRoundTrip req = true -> ret <> None)
    /\ bookingById bid (bookings db) = None
    /\ flights db' = reservedFlights ci ps fd ret (flights db)
    /\ bookings db'
       = (bookings db
          ++ [bookingRow env req ci bid fd (returnIdOf req ret) contactName amt priced])%list
    /\ booking_details db'
       = (booking_details db
          ++ map (detailRow env bid (selectedServices req)) priced)%list.
Proof.
  unfold createBooking, handle. intros H.
  destruct (createBookingBody_cases env req db)
    as [(r & Hr & Hne) | (ci & ps & dep & ret & Hres & Hb)].
  { rewrite Hr in H. inversion H; subst. now destruct (Hne bid fd amt). }
  rewrite Hb in H.
  destruct (bookFlights env req ci ps dep ret db) as [[r | r | e |] d] eqn:E;
    inversion H; subst; clear H.
  2: { now destruct (bookFlights_replies env req ci ps dep ret _ _ _ E bid fd amt). }
  2: { destruct e; discriminate. }
  unfold bookFlights in E. inv_bind E as u1 d1 Hm.
  apply checkAvailability_ok in Hm as (-> & Hdep & Hret).
  inv_bind E as priced d2 Hm.
  destruct (amountOf_passengers _ _ _ _ _ _ _ _ _ Hm) as (Hnames & Hfl & Hbk & Hdt & _).
  assert (Hlen : List.length (snd priced) = List.length ps).
  { rewrite <- (length_map fullName), Hnames. apply length_map. }
  pose proof (persistBooking_row _ _ _ _ _ _ _ _ _ _ E)
    as (bid1 & contactName & Hr1 & _ & Hknown & Hrow).
  apply persistBooking_ok in E
    as (bid' & returnId & contactName' & Hr & Hid & Hfl' & _ & Hdt' & _).
  inversion Hr; subst. inversion Hr1; subst. clear Hr Hr1.
  exists ci, ps, ret, (snd priced), contactName.
  rewrite Hbk in Hid, Hrow. rewrite Hfl, Hlen in Hfl'. rewrite Hdt in Hdt'.
  repeat match goal with |- _ /\ _ => split end; try assumption.
  now apply uniqueBookingId_fresh with (bookingIdDraws env).
Qed.

(** The reservation of a booking, row by row. *)
Lemma reservedFlights_rows ci ps dep ret fl :
  reservedFlights ci ps dep ret fl
  = map (fun f => adjustSeats (seatFieldOf (seatClassOf ci))
                    (- Z.of_nat (List.length ps) * legsOn dep ret f) f) fl.
Proof.
  unfold reservedFlights, reserveSeats, legsOn. cbv zeta.
  destruct ret as [rf |].
  - rewrite map_map. apply map_ext. intros f.
    pose proof (released_row (seatFieldOf (seatClassOf ci)) (- Z.of_nat (List.length ps))
                  (flight_id dep) true (flight_id rf) f) as H.
    cbv zeta in H. cbn [andb] in H. exact H.
  - apply map_ext. intros f.
    pose proof (released_row (seatFieldOf (seatClassOf ci)) (- Z.of_nat (List.length ps))
                  (flight_id dep) false 0 f) as H.
    cbv zeta in H. cbn [andb] in H. exact H.
Qed.





(** ** Reading a booking back *)

Lemma findFlight_In i fl f : findFlight i fl = Some f -> In f fl.
Proof.
  unfold findFlight, flightById, flightByDisplayId.
  destruct (Js.toNumber i) as [n |].
  - destruct (find (fun f0 => flight_id f0 =? n) fl) eqn:E.
    + intros [= <-]. now apply find_some in E.
    + destruct i; [discriminate |]. intros H. now apply find_some in H.
  - destruct i; [discriminate |]. intros H. now apply find_some in H.
Qed.

Lemma flightById_In f fl :
  In f fl -> exists f0, flightById (flight_id f) fl = Some f0 /\ flight_id f0 = flight_id f.
Proof.
  unfold flightById. intros Hin.
  destruct (find (fun f0 => flight_id f0 =? flight_id f) fl) as [f0 |] eqn:E.
  - exists f0. split; [reflexivity |]. apply find_some in E as [_ E]. now apply Z.eqb_eq.
  - exfalso. apply (find_none _ _ E) in Hin. now rewrite Z.eqb_refl in Hin.
Qed.

(** An [UPDATE] that keeps [flight_id] commutes with the lookup by id. *)
Lemma flightById_map (g : Flight -> Flight) id fl :
  (forall f, flight_id (g f) = flight_id f) ->
  flightById id (map g fl) = option_map g (flightById id fl).
Proof.
  intros Hg. unfold flightById. induction fl as [| f fl IH]; [reflexivity |].
  cbn [map find]. rewrite Hg. destruct (flight_id f =? id); [reflexivity | exact IH].
Qed.

Lemma detailsOf_app id ds ds' : detailsOf id (ds ++ ds') = (detailsOf id ds ++ detailsOf id ds')%list.
Proof. apply filter_app. Qed.

Lemma detailsOf_rows env id svc ps :
  detailsOf id (map (detailRow env id svc) ps) = map (detailRow env id svc) ps.
Proof.
  unfold detailsOf. induction ps as [| p ps IH]; [reflexivity |].
  cbn [map filter d_booking_id detailRow]. rewrite String.eqb_refl. now rewrite IH.
Qed.

(** X11.  A booking that was just created can be read back: GET
    /api/bookings/:id with the id of the 201 response answers 200 with the
    booking row, whose status is unpaid, whose amount is the totalAmount of
    the response and whose departure flight is the flight of the response,
    with the view of that flight, and with one passenger row for each
    passenger of the request after the rows, if any, that were already
    stored under the id. *)
Theorem created_booking_can_be_fetched env req db bid fd amt db' :
  createBooking env req db = (Responded (BookingCreated bid fd amt), db') ->
  exists b depView retView found paymentInfo,
    getBooking bid db'
    = (Responded (BookingFound b depView retView found paymentInfo), db')
    /\ booking_id b = bid
    /\ total_amount b = amt
    /\ payment_status b = Some "unpaid"
    /\ departure_flight_id b = flight_id fd
    /\ v_flight_id depView = flight_id fd
    /\ forall ps, passengers req = Some ps ->
         List.length found
         = (List.length (detailsOf bid (booking_details db)) + List.length ps)%nat.
Proof.
  intros H.
  destruct (createBooking_created_store _ _ _ _ _ _ _ H)
    as (ci & ps & rtn & priced & contactName & Hres & Hlen & _ & _ & _ & Hfresh & Hfl
        & Hbk & Hdt).
  set (row := bookingRow env req ci bid fd (returnIdOf req rtn) contactName amt priced) in *.
  assert (Hrow : bookingById bid (bookings db') = Some row).
  { rewrite Hbk. now apply bookingById_appended. }
  destruct (res_departure _ _ _ _ _ _ Hres) as (depId & _ & _ & Hfind).
  destruct (flightById_In fd (flights db) (findFlight_In _ _ _ Hfind)) as (f0 & Hf0 & Hid0).
  assert (Hdep : flightById (flight_id fd) (flights db')
                 = Some (adjustSeats (seatFieldOf (seatClassOf ci))
                           (- Z.of_nat (List.length ps) * legsOn fd rtn f0) f0)).
  { rewrite Hfl, reservedFlights_rows, flightById_map, Hf0; [reflexivity |].
    intros f. apply flight_id_adjust. }
  unfold getBooking, handle, getBookingBody.
  rewrite (bind_ok _ _ db' (Some row) db') by (unfold query; now rewrite Hrow).
  change (departure_flight_id row) with (flight_id fd).
  rewrite (bind_ok _ _ db' _ db') by (unfold query; rewrite Hdep; reflexivity).
  assert (Hback : exists back,
             (match return_flight_id row with
              | Some returnId =>
                  if (is_round_trip row =? 1) && negb (returnId =? 0)
                  then query (R := GetBookingResponse)
                         (fun db => flightById returnId (flights db))
                  else ret None
              | None => ret None
              end) db' = (Ok back, db')).
  { destruct (return_flight_id row) as [r |]; [| eexists; reflexivity].
    destruct ((is_round_trip row =? 1) && negb (r =? 0)); eexists; reflexivity. }
  destruct Hback as [back Hback].
  rewrite (bind_ok _ _ db' back db' Hback).
  unfold bind, query, ret. cbn [fst snd].
  do 5 eexists. split; [reflexivity |].
  repeat match goal with |- _ /\ _ => split end; try reflexivity.
  - cbn [v_flight_id formatFlightForClient]. now rewrite flight_id_adjust.
  - intros ps0 Hps0. rewrite (res_passengers _ _ _ _ _ _ Hres) in Hps0.
    injection Hps0 as <-.
    rewrite Hdt, detailsOf_app, detailsOf_rows, length_app, length_map. now rewrite Hlen.
Qed.

Lemma created_booking_can_be_fetched_witness :
  exists b depView retView found paymentInfo,
    getBooking "AAAAAAAAAA" Demo.booked
    = (Responded (BookingFound b depView retView found paymentInfo), Demo.booked)
    /\ payment_status b = Some "unpaid"
    /\ v_seats_economy depView = 1
    /\ List.length found = 2%nat.
Proof.
  destruct (created_booking_can_be_fetched Sample.env
              (Sample.roundTrip 2 Sample.two (Some "WELCOME10") None) Sample.db
              "AAAAAAAAAA" Sample.flight1 _ Demo.booked eq_refl)
    as (b & depView & retView & found & paymentInfo & Hget & _ & _ & Hst & _ & _ & Hn).
  exists b, depView, retView, found, paymentInfo.
  split; [exact Hget |]. split; [exact Hst |].
  vm_compute in Hget. inversion Hget. split; reflexivity.
Defined.

(** ** Booking, then cancelling *)

Lemma release_reserve_both d r sf n fl :
  releaseSeats r sf n (releaseSeats d sf n (reserveSeats r sf n (reserveSeats d sf n fl))) = fl.
Proof.
  unfold releaseSeats, reserveSeats. rewrite !map_map.
  rewrite <- (map_id fl) at 2. apply map_ext. intros f.
  destruct (flight_id f =? d) eqn:E1; destruct (flight_id f =? r) eqn:E2;
    repeat (rewrite ?flight_id_adjust, ?E1, ?E2);
    rewrite ?adjustSeats_adjustSeats;
    try match goal with
        | |- adjustSeats _ ?k _ = _ => replace k with 0 by lia; apply adjustSeats_0
        end;
    reflexivity.
Qed.

Lemma seatFieldOfBooking_row env req ci bid dep returnId contactName amt ps :
  seatFieldOfBooking (bookingRow env req ci bid dep returnId contactName amt ps)
  = seatFieldOf (seatClassOf ci).
Proof.
  unfold seatFieldOfBooking, bookingRow. cbn [travel_class]. f_equal.
  unfold seatClassOf, Js.or_default.
  destruct (seatClass ci) as [s |]; [| reflexivity].
  destruct (s =? "")%string eqn:E; [reflexivity | now rewrite E].
Qed.

Lemma countDetails_length id ds : countDetails id ds = Z.of_nat (List.length (detailsOf id ds)).
Proof. reflexivity. Qed.

(** X12.  Booking and then cancelling is neutral on seats: when a booking
    is created (under an id with no passenger rows left over from an
    earlier failure, the flight ids being non-zero as AUTOINCREMENT gives
    them) and its payment status is then set to cancelled or refunded, the
    update succeeds and the flights table is again what it was before the
    booking. *)
Theorem book_then_cancel_restores_seats env req db bid fd amt db' st :
  createBooking env req db = (Responded (BookingCreated bid fd amt), db') ->
  detailsOf bid (booking_details db) = [] ->
  Forall (fun f => flight_id f <> 0) (flights db) ->
  st = "cancelled" \/ st = "refunded" ->
  exists db'',
    updatePaymentStatus bid (Some st) db' = (Responded StatusUpdated, db'')
    /\ flights db'' = flights db.
Proof.
  intros H Hnone Hids Hst.
  destruct (createBooking_created_store _ _ _ _ _ _ _ H)
    as (ci & ps & rtn & priced & contactName & Hres & Hlen & _ & _ & Hknown & Hfresh & Hfl
        & Hbk & Hdt).
  set (row := bookingRow env req ci bid fd (returnIdOf req rtn) contactName amt priced) in *.
  assert (Hrow : bookingById bid (bookings db') = Some row).
  { rewrite Hbk. now apply bookingById_appended. }
  assert (Hne : st <> "") by (destruct Hst as [-> | ->]; discriminate).
  exists (afterPaymentStatus bid row st db').
  split; [now apply updatePaymentStatus_found |].
  assert (Hcount : countDetails bid (booking_details db') = Z.of_nat (List.length ps)).
  { rewrite countDetails_length, Hdt, detailsOf_app, Hnone, detailsOf_rows.
    cbn [app]. now rewrite length_map, Hlen. }
  unfold afterPaymentStatus, releaseStep, promoStep.
  assert (countsPromo row st = false) as ->
    by (unfold countsPromo; destruct Hst as [-> | ->]; reflexivity).
  assert (releasesSeats row st = true) as ->
    by (unfold releasesSeats; destruct Hst as [-> | ->]; reflexivity).
  assert (Hsf : seatFieldOfBooking row = seatFieldOf (seatClassOf ci))
    by apply seatFieldOfBooking_row.
  cbv zeta. rewrite Hcount, Hsf.
  change (departure_flight_id row) with (flight_id fd).
  change (return_flight_id row) with (returnIdOf req rtn).
  change (is_round_trip row) with (if finalIsRoundTrip req then 1 else 0).
  unfold returnIdOf.
  destruct (finalIsRoundTrip req) eqn:Hrt.
  - destruct rtn as [rf |]; [| now destruct (Hknown eq_refl)].
    cbn [option_map]. 
    assert (Hrf : flight_id rf <> 0).
    { pose proof (res_return _ _ _ _ _ _ Hres) as Hr. inversion Hr; subst.
      rewrite Forall_forall in Hids. apply Hids. eapply findFlight_In. eassumption. }
    apply Z.eqb_neq in Hrf. rewrite Hrf. cbn [Z.eqb Pos.eqb andb negb].
    cbn [flights withBookings withFlights]. rewrite Hfl. unfold reservedFlights.
    apply release_reserve_both.
  - assert (rtn = None) as ->.
    { pose proof (res_return _ _ _ _ _ _ Hres) as Hr. inversion Hr; subst; [reflexivity |].
      congruence. }
    cbn [flights withBookings withFlights]. rewrite Hfl. unfold reservedFlights.
    apply release_reserve.
Qed.

Lemma book_then_cancel_restores_seats_witness :
  exists db'',
    updatePaymentStatus "AAAAAAAAAA" (Some "cancelled") Demo.booked
    = (Responded StatusUpdated, db'')
    /\ flights db'' = flights Sample.db.
Proof.
  apply (book_then_cancel_restores_seats Sample.env
           (Sample.roundTrip 2 Sample.two (Some "WELCOME10") None) Sample.db
           "AAAAAAAAAA" Sample.flight1 _ Demo.booked "cancelled" eq_refl eq_refl).
  - repeat constructor; discriminate.
  - now left.
Defined.

(** ** [POST /api/bookings]: the failures after the seats are taken *)

(** X13.  A request flagged as a round trip that names no return flight
    passes the validation and the seat check of the departure flight, takes
    the seats of the departure flight, and then fails on reading the
    flight_id of the missing return flight: it is answered 500 'Failed to
    create booking', no booking, passenger or payment row is written, and
    the seats stay taken. *)
Theorem round_trip_without_return_keeps_seats env req db ci ps dep bid :
  Resolved req db ci ps dep None ->
  finalIsRoundTrip req = true ->
  Js.lt_num (seatValueOf dep (seatFieldOf (seatClassOf ci)))
    (Z.of_nat (List.length ps)) = false ->
  uniqueBookingId (bookingIdDraws env) (bookings db) = Some bid ->
  exists db',
    createBooking env req db
    = (Responded (BookingFailed "Cannot read properties of null (reading 'flight_id')"), db')
    /\ flights db'
       = reserveSeats (flight_id dep) (seatFieldOf (seatClassOf ci))
           (Z.of_nat (List.length ps)) (flights db)
    /\ bookings db' = bookings db
    /\ booking_details db' = booking_details db
    /\ payments db' = payments db.
Proof.
  intros Hres Hrt Hdep Hid.
  destruct (amountOf_spec env req (seatClassOf ci) dep None ps db) as (priced & Ha & _).
  set (db1 := match totalAmount req, promoFor env req db with
              | None, Some p => withPromotions (incrementUsedCount (promo_id p)) db
              | _, _ => db
              end) in *.
  destruct (amountOf_passengers _ _ _ _ _ _ _ _ _ Ha) as (Hnames & Hfl & Hbk & Hdt & Hpay).
  assert (Hlen : List.length (snd priced) = List.length ps).
  { rewrite <- (length_map fullName), Hnames. apply length_map. }
  exists (withFlights (reserveSeats (flight_id dep) (seatFieldOf (seatClassOf ci))
                         (Z.of_nat (List.length ps))) db1).
  split.
  - unfold createBooking, handle.
    rewrite (createBookingBody_resolved env req db ci ps dep None Hres).
    unfold bookFlights.
    assert (Hchk : checkAvailability (seatClassOf ci) (Z.of_nat (List.length ps)) dep None db
                   = (Ok tt, db))
      by (apply checkAvailability_pass; [exact Hdep | discriminate]).
    rewrite (bind_ok _ _ _ _ _ Hchk).
    rewrite (bind_ok _ _ _ _ _ Ha).
    unfold persistBooking. rewrite Hlen.
    unfold bind at 1. unfold query at 1. rewrite Hbk, Hid.
    unfold bind at 1. unfold ret at 1.
    unfold bind at 1. unfold run at 1.
    unfold bind at 1. unfold ret at 1.
    rewrite Hrt. reflexivity.
  - cbn [flights bookings booking_details payments withFlights].
    rewrite Hfl, Hbk, Hdt, Hpay. repeat split.
Qed.

Lemma flaggedOnly_resolved :
  Resolved Demo.flaggedOnly Sample.db Sample.customer Sample.two Sample.flight1 None.
Proof.
  constructor; try reflexivity.
  - exists (Js.IdNum 1). repeat split; reflexivity.
  - discriminate.
  - apply NoReturnLeg. reflexivity.
Qed.

Lemma round_trip_without_return_keeps_seats_witness :
  exists db',
    createBooking Sample.env Demo.flaggedOnly Sample.db
    = (Responded (BookingFailed "Cannot read properties of null (reading 'flight_id')"), db')
    /\ map seats_economy (flights db') = [1; 10]
    /\ bookings db' = [].
Proof.
  destruct (round_trip_without_return_keeps_seats Sample.env Demo.flaggedOnly Sample.db
              Sample.customer Sample.two Sample.flight1 "AAAAAAAAAA"
              flaggedOnly_resolved eq_refl eq_refl eq_refl)
    as (db' & Hrun & Hfl & Hbk & _).
  exists db'. split; [exact Hrun |]. rewrite Hfl, Hbk. split; reflexivity.
Defined.

(** The passenger loop when passenger [k] is the first without a name and
    the rows before it go in: the loop answers 400 there, with those rows
    written and nothing undone. *)
Lemma insertPassengers_nameless env bid svc ps : forall i k db,
  Forall (fun n => Js.truthy n = true) (firstn k (map fullName ps)) ->
  (exists n, nth_error (map fullName ps) k = Some n /\ Js.truthy n = false) ->
  (forall j, (j < k)%nat -> detailInsertError env (i + j) = None) ->
  exists db',
    insertPassengers env bid svc i ps db = (Reply PassengerMissingFields, db')
    /\ flights db' = flights db
    /\ bookings db' = bookings db
    /\ booking_details db'
       = (booking_details db ++ map (detailRow env bid svc) (firstn k ps))%list
    /\ payments db' = payments db
    /\ promotions db' = promotions db.
Proof.
  induction ps as [| p ps IH]; intros i k db Hnames (n & Hn & Hfalsy) Hbefore.
  { destruct k; discriminate. }
  cbn [insertPassengers]. destruct k as [| k].
  - cbn in Hn. injection Hn as <-. rewrite Hfalsy. cbn [negb].
    eexists. split; [reflexivity |]. cbn. now rewrite app_nil_r.
  - cbn [map firstn] in Hnames. inversion Hnames as [| ? ? Hp Hrest]; subst.
    rewrite Hp. cbn [negb].
    pose proof (Hbefore 0%nat ltac:(lia)) as H0. rewrite Nat.add_0_r in H0. rewrite H0.
    destruct (IH (S i) k
                (withDetails (fun ds => (ds ++ [detailRow env bid svc p])%list) db))
      as (db' & Hrun & Hf & Hb & Hd & Hpay & Hpr).
    + exact Hrest.
    + exists n. split; [exact Hn | exact Hfalsy].
    + intros j Hj. replace (S i + j)%nat with (i + S j)%nat by lia. apply Hbefore. lia.
    + exists db'. split.
      * unfold bind at 1. unfold run at 1. exact Hrun.
      * rewrite Hf, Hb, Hd, Hpay, Hpr. cbn. rewrite <- app_assoc. repeat split.
Qed.

(** X14.  The names of the passengers are checked only in the loop that
    writes their rows: when passenger k is the first without a fullName, the
    request is answered 400 'Passenger data missing required fields' after
    the seats were taken and the booking row and the rows of the k
    passengers before it were written, and none of it is undone: the booking
    stays in the store, unpaid, and the seats stay taken. *)
Theorem nameless_passenger_leaves_booking env req db ci ps dep rtn bid contactName k :
  Accepted env req db ci ps dep rtn bid contactName ->
  Forall (fun n => Js.truthy n = true) (firstn k (map fullName ps)) ->
  (exists n, nth_error (map fullName ps) k = Some n /\ Js.truthy n = false) ->
  (forall j, (j < k)%nat -> detailInsertError env j = None) ->
  exists db' b rows,
    createBooking env req db = (Responded PassengerMissingFields, db')
    /\ bookingById bid (bookings db') = Some b
    /\ payment_status b = Some "unpaid"
    /\ flights db' = reservedFlights ci ps dep rtn (flights db)
    /\ List.length rows = k
    /\ booking_details db' = (booking_details db ++ rows)%list
    /\ payments db' = payments db.
Proof.
  intros Hacc Hnames Hnth Hbefore.
  destruct (createBooking_accepted _ _ _ _ _ _ _ _ _ Hacc)
    as (priced & db1 & returnId & Ha & Hrun).
  destruct (amountOf_passengers _ _ _ _ _ _ _ _ _ Ha) as (Hn & Hfl & Hbk & Hdt & Hpay).
  rewrite <- Hn in Hnames, Hnth.
  destruct (insertPassengers_nameless env bid (selectedServices req) (snd priced) 0%nat k
              (withBookings
                 (fun bs => (bs ++ [bookingRow env req ci bid dep returnId contactName
                                      (Js.max0 (fst priced)) (snd priced)])%list)
                 (withFlights (reservedFlights ci ps dep rtn) db1))
              Hnames Hnth Hbefore)
    as (db' & Hloop & Hf' & Hb' & Hd' & Hp' & _).
  exists db', (bookingRow env req ci bid dep returnId contactName
                 (Js.max0 (fst priced)) (snd priced)),
    (map (detailRow env bid (selectedServices req)) (firstn k (snd priced))).
  split; [| split; [| split; [| split; [| split; [| split]]]]].
  - rewrite Hrun. unfold handle. now rewrite (bind_reply _ _ _ _ _ Hloop).
  - rewrite Hb'. cbn [bookings withBookings withFlights]. rewrite Hbk.
    apply bookingById_appended; [| reflexivity].
    apply uniqueBookingId_fresh with (bookingIdDraws env). apply (acc_identifier _ _ _ _ _ _ _ _ _ Hacc).
  - reflexivity.
  - rewrite Hf'. cbn [flights withBookings withFlights]. now rewrite Hfl.
  - rewrite length_map, length_firstn.
    destruct Hnth as (n & Hnth & _).
    assert (k < List.length (map fullName (snd priced)))%nat
      by (apply nth_error_Some; congruence).
    rewrite length_map in *. lia.
  - rewrite Hd'. cbn [booking_details withBookings withFlights]. now rewrite Hdt.
  - rewrite Hp'. cbn [payments withBookings withFlights]. exact Hpay.
Qed.

Lemma nameless_accepted :
  Accepted Sample.env (Sample.oneWay [Sample.adult "A"; Demo.nameless] None None) Sample.db
    Sample.customer [Sample.adult "A"; Demo.nameless] Sample.flight1 None "AAAAAAAAAA" "Lan".
Proof.
  constructor; try reflexivity; try discriminate.
  constructor; try reflexivity.
  - exists (Js.IdNum 1). repeat split; reflexivity.
  - discriminate.
  - apply NoReturnLeg. reflexivity.
Qed.

Lemma nameless_passenger_leaves_booking_witness :
  exists db' b rows,
    createBooking Sample.env (Sample.oneWay [Sample.adult "A"; Demo.nameless] None None)
      Sample.db
    = (Responded PassengerMissingFields, db')
    /\ bookingById "AAAAAAAAAA" (bookings db') = Some b
    /\ List.length rows = 1%nat
    /\ booking_details db' = rows.
Proof.
  destruct (nameless_passenger_leaves_booking Sample.env
              (Sample.oneWay [Sample.adult "A"; Demo.nameless] None None) Sample.db
              Sample.customer [Sample.adult "A"; Demo.nameless] Sample.flight1 None
              "AAAAAAAAAA" "Lan" 1 nameless_accepted)
    as (db' & b & rows & Hrun & Hb & _ & _ & Hlen & Hd & _).
  - repeat constructor.
  - exists None. split; reflexivity.
  - intros j Hj. reflexivity.
  - exists db', b, rows. repeat split; assumption.
Defined.

(** ** The promotion routes *)

Lemma promotionByCode_absent c ps :
  promotionByCode c ps = None -> ~ In c (map code ps).
Proof.
  unfold promotionByCode. intros Hnone Hin. apply in_map_iff in Hin as (p & Hc & Hin).
  apply (find_none _ _ Hnone) in Hin. rewrite Hc, String.eqb_refl in Hin. discriminate.
Qed.

Lemma promotionById_absent id ps :
  promotionById id ps = None -> ~ In id (map promo_id ps).
Proof.
  unfold promotionById. intros Hnone Hin. apply in_map_iff in Hin as (p & Hc & Hin).
  apply (find_none _ _ Hnone) in Hin. rewrite Hc, Z.eqb_refl in Hin. discriminate.
Qed.

Lemma NoDup_snoc {A} (l : list A) x : NoDup l -> ~ In x l -> NoDup (l ++ [x]).
Proof.
  intros Hnd Hx. induction Hnd as [| y l Hy Hnd IH]; cbn.
  - constructor; [tauto | constructor].
  - constructor.
    + rewrite in_app_iff. cbn. intros [H | [H | []]]; [tauto |]. subst. apply Hx. now left.
    + apply IH. intros H. apply Hx. now right.
Qed.

Lemma NoDup_map_filter {A B} (g : A -> B) (keep : A -> bool) l :
  NoDup (map g l) -> NoDup (map g (filter keep l)).
Proof.
  induction l as [| x l IH]; cbn; [auto |]. intros Hnd.
  inversion Hnd as [| ? ? Hx Hnd']; subst.
  destruct (keep x); cbn; [| auto]. constructor; [| auto].
  intros Hin. apply Hx. apply in_map_iff in Hin as (y & Hy & Hin).
  apply filter_In in Hin as [Hin _]. apply in_map_iff. eauto.
Qed.

(** [POST /api/promotions/create] in one equation. *)
Lemma createPromotion_cases lastID req db :
  createPromotion lastID req db
  = if promotionInfoMissing req then (Responded PromotionInfoMissing, db)
    else
      match promotionByCode (get (pr_code req)) (promotions db) with
      | Some _ => (Responded PromotionCodeExists, db)
      | None =>
          match parseDiscountType (finalDiscountType req), pr_discount_value req,
                parseStatus (Js.or_default (pr_status req) "active") with
          | Some kind, Num value, Some st =>
              let row :=
                mkPromotion lastID (get (pr_code req)) (get (pr_name req)) kind value
                  (pr_valid_from req) (pr_valid_to req) (pr_usage_limit req) 0 st in
              (Responded
                 (PromotionCreated (promotionById lastID (promotions db ++ [row])%list)),
               withPromotions (fun l => (l ++ [row])%list) db)
          | _, _, _ => (Responded PromotionFailed, db)
          end
      end.
Proof.
  unfold createPromotion, handle, createPromotionBody.
  destruct (promotionInfoMissing req); [reflexivity |].
  unfold bind at 1. unfold query at 1.
  destruct (promotionByCode (get (pr_code req)) (promotions db)); [reflexivity |].
  unfold checkedColumns.
  destruct (parseDiscountType (finalDiscountType req)) as [kind |]; [| reflexivity].
  destruct (pr_discount_value req) as [| | v]; [reflexivity | reflexivity |].
  destruct (parseStatus (Js.or_default (pr_status req) "active")) as [st |]; reflexivity.
Qed.

(** The store after [POST /api/promotions/create]: as it was, or with one
    more row under the given code, which no row had. *)
Lemma createPromotion_promotions lastID req db :
  promotions (snd (createPromotion lastID req db)) = promotions db
  \/ (promotionByCode (get (pr_code req)) (promotions db) = None
      /\ exists row,
           promo_id row = lastID /\ code row = get (pr_code req) /\ used_count row = 0
           /\ promotions (snd (createPromotion lastID req db))
              = (promotions db ++ [row])%list).
Proof.
  rewrite createPromotion_cases.
  destruct (promotionInfoMissing req); [now left |].
  destruct (promotionByCode (get (pr_code req)) (promotions db)) eqn:Hc; [now left |].
  destruct (parseDiscountType (finalDiscountType req)) as [kind |]; [| now left].
  destruct (pr_discount_value req) as [| | v]; [now left | now left |].
  destruct (parseStatus (Js.or_default (pr_status req) "active")) as [st |]; [| now left].
  right. split; [reflexivity |]. eexists.
  split; [| split; [| split]]. 4: reflexivity. all: reflexivity.
Qed.

Lemma rewritePromotion_In id c name kind value from to limit st ps p' :
  In p' (rewritePromotion id c name kind value from to limit st ps) ->
  (In p' ps /\ promo_id p' <> id)
  \/ (code p' = c /\ promo_id p' = id
      /\ exists p, In p ps /\ promo_id p = id /\ used_count p' = used_count p).
Proof.
  unfold rewritePromotion. intros Hin. apply in_map_iff in Hin as (p & Hp & Hin).
  destruct (promo_id p =? id) eqn:E.
  - right. apply Z.eqb_eq in E. subst p'. cbn. eauto 6.
  - left. apply Z.eqb_neq in E. now subst p'.
Qed.

Lemma rewritePromotion_ids id c name kind value from to limit st ps :
  map promo_id (rewritePromotion id c name kind value from to limit st ps) = map promo_id ps.
Proof.
  unfold rewritePromotion. rewrite map_map. apply map_ext. intros p.
  now destruct (promo_id p =? id).
Qed.

Lemma rewritePromotion_other id c name kind value from to limit st ps :
  ~ In id (map promo_id ps) ->
  rewritePromotion id c name kind value from to limit st ps = ps.
Proof.
  unfold rewritePromotion. induction ps as [| p ps IH]; cbn; [reflexivity |]. intros Hn.
  destruct (promo_id p =? id) eqn:E.
  - apply Z.eqb_eq in E. tauto.
  - rewrite IH by tauto. reflexivity.
Qed.

Lemma rewritePromotion_codes id c name kind value from to limit st ps :
  NoDup (map promo_id ps) -> NoDup (map code ps) ->
  (forall p, In p ps -> code p = c -> promo_id p = id) ->
  NoDup (map code (rewritePromotion id c name kind value from to limit st ps)).
Proof.
  induction ps as [| q ps IH]; cbn [map]; [constructor |].
  intros Hids Hcodes Hfree.
  inversion Hids as [| ? ? Hq Hids']; subst. inversion Hcodes as [| ? ? Hcq Hcodes']; subst.
  cbn [rewritePromotion map]. fold (rewritePromotion id c name kind value from to limit st ps).
  destruct (promo_id q =? id) eqn:E.
  - apply Z.eqb_eq in E. rewrite E in Hq.
    rewrite (rewritePromotion_other _ _ _ _ _ _ _ _ _ _ Hq). cbn [code].
    constructor; [| exact Hcodes'].
    intros Hin. apply in_map_iff in Hin as (p & Hp & Hin).
    apply Hq. apply in_map_iff. exists p. split; [| exact Hin].
    apply Hfree; [now right | exact Hp].
  - apply Z.eqb_neq in E. constructor.
    + intros Hin. apply in_map_iff in Hin as (p' & Hp' & Hin).
      apply rewritePromotion_In in Hin as [[Hin _] | (Hc & _)].
      * apply Hcq. apply in_map_iff. eauto.
      * apply E. apply Hfree; [now left | congruence].
    + apply IH; auto. intros p Hin. apply Hfree. now right.
Qed.

(** The id and the status an update request settles on. *)
Lemma updatePromotion_cases req db :
  updatePromotion req db
  = let id := match pr_promo_id req with Some n => n | None => 0 end in
    if (id =? 0) || promotionInfoMissing req then (Responded PromotionInfoMissing, db)
    else
      match promotionById id (promotions db) with
      | None => (Responded PromotionNotFound, db)
      | Some existing =>
          match find (fun p => (code p =? get (pr_code req))%string && negb (promo_id p =? id))
                  (promotions db) with
          | Some _ => (Responded PromotionCodeExists, db)
          | None =>
              match parseDiscountType (finalDiscountType req), pr_discount_value req,
                    (if Js.truthy (pr_status req) then parseStatus (get (pr_status req))
                     else Some (status existing)) with
              | Some kind, Num value, Some st =>
                  let rewritten :=
                    rewritePromotion id (get (pr_code req)) (get (pr_name req)) kind value
                      (pr_valid_from req) (pr_valid_to req) (pr_usage_limit req) st
                      (promotions db) in
                  (Responded (PromotionUpdated (promotionById id rewritten)),
                   withPromotions (fun _ => rewritten) db)
              | _, _, _ => (Responded PromotionFailed, db)
              end
          end
      end.
Proof.
  unfold updatePromotion, handle, updatePromotionBody. cbv zeta.
  assert (Hid : negb match pr_promo_id req with Some n => negb (n =? 0) | None => false end
                = (match pr_promo_id req with Some n => n | None => 0 end =? 0)).
  { destruct (pr_promo_id req) as [n |]; [| reflexivity]. now rewrite negb_involutive. }
  rewrite Hid.
  destruct ((_ =? 0) || promotionInfoMissing req); [reflexivity |].
  unfold bind at 1. unfold query at 1.
  destruct (promotionById _ (promotions db)) as [existing |]; [| reflexivity].
  unfold bind at 1. unfold query at 1.
  destruct (find _ (promotions db)); [reflexivity |].
  unfold checkedColumns.
  destruct (parseDiscountType (finalDiscountType req)) as [kind |]; [| reflexivity].
  destruct (pr_discount_value req) as [| | v]; [reflexivity | reflexivity |].
  destruct (if Js.truthy (pr_status req) then _ else _) as [st |]; reflexivity.
Qed.

(** The store after [POST /api/promotions/update]: as it was, or with the
    rows under the given id rewritten, no row under another id having the
    new code. *)
Lemma updatePromotion_promotions req db :
  promotions (snd (updatePromotion req db)) = promotions db
  \/ exists id c name kind value from to limit st,
       (forall p, In p (promotions db) -> code p = c -> promo_id p = id)
       /\ promotions (snd (updatePromotion req db))
          = rewritePromotion id c name kind value from to limit st (promotions db).
Proof.
  rewrite updatePromotion_cases. cbv zeta.
  destruct ((_ =? 0) || promotionInfoMissing req); [now left |].
  destruct (promotionById _ (promotions db)) as [existing |]; [| now left].
  destruct (find _ (promotions db)) eqn:Hconf; [now left |].
  destruct (parseDiscountType (finalDiscountType req)) as [kind |]; [| now left].
  destruct (pr_discount_value req) as [| | v]; [now left | now left |].
  destruct (if Js.truthy (pr_status req) then _ else _) as [st |]; [| now left].
  right. do 9 eexists. split; [| reflexivity].
  intros p Hin Hc. apply (find_none _ _ Hconf) in Hin.
  rewrite Hc, String.eqb_refl in Hin. cbn [andb] in Hin.
  apply negb_false_iff, Z.eqb_eq in Hin. exact Hin.
Qed.

(** [POST /api/promotions/delete] in one equation. *)
Lemma deletePromotion_cases promoId db :
  deletePromotion promoId db
  = match promoId with
    | None => (Responded PromotionIdRequired, db)
    | Some id =>
        if id =? 0 then (Responded PromotionIdRequired, db)
        else
          match promotionById id (promotions db) with
          | None => (Responded PromotionNotFound, db)
          | Some _ =>
              (Responded PromotionDeleted,
               withPromotions (filter (fun p => negb (promo_id p =? id))) db)
          end
    end.
Proof.
  unfold deletePromotion, handle, deletePromotionBody.
  destruct promoId as [id |]; [| reflexivity].
  destruct (id =? 0); [reflexivity |].
  unfold bind at 1. unfold query at 1.
  destruct (promotionById id (promotions db)); reflexivity.
Qed.

Lemma deletePromotion_promotions promoId db :
  promotions (snd (deletePromotion promoId db)) = promotions db
  \/ exists id, promotions (snd (deletePromotion promoId db))
                = filter (fun p => negb (promo_id p =? id)) (promotions db).
Proof.
  rewrite deletePromotion_cases.
  destruct promoId as [id |]; [| now left].
  destruct (id =? 0); [now left |].
  destruct (promotionById id (promotions db)); [| now left].
  right. exists id. reflexivity.
Qed.

Lemma incrementUsedCount_keys id ps :
  map promo_id (incrementUsedCount id ps) = map promo_id ps
  /\ map code (incrementUsedCount id ps) = map code ps.
Proof.
  unfold incrementUsedCount. rewrite !map_map.
  split; apply map_ext; intros p; now destruct (promo_id p =? id).
Qed.

Lemma sweep_keys env db :
  map promo_id (promotions (updatePromotionStatuses env db)) = map promo_id (promotions db)
  /\ map code (promotions (updatePromotionStatuses env db)) = map code (promotions db).
Proof.
  unfold updatePromotionStatuses. cbn [promotions withPromotions]. rewrite !map_map.
  split; apply map_ext; intros p; unfold activateRow, expireRow;
    repeat match goal with |- context [if ?b then _ else _] => destruct b end; reflexivity.
Qed.

(** X15.  The keys of the promotions table hold through every route that
    writes the table: when no two promotions share a promo_id or a code,
    the same is true after creating a promotion (under the fresh id SQLite
    gives it), updating or deleting one, after the hourly sweep, after a
    booking request and after a payment-status update, whatever their
    outcome. *)
Theorem promotion_keys_preserved db :
  promotionKeys db ->
  (forall lastID req,
      promotionById lastID (promotions db) = None ->
      promotionKeys (snd (createPromotion lastID req db)))
  /\ (forall req, promotionKeys (snd (updatePromotion req db)))
  /\ (forall promoId, promotionKeys (snd (deletePromotion promoId db)))
  /\ (forall env, promotionKeys (updatePromotionStatuses env db))
  /\ (forall env req, promotionKeys (snd (createBooking env req db)))
  /\ (forall bid st, promotionKeys (snd (updatePaymentStatus bid st db))).
Proof.
  intros [Hids Hcodes]. unfold promotionKeys.
  split; [| split; [| split; [| split; [| split]]]].
  - intros lastID req Hfresh.
    destruct (createPromotion_promotions lastID req db)
      as [-> | (Hc & row & Hid & Hcode & _ & ->)]; [now split |].
    rewrite !map_app. cbn [map]. rewrite Hid, Hcode. split; apply NoDup_snoc; auto.
    + now apply promotionById_absent.
    + now apply promotionByCode_absent.
  - intros req.
    destruct (updatePromotion_promotions req db)
      as [-> | (id & c & name & kind & value & from & to & limit & st & Hfree & ->)];
      [now split |].
    split; [now rewrite rewritePromotion_ids | now apply rewritePromotion_codes].
  - intros promoId.
    destruct (deletePromotion_promotions promoId db) as [-> | (id & ->)]; [now split |].
    split; now apply NoDup_map_filter.
  - intros env. destruct (sweep_keys env db) as [-> ->]. now split.
  - intros env req.
    assert (H : map promo_id (promotions (snd (createBooking env req db)))
                = map promo_id (promotions db)
                /\ map code (promotions (snd (createBooking env req db)))
                   = map code (promotions db)).
    { apply (createBooking_stable
               (fun a b => map promo_id (promotions b) = map promo_id (promotions a)
                           /\ map code (promotions b) = map code (promotions a)));
        try (intros; split; reflexivity).
      - intros a b c [H1 H2] [H3 H4]. split; congruence.
      - intros ci ps dep rtn d.
        destruct (amountOf_spec env req (seatClassOf ci) dep rtn ps d) as (priced & E & _).
        rewrite E. cbn [snd]. destruct (totalAmount req); [now split |].
        destruct (promoFor env req d); [| now split].
        apply incrementUsedCount_keys. }
    destruct H as [-> ->]. now split.
  - intros bid st. rewrite updatePaymentStatus_cases.
    destruct (Js.truthy st); [| now split].
    destruct (bookingById bid (bookings db)) as [b |]; [| now split].
    cbn [snd]. unfold afterPaymentStatus, releaseStep, promoStep.
    assert (Hrel : forall d,
               promotions
                 (if releasesSeats b (get st)
                  then
                    match return_flight_id b with
                    | Some r =>
                        if (is_round_trip b =? 1) && negb (r =? 0)
                        then withFlights
                               (releaseSeats r (seatFieldOfBooking b)
                                  (countDetails bid (booking_details d)))
                               (withFlights
                                  (releaseSeats (departure_flight_id b) (seatFieldOfBooking b)
                                     (countDetails bid (booking_details d))) d)
                        else withFlights
                               (releaseSeats (departure_flight_id b) (seatFieldOfBooking b)
                                  (countDetails bid (booking_details d))) d
                    | None =>
                        withFlights
                          (releaseSeats (departure_flight_id b) (seatFieldOfBooking b)
                             (countDetails bid (booking_details d))) d
                    end
                  else d) = promotions d).
    { intros d. destruct (releasesSeats b (get st)); [| reflexivity].
      destruct (return_flight_id b) as [r |]; [| reflexivity].
      destruct ((is_round_trip b =? 1) && negb (r =? 0)); reflexivity. }
    cbn [promotions withBookings]. cbv zeta. rewrite Hrel.
    destruct (countsPromo b (get st)); [| now split].
    destruct (promotionByCode _ _) as [p |]; [| now split].
    cbn [promotions withPromotions].
    destruct (incrementUsedCount_keys (promo_id p) (promotions db)) as [-> ->]. now split.
Qed.

Lemma sample_keys : promotionKeys Sample.db.
Proof. split; repeat constructor; cbn; intuition discriminate. Qed.

Lemma promotion_keys_preserved_witness : promotionKeys Demo.booked.
Proof.
  apply (proj1 (proj2 (proj2 (proj2 (proj2 (promotion_keys_preserved Sample.db sample_keys)))))
           Sample.env (Sample.roundTrip 2 Sample.two (Some "WELCOME10") None)).
Defined.

(** X16.  POST /api/promotions/update, whatever its outcome, adds or
    removes no promotion and changes no promo_id and no usage count: the
    ids and the counts of the table, in order, are those before the call. *)
Theorem update_promotion_keeps_usage req db :
  map (fun p => (promo_id p, used_count p)) (promotions (snd (updatePromotion req db)))
  = map (fun p => (promo_id p, used_count p)) (promotions db).
Proof.
  destruct (updatePromotion_promotions req db)
    as [-> | (id & c & name & kind & value & from & to & limit & st & _ & ->)];
    [reflexivity |].
  unfold rewritePromotion. rewrite map_map. apply map_ext. intros p.
  now destruct (promo_id p =? id).
Qed.

Lemma find_snoc {A} (f : A -> bool) l x :
  find f l = None -> find f (l ++ [x]) = if f x then Some x else None.
Proof.
  induction l as [| y l IH]; cbn; [reflexivity |].
  destruct (f y); [discriminate | exact IH].
Qed.

(** X17.  A promotion that was just created can be used at once: when the
    request passes the validation, its code is new, its discount type,
    value and status are admitted by the table, the status is not inactive,
    the usage limit is positive and the current time is not before
    valid_from nor after valid_to, the route answers 201 and POST
    /api/promotions/validate then answers that the code is valid, with the
    discount type and value of the request. *)
Theorem created_promotion_validates env lastID req db kind value st limit :
  promotionInfoMissing req = false ->
  promotionByCode (get (pr_code req)) (promotions db) = None ->
  parseDiscountType (finalDiscountType req) = Some kind ->
  pr_discount_value req = Num value ->
  parseStatus (Js.or_default (pr_status req) "active") = Some st ->
  st <> inactive ->
  pr_usage_limit req = Some limit ->
  0 < limit ->
  date_lt (Some (now_ms env)) (dateOf env (pr_valid_from req)) = false ->
  date_lt (dateOf env (pr_valid_to req)) (Some (now_ms env)) = false ->
  exists row db',
    createPromotion lastID req db = (Responded (PromotionCreated row), db')
    /\ validatePromotion env (pr_code req) db'
       = (Responded (PromoValid (get (pr_code req)) (get (pr_name req)) kind value st), db').
Proof.
  intros Hvalid Hnew Hkind Hvalue Hst Hactive Hlimit Hpos Hfrom Hto.
  rewrite createPromotion_cases, Hvalid, Hnew, Hkind, Hvalue, Hst. cbv zeta.
  do 2 eexists. split; [reflexivity |].
  assert (Ht : Js.truthy (pr_code req) = true).
  { unfold promotionInfoMissing in Hvalid.
    destruct (Js.truthy (pr_code req)); [reflexivity | discriminate]. }
  unfold validatePromotion, handle, validatePromotionBody. rewrite Ht. cbn [negb].
  unfold bind, query. cbn [fst snd promotions withPromotions].
  rewrite find_snoc
    by (apply find_promoOpen_absent; now apply promotionByCode_absent).
  unfold promoOpen. cbn [code status used_count usage_limit]. rewrite String.eqb_refl, Hlimit.
  assert (notInactive st = true) as -> by (destruct st; [| now destruct Hactive | |]; reflexivity).
  assert (Sql.lt (Some 0) (Some limit) = true) as -> by (cbn; now apply Z.ltb_lt).
  cbn [andb valid_from valid_to code promo_name discount_type discount_value status].
  now rewrite Hfrom, Hto.
Qed.

Lemma created_promotion_validates_witness :
  exists row db',
    createPromotion 3 Demo.summer Sample.db = (Responded (PromotionCreated row), db')
    /\ validatePromotion Sample.env (Some "SUMMER25") db'
       = (Responded (PromoValid "SUMMER25" "Summer sale" percent (25 # 1) active), db').
Proof.
  apply (created_promotion_validates Sample.env 3 Demo.summer Sample.db percent (25 # 1)
           active 100); try reflexivity.
  discriminate.
Defined.

(** ** Usage counts and caps *)

Lemma NoDup_map_eq {A B} (g : A -> B) l x y :
  NoDup (map g l) -> In x l -> In y l -> g x = g y -> x = y.
Proof.
  induction l as [| z l IH]; cbn; [tauto |]. intros Hnd Hx Hy Hg.
  inversion Hnd as [| ? ? Hz Hnd']; subst.
  destruct Hx as [-> | Hx], Hy as [-> | Hy]; auto.
  - destruct Hz. rewrite Hg. now apply in_map.
  - destruct Hz. rewrite <- Hg. now apply in_map.
Qed.

Lemma incrementUsedCount_cap p ps :
  NoDup (map promo_id ps) ->
  In p ps ->
  Sql.lt (Some (used_count p)) (usage_limit p) = true ->
  Forall (fun q => match usage_limit q with
                   | Some cap => used_count q <= cap
                   | None => True
                   end) ps ->
  Forall (fun q => match usage_limit q with
                   | Some cap => used_count q <= cap
                   | None => True
                   end) (incrementUsedCount (promo_id p) ps).
Proof.
  intros Hnd Hin Hlt Hcap. unfold incrementUsedCount.
  apply Forall_forall. intros q' Hq'. apply in_map_iff in Hq' as (q & <- & Hq).
  rewrite Forall_forall in Hcap.
  destruct (promo_id q =? promo_id p) eqn:E.
  - apply Z.eqb_eq in E. assert (q = p) as -> by (eapply NoDup_map_eq; eauto).
    cbn [usage_limit used_count setUsedCount].
    destruct (usage_limit p) as [cap |]; [| exact I].
    cbn in Hlt. apply Z.ltb_lt in Hlt. lia.
  - now apply Hcap.
Qed.

(** X18.  A booking request never pushes a usage count over its cap: when
    no two promotions share a promo_id and every usage count is at most its
    usage limit, the same holds after POST /api/bookings, whatever its
    outcome, because the promotion it counts is one whose count is below
    the limit. *)
Theorem booking_respects_usage_caps env req db :
  NoDup (map promo_id (promotions db)) ->
  capRespected db ->
  capRespected (snd (createBooking env req db)).
Proof.
  intros Hnd Hcap.
  assert (H : NoDup (map promo_id (promotions (snd (createBooking env req db))))
              /\ capRespected (snd (createBooking env req db))); [| apply H].
  apply (createBooking_stable
           (fun a b => NoDup (map promo_id (promotions a)) /\ capRespected a ->
                       NoDup (map promo_id (promotions b)) /\ capRespected b));
    try (intros; assumption); [| | now split].
  - intros a b c Hab Hbc Ha. auto.
  - intros ci ps dep rtn d [Hd Hc].
    destruct (amountOf_spec env req (seatClassOf ci) dep rtn ps d) as (priced & E & _).
    rewrite E. cbn [snd]. destruct (totalAmount req); [now split |].
    unfold promoFor. destruct (Js.truthy (promoCode req)); [| now split].
    destruct (find _ (promotions d)) as [p |] eqn:Hp; [| now split].
    apply find_some in Hp as [Hin Huse].
    unfold capRespected. cbn [promotions withPromotions]. split.
    + now rewrite (proj1 (incrementUsedCount_keys (promo_id p) (promotions d))).
    + apply incrementUsedCount_cap; auto.
      unfold promoUsable in Huse.
      destruct (Sql.lt (Some (used_count p)) (usage_limit p)); [reflexivity |].
      now rewrite andb_false_r in Huse.
Qed.

Lemma sample_caps : capRespected Sample.db.
Proof. repeat constructor; cbn; lia. Qed.

Lemma booking_respects_usage_caps_witness : capRespected Demo.booked.
Proof.
  apply (booking_respects_usage_caps Sample.env
           (Sample.roundTrip 2 Sample.two (Some "WELCOME10") None) Sample.db
           (proj1 sample_keys) sample_caps).
Defined.

(** ** The hourly sweep of the promotion statuses *)

Lemma setStatus_same p : setStatus p (status p) = p.
Proof. now destruct p. Qed.

(** One row through the two statements of the sweep. *)
Lemma sweep_row currentDate p :
  let p' := activateRow currentDate (expireRow currentDate p) in
  p' = setStatus p (status p')
  /\ (status p = inactive \/ status p = expired -> p' = p)
  /\ (text_lt (valid_to p') currentDate = true ->
      status p' = expired \/ status p' = inactive)
  /\ (status p' = active ->
      status p = active
      \/ (status p = scheduled
          /\ Sql.text_le (valid_from p) currentDate = true
          /\ Sql.text_ge (valid_to p) currentDate = true)).
Proof.
  destruct p as [id c name kind value from to limit used st].
  unfold activateRow, expireRow. cbn [valid_to valid_from status].
  destruct (text_lt to currentDate) eqn:Ea;
    destruct (Sql.text_le from currentDate) eqn:Eb;
    destruct (Sql.text_ge to currentDate) eqn:Ec;
    destruct st; cbn; rewrite ?Ea, ?Eb, ?Ec; cbn;
    repeat split; intros; try reflexivity; try discriminate; try congruence;
    try (intuition discriminate); auto.
Qed.

(** X19.  The sweep of the promotion statuses changes nothing but the
    status column, and leaves the rows that are inactive or expired as they
    are; after it no promotion whose valid_to is before the current date is
    active or scheduled, and a promotion is active only if it was active
    before or was scheduled with the current date between valid_from and
    valid_to. *)
Theorem sweep_statuses env db :
  Forall2
    (fun p p' =>
       p' = setStatus p (status p')
       /\ (status p = inactive \/ status p = expired -> p' = p)
       /\ (text_lt (valid_to p') (now_iso env) = true ->
           status p' = expired \/ status p' = inactive)
       /\ (status p' = active ->
           status p = active
           \/ (status p = scheduled
               /\ Sql.text_le (valid_from p) (now_iso env) = true
               /\ Sql.text_ge (valid_to p) (now_iso env) = true)))
    (promotions db) (promotions (updatePromotionStatuses env db)).
Proof.
  unfold updatePromotionStatuses. cbn [promotions withPromotions]. rewrite map_map.
  apply Forall2_map_same. intros p. apply sweep_row.
Qed.

(** X20.  The sweep is idempotent: run a second time at the same date, it
    changes nothing. *)
Theorem sweep_idempotent env db :
  updatePromotionStatuses env (updatePromotionStatuses env db)
  = updatePromotionStatuses env db.
Proof.
  unfold updatePromotionStatuses, withPromotions. cbn [flights bookings booking_details
    payments promotions]. f_equal. rewrite !map_map. apply map_ext. intros p.
  destruct p as [id c name kind value from to limit used st].
  unfold activateRow, expireRow. cbn [valid_to valid_from status].
  destruct (text_lt to (now_iso env)) eqn:Ea;
    destruct (Sql.text_le from (now_iso env)) eqn:Eb;
    destruct (Sql.text_ge to (now_iso env)) eqn:Ec;
    destruct st; do 4 (cbn; rewrite ?Ea, ?Eb, ?Ec); reflexivity.
Qed.

(** ** The flight routes *)

(** X21.  The two DELETE routes for flights never delete: the statement
    that counts the bookings of the flight names a column, flight_id, that
    the bookings table does not have, so the handler fails once the flight
    is found.  Every call is answered 404 or 500, never 200 nor the 400 for
    a flight with bookings, and the store is left as it was. *)
Theorem delete_flight_never_deletes db :
  (forall param,
      snd (deleteFlight param db) = db
      /\ (fst (deleteFlight param db) = Responded FlightMissing
          \/ fst (deleteFlight param db) = Responded FlightFailed))
  /\ (forall flightCode,
        snd (deleteFlightByCode flightCode db) = db
        /\ (fst (deleteFlightByCode flightCode db) = Responded FlightMissing
            \/ fst (deleteFlightByCode flightCode db) = Responded FlightFailed)).
Proof.
  split.
  - intros param. unfold deleteFlight, handle, bind, query.
    destruct (flightByParam param (flights db)); cbn; auto.
  - intros flightCode. unfold deleteFlightByCode, handle.
    destruct (splitFlightCode flightCode) as [airlineCode flightNum].
    unfold bind, query.
    destruct (find _ (flights db)); cbn; auto.
Qed.

Lemma aggregateMatches_flightRowOf id req : aggregateMatches (flightRowOf id req).
Proof. reflexivity. Qed.

Lemma viewAggregateMatches_format f :
  aggregateMatches f -> viewAggregateMatches (formatFlightForClient f).
Proof. intros H. unfold viewAggregateMatches. cbn. exact H. Qed.

(** [POST /api/flights] in one equation. *)
Lemma createFlight_cases lastID req db :
  createFlight lastID req db
  = if flightBasicsMissing req || negb (truthy_int (fr_seats_economy req))
       || negb (truthy_classes (fr_available_classes req))
    then (Responded FlightInfoMissing, db)
    else
      let db' := withFlights (fun l => (l ++ [flightRowOf lastID req])%list) db in
      match flightById lastID (flights db') with
      | Some f => (Responded (FlightSaved (formatFlightForClient f)), db')
      | None => (Responded FlightFailed, db')
      end.
Proof.
  unfold createFlight, handle, createFlightBody.
  destruct (_ || _); [reflexivity |].
  unfold bind, run, query, formatted. cbn [fst snd].
  destruct (flightById lastID _); reflexivity.
Qed.

(** [PUT /api/flights/code/:flightCode] in one equation. *)
Lemma updateFlightByCode_cases flightCode req db :
  updateFlightByCode flightCode req db
  = if flightBasicsMissing req || negb (truthy_int (fr_seats_economy req))
       || negb (truthy_classes (fr_available_classes req))
    then (Responded FlightInfoMissing, db)
    else
      match flightByCode flightCode (flights db) with
      | None => (Responded FlightMissing, db)
      | Some existing =>
          let db' :=
            withFlights
              (map (fun f => if flight_id f =? flight_id existing
                             then flightRowOf (flight_id f) req else f)) db in
          match flightById (flight_id existing) (flights db') with
          | Some f => (Responded (FlightSaved (formatFlightForClient f)), db')
          | None => (Responded FlightFailed, db')
          end
      end.
Proof.
  unfold updateFlightByCode, handle, updateFlightByCodeBody.
  destruct (_ || _); [reflexivity |].
  unfold bind at 1. unfold query at 1.
  destruct (flightByCode flightCode (flights db)) as [existing |]; [| reflexivity].
  unfold bind, run, query, formatted. cbn [fst snd].
  destruct (flightById (flight_id existing) _); reflexivity.
Qed.

Lemma flightById_snoc id fl row :
  flightById id fl = None -> flight_id row = id -> flightById id (fl ++ [row]) = Some row.
Proof.
  unfold flightById. intros Hnone Hid. rewrite find_snoc by exact Hnone.
  now rewrite Hid, Z.eqb_refl.
Qed.

Lemma flightById_rewritten id (g : Flight -> Flight) fl f :
  (forall x, flight_id (g x) = flight_id x) ->
  flightById id (map (fun x => if flight_id x =? id then g x else x) fl) = Some f ->
  exists x, f = g x.
Proof.
  intros Hg. unfold flightById. induction fl as [| y fl IH]; cbn [map find]; [discriminate |].
  destruct (flight_id y =? id) eqn:E.
  - rewrite Hg, E. intros [= <-]. eauto.
  - rewrite E. exact IH.
Qed.

(** X22.  The routes that write a flight row with the seat counts of the
    request, POST /api/flights and PUT /api/flights/code/:flightCode, store
    as its aggregate the sum of the per-class counts: if the aggregate of
    every flight equals the sum of its per-class counts before the call, it
    does so after it, whatever the outcome, and the flight a 201 or 200
    response shows has an aggregate equal to the sum of the counts it shows
    (for the creation, under the fresh id SQLite gives the row). *)
Theorem flight_writes_keep_aggregate req db :
  Forall aggregateMatches (flights db) ->
  (forall lastID,
      Forall aggregateMatches (flights (snd (createFlight lastID req db)))
      /\ forall v db',
           flightById lastID (flights db) = None ->
           createFlight lastID req db = (Responded (FlightSaved v), db') ->
           v_flight_id v = lastID /\ viewAggregateMatches v)
  /\ (forall flightCode,
        Forall aggregateMatches (flights (snd (updateFlightByCode flightCode req db)))
        /\ forall v db',
             updateFlightByCode flightCode req db = (Responded (FlightSaved v), db') ->
             viewAggregateMatches v).
Proof.
  intros Hall. split.
  - intros lastID. rewrite createFlight_cases.
    destruct (_ || _).
    + split; [exact Hall | discriminate].
    + cbv zeta. split.
      * assert (Hnew : Forall aggregateMatches (flights db ++ [flightRowOf lastID req])).
        { apply Forall_app. split; [exact Hall |]. constructor; [| constructor].
          apply aggregateMatches_flightRowOf. }
        destruct (flightById lastID _); exact Hnew.
      * intros v db' Hfresh. cbn [flights withFlights].
        rewrite (flightById_snoc lastID (flights db) (flightRowOf lastID req) Hfresh eq_refl).
        intros [= <- <-]. split; [reflexivity |].
        apply viewAggregateMatches_format, aggregateMatches_flightRowOf.
  - intros flightCode. rewrite updateFlightByCode_cases.
    destruct (_ || _); [split; [exact Hall | discriminate] |].
    destruct (flightByCode flightCode (flights db)) as [existing |];
      [| split; [exact Hall | discriminate]].
    cbv zeta. split.
    + assert (Hnew : Forall aggregateMatches
                       (map (fun f => if flight_id f =? flight_id existing
                                      then flightRowOf (flight_id f) req else f) (flights db))).
      { apply Forall_map. eapply Forall_impl; [| exact Hall]. intros f Hf.
        destruct (flight_id f =? flight_id existing);
          [apply aggregateMatches_flightRowOf | exact Hf]. }
      destruct (flightById (flight_id existing) _); exact Hnew.
    + intros v db'. cbn [flights withFlights].
      destruct (flightById (flight_id existing) _) as [f |] eqn:Hf; [| discriminate].
      intros [= <- <-].
      apply (flightById_rewritten _ (fun x => flightRowOf (flight_id x) req)) in Hf
        as [x ->]; [| reflexivity].
      apply viewAggregateMatches_format, aggregateMatches_flightRowOf.
Qed.

Lemma flight_writes_keep_aggregate_witness :
  Forall aggregateMatches (flights (snd (createFlight 3 Demo.newFlight Sample.db)))
  /\ Forall aggregateMatches
       (flights (snd (updateFlightByCode "VN100" Demo.newFlight Sample.db))).
Proof.
  assert (H : Forall aggregateMatches (flights Sample.db))
    by (repeat constructor).
  split.
  - apply (proj1 (flight_writes_keep_aggregate Demo.newFlight Sample.db H)).
  - apply (proj2 (flight_writes_keep_aggregate Demo.newFlight Sample.db H)).
Defined.

(** [PUT /api/flights/:id] in one equation. *)
Lemma updateFlight_cases param req db :
  updateFlight param req db
  = if flightBasicsMissing req || negb (truthy_int (fr_available_seats req))
       || negb (truthy_classes (fr_available_classes req))
    then (Responded FlightInfoMissing, db)
    else
      match flightByParam param (flights db) with
      | None => (Responded FlightMissing, db)
      | Some existing =>
          let db' :=
            withFlights
              (map (fun f => if flight_id f =? flight_id existing
                             then flightRowById (flight_id f) req else f)) db in
          match flightByParam param (flights db') with
          | Some f => (Responded (FlightSaved (formatFlightForClient f)), db')
          | None => (Responded FlightFailed, db')
          end
      end.
Proof.
  unfold updateFlight, handle, updateFlightBody.
  destruct (_ || _); [reflexivity |].
  unfold bind at 1. unfold query at 1.
  destruct (flightByParam param (flights db)) as [existing |]; [| reflexivity].
  unfold bind, run, query, formatted. cbn [fst snd].
  destruct (flightByParam param _); reflexivity.
Qed.

(** X30.  A flight updated through PUT /api/flights/:id reads back as it
    was answered: GET /api/flights/:id under the same id returns the view
    of the 200 response.  That view shows the class counts of the request,
    a missing count as 0, and as its aggregate the available_seats of the
    request, as given: this route does not recompute the aggregate from the
    class counts. *)
Theorem updated_flight_reads_back param req db v db' :
  updateFlight param req db = (Responded (FlightSaved v), db') ->
  getFlight param db' = (Responded (FlightSaved v), db')
  /\ v_available_seats v = orZero (fr_available_seats req)
  /\ v_seats_economy v = orZero (fr_seats_economy req)
  /\ v_seats_premium_economy v = orZero (fr_seats_premium_economy req)
  /\ v_seats_business v = orZero (fr_seats_business req)
  /\ v_seats_first v = orZero (fr_seats_first req).
Proof.
  rewrite updateFlight_cases.
  destruct (_ || _); [discriminate |].
  destruct (flightByParam param (flights db)) as [existing |] eqn:He; [| discriminate].
  cbv zeta.
  match goal with
  | |- context [flightByParam param (flights (withFlights ?g db))] =>
      destruct (flightByParam param (flights (withFlights g db))) as [f |] eqn:Hf
  end; [| discriminate].
  intros [= <- <-]. split.
  - unfold getFlight, handle, bind, query, ret. now rewrite Hf.
  - unfold flightByParam in He, Hf.
    destruct (Js.toNumber (Js.IdStr param)) as [n |]; [| discriminate].
    assert (Hn : flight_id existing = n).
    { unfold flightById in He. apply find_some in He as [_ He]. now apply Z.eqb_eq. }
    cbn [flights withFlights] in Hf. rewrite Hn in Hf.
    apply (flightById_rewritten n (fun x => flightRowById (flight_id x) req)) in Hf
      as [x ->]; [| reflexivity].
    cbn. repeat split.
Qed.

Lemma updated_flight_reads_back_witness :
  exists v db',
    getFlight "1" db' = (Responded (FlightSaved v), db')
    /\ v_available_seats v = 5
    /\ v_seats_economy v = 150.
Proof.
  destruct (updated_flight_reads_back "1" Demo.fewSeats Sample.db _ _ eq_refl)
    as (Hget & Hagg & Heco & _).
  do 2 eexists. split; [exact Hget |]. split; [exact Hagg | exact Heco].
Defined.

(** ** Prices shown and prices charged *)

Lemma or_price_self v : (Js.or_price (Some v) 0 == v)%Q.
Proof.
  unfold Js.or_price. destruct (Qeq_bool v 0) eqn:E; [| reflexivity].
  apply Qeq_bool_iff in E. now rewrite E.
Qed.

(** X23.  The price a flight view shows for a fare class is the base price
    a booking in that class is charged; where the view shows no price for
    the class (the column is NULL or 0), the booking is charged the economy
    price. *)
Theorem shown_price_is_charged cls f :
  (basePriceOf cls f
   == match viewPrice (formatFlightForClient f) (seatFieldOf cls) with
      | Some shown => shown
      | None => price_economy f
      end)%Q.
Proof.
  unfold basePriceOf, seatFieldOf.
  destruct (cls =? "PREMIUM_ECONOMY")%string;
    [| destruct (cls =? "BUSINESS")%string; [| destruct (cls =? "FIRST")%string]];
    cbn [viewPrice formatFlightForClient v_price_economy v_price_premium_economy
         v_price_business v_price_first].
  - unfold Js.or_price, orNull. destruct (price_premium_economy f) as [v |]; [| reflexivity].
    destruct (Qeq_bool v 0); reflexivity.
  - unfold Js.or_price, orNull. destruct (price_business f) as [v |]; [| reflexivity].
    destruct (Qeq_bool v 0); reflexivity.
  - unfold Js.or_price, orNull. destruct (price_first f) as [v |]; [| reflexivity].
    destruct (Qeq_bool v 0); reflexivity.
  - unfold Js.or_price at 1. destruct (Qeq_bool (price_economy f) 0) eqn:E.
    + rewrite or_price_self. reflexivity.
    + reflexivity.
Qed.

(** ** The small helpers *)

(** X24.  For a previous value above 0, calculatePercentageChange reports
    a fall as a negative change, a rise as a positive one and no change as
    0, and only those. *)
Theorem percentage_change_sign current previous :
  (0 < previous)%Q ->
  ((calculatePercentageChange current previous < 0)%Q <-> (current < previous)%Q)
  /\ ((0 < calculatePercentageChange current previous)%Q <-> (previous < current)%Q)
  /\ ((calculatePercentageChange current previous == 0)%Q <-> (current == previous)%Q).
Proof.
  intros Hpos. unfold calculatePercentageChange.
  destruct (Qeq_bool previous 0) eqn:E.
  { apply Qeq_bool_iff in E. rewrite E in Hpos. discriminate. }
  assert (Hp : ~ (previous == 0)%Q) by (intros H; rewrite H in Hpos; discriminate).
  assert (Heq : ((current - previous) / previous * 100
                 == (current - previous) * (100 / previous))%Q) by (field; exact Hp).
  rewrite Heq.
  assert (Hk : (0 < 100 / previous)%Q).
  { apply Qlt_shift_div_l; [exact Hpos |]. rewrite Qmult_0_l. reflexivity. }
  set (k := (100 / previous)%Q) in *. clearbody k.
  split; [| split]; split; intros H.
  - destruct (Qlt_le_dec current previous) as [Hlt | Hge]; [exact Hlt |].
    exfalso. apply (Qlt_not_le _ _ H).
    apply Qmult_le_0_compat; [lra | lra].
  - assert (Hneg : (0 < previous - current)%Q) by lra.
    pose proof (Qmult_lt_0_compat _ _ Hneg Hk). lra.
  - destruct (Qlt_le_dec previous current) as [Hlt | Hge]; [exact Hlt |].
    exfalso. assert (Hnn : (0 <= previous - current)%Q) by lra.
    pose proof (Qmult_le_0_compat _ _ Hnn (Qlt_le_weak _ _ Hk)). lra.
  - assert (Hneg : (0 < current - previous)%Q) by lra.
    pose proof (Qmult_lt_0_compat _ _ Hneg Hk). lra.
  - destruct (Qmult_integral _ _ H) as [H0 | H0]; lra.
  - assert (H0 : (current - previous == 0)%Q) by lra. rewrite H0. lra.
Qed.

Lemma percentage_change_sign_witness : (0 < calculatePercentageChange 100 80)%Q.
Proof.
  apply (proj1 (proj2 (percentage_change_sign 100 80 eq_refl))). reflexivity.
Defined.

Lemma charAt_characters k :
  0 <= k < 36 ->
  exists c, charAt characters k = String c EmptyString
            /\ existsb (Ascii.eqb c) (list_ascii_of_string characters) = true.
Proof.
  intros Hk. unfold charAt.
  assert ((k <? 0) = false) as -> by (apply Z.ltb_ge; lia).
  assert (Hn : (Z.to_nat k < 36)%nat) by lia.
  revert Hn. generalize (Z.to_nat k). intros n Hn.
  do 36 (destruct n as [| n]; [eexists; split; reflexivity |]).
  lia.
Qed.

Lemma allIn_app alphabet s t :
  allIn alphabet (s ++ t) = allIn alphabet s && allIn alphabet t.
Proof.
  induction s as [| c s IH]; cbn; [reflexivity |]. rewrite IH. apply andb_assoc.
Qed.

Lemma string_length_app s t :
  String.length (s ++ t) = (String.length s + String.length t)%nat.
Proof. induction s as [| c s IH]; cbn; [reflexivity |]. now rewrite IH. Qed.

Lemma bookingIdFrom_spec random : forall count i result,
  (forall j, (0 <= random j)%Q /\ (random j < 1)%Q) ->
  String.length (bookingIdFrom random i count result) = (String.length result + count)%nat
  /\ allIn characters (bookingIdFrom random i count result) = allIn characters result.
Proof.
  induction count as [| count IH]; intros i result Hr; cbn [bookingIdFrom].
  - now rewrite Nat.add_0_r.
  - destruct (Hr i) as [H0 H1].
    assert (Hk : 0 <= Qfloor (random i * inject_Z (Z.of_nat (String.length characters))) < 36).
    { change (inject_Z (Z.of_nat (String.length characters))) with (inject_Z 36). split.
      - change 0 with (Qfloor 0). apply Qfloor_resp_le.
        apply Qmult_le_0_compat; [exact H0 | discriminate].
      - assert (Hlt : (random i * inject_Z 36 < inject_Z 36)%Q).
        { rewrite <- (Qmult_1_l (inject_Z 36)) at 2.
          apply Qmult_lt_compat_r; [reflexivity | exact H1]. }
        pose proof (Qfloor_le (random i * inject_Z 36)) as Hfl.
        pose proof (Qle_lt_trans _ _ _ Hfl Hlt) as Hz.
        rewrite <- Zlt_Qlt in Hz. exact Hz. }
    destruct (charAt_characters _ Hk) as (c & Hc & Hin).
    destruct (IH (S i) (result ++ charAt characters
                          (Qfloor (random i * inject_Z (Z.of_nat (String.length characters)))))
                Hr) as [Hlen Hall].
    rewrite Hlen, Hall, Hc, string_length_app, allIn_app. cbn [String.length allIn].
    rewrite Hin. cbn [andb]. split; [lia | now rewrite andb_true_r].
Qed.

(** X25.  generateBookingId returns ten characters, each a capital letter
    or a digit, whatever Math.random returns in [0, 1). *)
Theorem booking_id_shape random :
  (forall j, (0 <= random j)%Q /\ (random j < 1)%Q) ->
  String.length (generateBookingId random) = 10%nat
  /\ allIn characters (generateBookingId random) = true.
Proof.
  intros Hr. unfold generateBookingId.
  destruct (bookingIdFrom_spec random 10 0%nat "" Hr) as [Hlen Hall].
  rewrite Hlen, Hall. split; reflexivity.
Qed.

Lemma booking_id_shape_witness :
  String.length (generateBookingId (fun j => (Z.of_nat (j mod 10) # 10)%Q)) = 10%nat
  /\ allIn characters (generateBookingId (fun j => (Z.of_nat (j mod 10) # 10)%Q)) = true.
Proof.
  apply (booking_id_shape (fun j => (Z.of_nat (j mod 10) # 10)%Q)).
  intros j. pose proof (Nat.mod_upper_bound j 10 ltac:(discriminate)) as Hj.
  unfold Qle, Qlt. cbn [Qnum Qden]. lia.
Defined.

Lemma string_app_assoc (a b c : string) : ((a ++ b) ++ c = a ++ (b ++ c))%string.
Proof. induction a as [| x a IH]; cbn; [reflexivity |]. now rewrite IH. Qed.

Lemma string_app_nil_r (a : string) : (a ++ "")%string = a.
Proof. induction a as [| x a IH]; cbn; [reflexivity |]. now rewrite IH. Qed.

(** [split('-')] cuts at every dash: it returns one part more than there
    are dashes, and the parts joined by dashes are the string. *)
Lemma splitDash_spec s : forall current,
  List.length (splitDash s current) = S (dashes s)
  /\ fold_right (fun part rest => part ++ "-" ++ rest) (last (splitDash s current) "")
       (removelast (splitDash s current))
     = current ++ s.
Proof.
  induction s as [| c s IH]; intros current; cbn [splitDash dashes].
  - cbn. split; [reflexivity |]. now rewrite string_app_nil_r.
  - destruct (Ascii.eqb c "-") eqn:E.
    + apply Ascii.eqb_eq in E. subst c.
      destruct (IH "") as [Hlen Hjoin]. split; [cbn; now rewrite Hlen |].
      destruct (splitDash s "") as [| p ps] eqn:Hs; [discriminate |].
      cbn [last removelast fold_right] in *. rewrite Hjoin. reflexivity.
    + destruct (IH (current ++ String c "")) as [Hlen Hjoin]. split; [exact Hlen |].
      rewrite Hjoin, string_app_assoc. reflexivity.
Qed.

(** X26.  formatDateForDB gives back a date written with exactly two
    dashes, such as YYYY-MM-DD, unchanged. *)
Theorem format_date_identity dateString :
  dashes dateString = 2%nat -> formatDateForDB dateString = dateString.
Proof.
  intros Hd. unfold formatDateForDB, part.
  destruct (splitDash_spec dateString "") as [Hlen Hjoin]. rewrite Hd in Hlen.
  destruct (splitDash dateString "") as [| year [| month [| day [| extra rest]]]];
    try discriminate.
  cbn in Hjoin |- *. exact Hjoin.
Qed.

Lemma format_date_identity_witness : formatDateForDB "2025-06-15" = "2025-06-15".
Proof. apply (format_date_identity "2025-06-15"). reflexivity. Defined.

(** ** The rows of the bookings table *)

Lemma deleteBooking_idem bid bs : deleteBooking bid (deleteBooking bid bs) = deleteBooking bid bs.
Proof.
  unfold deleteBooking. induction bs as [| b bs IH]; cbn; [reflexivity |].
  destruct (negb (booking_id b =? bid)%string) eqn:E; cbn; rewrite ?E, IH; reflexivity.
Qed.

(** After the booking row is written, the bookings table is left alone or
    loses the rows of the booking. *)
Lemma afterInsert_stable env req bid dep amt ps :
  stable (fun a b => bookings b = bookings a \/ bookings b = deleteBooking bid (bookings a))
    (insertPassengers env bid (selectedServices req) 0 ps ;;;
     insertPayment req bid ;;;
     ret (BookingCreated bid dep amt)).
Proof.
  set (P := fun a b : Db =>
              bookings b = bookings a \/ bookings b = deleteBooking bid (bookings a)).
  assert (P_refl : forall db, P db db) by (intros db; now left).
  assert (P_trans : forall a b c, P a b -> P b c -> P a c).
  { intros a b c [Hab | Hab] [Hbc | Hbc]; unfold P; rewrite Hbc, Hab, ?deleteBooking_idem; auto. }
  assert (P_details : forall f db, P db (withDetails f db)) by (intros f db; now left).
  assert (P_payments : forall f db, P db (withPayments f db)) by (intros f db; now left).
  assert (P_delete : forall db, P db (withBookings (deleteBooking bid) db))
    by (intros db; now right).
  assert (Hloop : forall i, stable P (insertPassengers env bid (selectedServices req) i ps)).
  { induction ps as [| p ps IH]; intros i; cbn [insertPassengers];
      stable_steps P P_refl P_trans. apply IH. }
  apply (stable_bind P P_trans); [apply Hloop | intros ?].
  apply (stable_bind P P_trans); [| intros ?; apply (stable_ret P P_refl)].
  unfold insertPayment. stable_steps P P_refl P_trans.
Qed.

(** The bookings table after the second half of the handler, whatever its
    outcome: as it was, or with the row of the booking under an id that was
    free. *)
Lemma persistBooking_bookings env req ci dep rtn amt ps db out db' :
  persistBooking env req ci dep rtn amt ps db = (out, db') ->
  map flight_id (flights db') = map flight_id (flights db)
  /\ (bookings db' = bookings db
      \/ exists bid returnId contactName,
           bookingById bid (bookings db) = None
           /\ bookings db'
              = (bookings db
                 ++ [bookingRow env req ci bid dep returnId contactName amt ps])%list).
Proof.
  assert (Hids : forall id sf n fl, map flight_id (reserveSeats id sf n fl) = map flight_id fl).
  { intros id sf n fl. unfold reserveSeats. rewrite map_map. apply map_ext. intros f.
    destruct (flight_id f =? id); [apply flight_id_adjust | reflexivity]. }
  unfold persistBooking. intros H.
  unfold bind at 1 in H. unfold query at 1 in H.
  destruct (uniqueBookingId (bookingIdDraws env) (bookings db)) as [bid |] eqn:Hid.
  2: { inversion H; subst. split; [reflexivity | now left]. }
  unfold bind at 1 in H. unfold ret at 1 in H.
  unfold bind at 1 in H. unfold run at 1 in H.
  set (db1 := withFlights _ db) in H.
  assert (H1 : map flight_id (flights db1) = map flight_id (flights db)
               /\ bookings db1 = bookings db) by (split; [apply Hids | reflexivity]).
  clearbody db1.
  unfold bind at 1 in H.
  set (db2 := match rtn with
              | Some rf =>
                  withFlights (reserveSeats (flight_id rf) (seatFieldOf (seatClassOf ci))
                                 (Z.of_nat (List.length ps))) db1
              | None => db1
              end).
  assert (H2 : map flight_id (flights db2) = map flight_id (flights db)
               /\ bookings db2 = bookings db).
  { subst db2. destruct rtn; [| exact H1]. cbn [flights bookings withFlights].
    now rewrite Hids. }
  assert (Hstep : match rtn with
                  | Some rf =>
                      run (R := BookingResponse)
                        (withFlights (reserveSeats (flight_id rf) (seatFieldOf (seatClassOf ci))
                                        (Z.of_nat (List.length ps))))
                  | None => ret tt
                  end db1 = (Ok tt, db2)) by (subst db2; now destruct rtn).
  rewrite Hstep in H. clear Hstep. clearbody db2. clear H1.
  destruct H2 as [Hfl Hbk].
  unfold bind at 1 in H.
  remember (if finalIsRoundTrip req
            then match rtn with
                 | Some rf => ret (R := BookingResponse) (Some (flight_id rf))
                 | None => throw (OtherError "Cannot read properties of null (reading 'flight_id')")
                 end
            else ret None) as m eqn:Hm.
  assert (Hret : (exists returnId, m db2 = (Ok returnId, db2))
                 \/ exists e, m db2 = (Throw e, db2)).
  { destruct (finalIsRoundTrip req); [destruct rtn |]; subst m;
      [left | right | left]; eexists; reflexivity. }
  clear Hm. destruct Hret as [[returnId Hret] | [e Hret]]; rewrite Hret in H.
  2: { inversion H; subst. split; [exact Hfl | now left]. }
  unfold bind at 1 in H.
  destruct (ci_fullName ci) as [contactName |].
  2: { unfold throw at 1 in H. inversion H; subst. split; [exact Hfl | now left]. }
  unfold ret at 1 in H.
  unfold bind at 1 in H. unfold run at 1 in H.
  pose proof (afterInsert_stable env req bid dep amt ps
                (withBookings
                   (fun bs => (bs ++ [bookingRow env req ci bid dep returnId contactName
                                        amt ps])%list) db2)) as Hst.
  rewrite H in Hst. cbn [snd bookings withBookings] in Hst.
  split.
  - assert (Hkeep : stable (fun a b => map flight_id (flights b) = map flight_id (flights a))
                      (insertPassengers env bid (selectedServices req) 0 ps ;;;
                       insertPayment req bid ;;;
                       ret (BookingCreated bid dep amt))).
    { assert (Htrans : forall a b c : Db,
                 map flight_id (flights b) = map flight_id (flights a) ->
                 map flight_id (flights c) = map flight_id (flights b) ->
                 map flight_id (flights c) = map flight_id (flights a))
        by (intros a b c Hab Hbc; congruence).
      apply (stable_bind _ Htrans); [| intros ?; apply (stable_bind _ Htrans)].
      - apply (insertPassengers_stable
                 (fun a b => map flight_id (flights b) = map flight_id (flights a)));
          try (intros; reflexivity). exact Htrans.
      - apply (insertPayment_stable
                 (fun a b => map flight_id (flights b) = map flight_id (flights a)));
          try (intros; reflexivity). exact Htrans.
      - intros ? d. reflexivity. }
    specialize (Hkeep (withBookings
                         (fun bs => (bs ++ [bookingRow env req ci bid dep returnId
                                              contactName amt ps])%list) db2)).
    cbv beta in Hkeep. rewrite H in Hkeep. cbn [snd flights withBookings] in Hkeep.
    now rewrite Hkeep.
  - assert (Hfresh : bookingById bid (bookings db) = None)
      by (now apply uniqueBookingId_fresh with (bookingIdDraws env)).
    rewrite Hbk in Hst. destruct Hst as [Hst | Hst].
    + right. exists bid, returnId, contactName. split; assumption.
    + left. rewrite Hst. now apply deleteBooking_appended.
Qed.

Lemma snd_handle {R} (catch : Exn -> R) (body : M R R) db :
  snd (handle catch body db) = snd (body db).
Proof. unfold handle. destruct (body db) as [[r | r | e |] d]; reflexivity. Qed.

Lemma checkAvailability_outcome cls n dep rtn db :
  checkAvailability cls n dep rtn db = (Ok tt, db)
  \/ exists r, checkAvailability cls n dep rtn db = (Reply r, db).
Proof.
  unfold checkAvailability. destruct (Js.lt_num _ n); [right; eexists; reflexivity |].
  destruct rtn as [rf |]; [| now left].
  destruct (Js.lt_num _ n); [right; eexists; reflexivity | now left].
Qed.

(** The flights and the bookings after [POST /api/bookings], whatever its
    outcome. *)
Lemma createBooking_bookings env req db :
  map flight_id (flights (snd (createBooking env req db))) = map flight_id (flights db)
  /\ (bookings (snd (createBooking env req db)) = bookings db
      \/ exists row dep,
           In dep (flights db)
           /\ departure_flight_id row = flight_id dep
           /\ bookingById (booking_id row) (bookings db) = None
           /\ bookings (snd (createBooking env req db)) = (bookings db ++ [row])%list).
Proof.
  unfold createBooking. rewrite snd_handle.
  destruct (createBookingBody_cases env req db)
    as [(r & Hr & _) | (ci & ps & dep & rtn & Hres & Hb)].
  { rewrite Hr. split; [reflexivity | now left]. }
  rewrite Hb. unfold bookFlights.
  destruct (checkAvailability_outcome (seatClassOf ci) (Z.of_nat (List.length ps)) dep rtn db)
    as [Hc | [r Hc]].
  2: { rewrite (bind_reply _ _ _ _ _ Hc). split; [reflexivity | now left]. }
  rewrite (bind_ok _ _ _ _ _ Hc).
  destruct (amountOf_spec env req (seatClassOf ci) dep rtn ps db) as (priced & Ha & _).
  destruct (amountOf_passengers _ _ _ _ _ _ _ _ _ Ha) as (_ & Hfl & Hbk & _).
  rewrite (bind_ok _ _ _ _ _ Ha).
  destruct (persistBooking env req ci dep rtn (Js.max0 (fst priced)) (snd priced) _)
    as [out db'] eqn:Hp.
  apply persistBooking_bookings in Hp as [Hids Hrows]. cbn [snd].
  rewrite Hfl in Hids. rewrite Hbk in Hrows. split; [exact Hids |].
  destruct Hrows as [Hsame | (bid & returnId & contactName & Hfresh & Hrow)]; [now left |].
  right. eexists. exists dep. split; [| split; [| split; [| exact Hrow]]].
  - destruct (res_departure _ _ _ _ _ _ Hres) as (depId & _ & _ & Hfind).
    eapply findFlight_In. exact Hfind.
  - reflexivity.
  - exact Hfresh.
Qed.

(** X27.  The bookings table stays well formed through POST /api/bookings:
    when no two bookings share a booking_id and the departure flight of
    every booking is a flight of the store, the same holds after the call,
    whatever its outcome: the id of a new row is one that no booking had,
    its departure flight is the flight that was found, and the seat updates
    keep every flight_id. *)
Theorem booking_rows_stay_well_formed env req db :
  bookingsWellFormed db -> bookingsWellFormed (snd (createBooking env req db)).
Proof.
  intros [Hnd Hrefs]. unfold bookingsWellFormed.
  destruct (createBooking_bookings env req db) as [Hids Hrows]. rewrite Hids.
  destruct Hrows as [-> | (row & dep & Hdep & Hrow & Hfresh & ->)]; [now split |].
  split.
  - rewrite map_app. cbn [map]. apply NoDup_snoc; [exact Hnd |].
    intros Hin. apply in_map_iff in Hin as (b & Hb & Hin).
    unfold bookingById in Hfresh. apply (find_none _ _ Hfresh) in Hin.
    rewrite Hb, String.eqb_refl in Hin. discriminate.
  - apply Forall_app. split; [exact Hrefs |]. constructor; [| constructor].
    rewrite Hrow. now apply in_map.
Qed.

Lemma booking_rows_stay_well_formed_witness : bookingsWellFormed Demo.booked.
Proof.
  apply (booking_rows_stay_well_formed Sample.env
           (Sample.roundTrip 2 Sample.two (Some "WELCOME10") None) Sample.db).
  split; constructor.
Defined.

(** ** Passenger types recorded and charged *)

Lemma upper_lower_ascii c : Js.upper_ascii (Js.lower_ascii c) = Js.upper_ascii c.
Proof.
  destruct c as [b0 b1 b2 b3 b4 b5 b6 b7];
    destruct b0, b1, b2, b3, b4, b5, b6, b7; reflexivity.
Qed.

Lemma lower_upper_ascii c : Js.lower_ascii (Js.upper_ascii c) = Js.lower_ascii c.
Proof.
  destruct c as [b0 b1 b2 b3 b4 b5 b6 b7];
    destruct b0, b1, b2, b3, b4, b5, b6, b7; reflexivity.
Qed.

Lemma toUpperCase_toLowerCase s : Js.toUpperCase (Js.toLowerCase s) = Js.toUpperCase s.
Proof. induction s as [| c s IH]; cbn; [reflexivity |]. now rewrite upper_lower_ascii, IH. Qed.

Lemma toLowerCase_toUpperCase s : Js.toLowerCase (Js.toUpperCase s) = Js.toLowerCase s.
Proof. induction s as [| c s IH]; cbn; [reflexivity |]. now rewrite lower_upper_ascii, IH. Qed.

(** A type given in lower, upper or mixed case is recorded under the name
    it is priced under, and an unknown type is recorded as ADULT, which is
    how it is priced. *)
Lemma typeLadder_multiplier t :
  passengerMultiplier
    (if (Js.toLowerCase t =? "adult")%string then "ADULT"
     else if (Js.toLowerCase t =? "child")%string then "CHILD"
     else if (Js.toLowerCase t =? "infant")%string then "INFANT"
     else "ADULT")
  = passengerMultiplier (Js.toUpperCase t).
Proof.
  assert (Hup : forall l, Js.toLowerCase t = l -> Js.toUpperCase t = Js.toUpperCase l)
    by (intros l <-; now rewrite toUpperCase_toLowerCase).
  assert (Hlow : forall u, Js.toUpperCase t = u -> Js.toLowerCase t = Js.toLowerCase u)
    by (intros u <-; now rewrite toLowerCase_toUpperCase).
  destruct (Js.toLowerCase t =? "adult")%string eqn:Ea.
  { apply String.eqb_eq in Ea. now rewrite (Hup _ Ea). }
  destruct (Js.toLowerCase t =? "child")%string eqn:Ec.
  { apply String.eqb_eq in Ec. now rewrite (Hup _ Ec). }
  destruct (Js.toLowerCase t =? "infant")%string eqn:Ei.
  { apply String.eqb_eq in Ei. now rewrite (Hup _ Ei). }
  unfold passengerMultiplier at 2.
  destruct (Js.toUpperCase t =? "ADULT")%string; [reflexivity |].
  destruct (Js.toUpperCase t =? "CHILD")%string eqn:Uc.
  { apply String.eqb_eq in Uc. rewrite (Hlow _ Uc) in Ec. discriminate. }
  destruct (Js.toUpperCase t =? "INFANT")%string eqn:Ui.
  { apply String.eqb_eq in Ui. rewrite (Hlow _ Ui) in Ei. discriminate. }
  reflexivity.
Qed.

Lemma determinePassengerTypeFromDOB_cases env d :
  determinePassengerTypeFromDOB env d = "ADULT"
  \/ determinePassengerTypeFromDOB env d = "CHILD"
  \/ determinePassengerTypeFromDOB env d = "INFANT".
Proof.
  unfold determinePassengerTypeFromDOB. destruct d as [s |]; [| now left].
  destruct (s =? "")%string; [now left |].
  destruct (parseDate env s) as [t |]; [| now left].
  destruct (_ <? _); [now right; right |]. destruct (_ <? _); [now right; left | now left].
Qed.

(** The type on the row of a passenger the fare loop has classified is
    priced like the type the fare loop charged. *)
Lemma detailType_charged env p :
  typedOnce p = true ->
  passengerMultiplier (detailType env (setCalculatedPassengerType p (classifiedType env p)))
  = passengerMultiplier (classifiedType env p).
Proof.
  unfold typedOnce, detailType, classifiedType, fareType.
  cbn [type_ passengerType calculatedPassengerType dob setCalculatedPassengerType].
  intros H. apply andb_true_iff in H as [H _]. apply negb_true_iff in H.
  destruct (type_ p) as [t |] eqn:Et; destruct (passengerType p) as [pt |] eqn:Ept;
    unfold Js.or, Js.or_default, Js.truthy in *; cbn [get negb andb] in *.
  - destruct (t =? "")%string eqn:E1; destruct (pt =? "")%string eqn:E2;
      cbn [negb andb] in *; try discriminate.
    + apply String.eqb_eq in E1, E2. subst. 
      destruct (determinePassengerTypeFromDOB_cases env (dob p)) as [-> | [-> | ->]];
        reflexivity.
    + rewrite E2. reflexivity.
    + rewrite E1. apply typeLadder_multiplier.
  - destruct (t =? "")%string eqn:E1; cbn [negb].
    + destruct (determinePassengerTypeFromDOB_cases env (dob p)) as [-> | [-> | ->]];
        reflexivity.
    + rewrite E1. apply typeLadder_multiplier.
  - destruct (pt =? "")%string eqn:E2; cbn [negb].
    + destruct (determinePassengerTypeFromDOB_cases env (dob p)) as [-> | [-> | ->]];
        reflexivity.
    + rewrite E2. reflexivity.
  - destruct (determinePassengerTypeFromDOB_cases env (dob p)) as [-> | [-> | ->]];
      reflexivity.
Qed.

(** The passenger rows of a booking created without an explicit total are
    the rows of the passengers as the fare loop classified them. *)
Lemma createBooking_created_details env req db bid fd amt db' :
  createBooking env req db = (Responded (BookingCreated bid fd amt), db') ->
  totalAmount req = None ->
  exists ps,
    passengers req = Some ps
    /\ booking_details db'
       = (booking_details db
          ++ map (detailRow env bid (selectedServices req))
               (map (fun p => setCalculatedPassengerType p (classifiedType env p)) ps))%list.
Proof.
  unfold createBooking, handle. intros H Htot.
  destruct (createBookingBody_cases env req db)
    as [(r & Hr & Hne) | (ci & ps & dep & rtn & Hres & Hb)].
  { rewrite Hr in H. inversion H; subst. now destruct (Hne bid fd amt). }
  rewrite Hb in H.
  destruct (bookFlights env req ci ps dep rtn db) as [[r | r | e |] d] eqn:E;
    inversion H; subst; clear H.
  2: { now destruct (bookFlights_replies env req ci ps dep rtn _ _ _ E bid fd amt). }
  2: { destruct e; discriminate. }
  unfold bookFlights in E. inv_bind E as u1 d1 Hm.
  apply checkAvailability_ok in Hm as (-> & _ & _).
  inv_bind E as priced d2 Hm.
  destruct (amountOf_spec env req (seatClassOf ci) dep rtn ps db) as (priced0 & Ha & _ & Hps).
  rewrite Ha in Hm. inversion Hm; subst priced0 d2. clear Hm.
  rewrite Htot in Hps. rewrite calculateAmount_passengers in Hps.
  apply persistBooking_ok in E
    as (bid' & returnId & contactName & Hr & _ & _ & _ & Hdt & _).
  inversion Hr; subst. clear Hr.
  exists ps. split; [apply (res_passengers _ _ _ _ _ _ Hres) |].
  rewrite Hdt, Hps, Htot. destruct (promoFor env req db); reflexivity.
Qed.

(** X28.  The passenger type written on a passenger row is priced like the
    type the passenger was charged under: for a booking created without an
    explicit total whose passengers each give at most one of type and
    passengerType (a type in ASCII), the request has one new passenger row
    per passenger, in order, and the multiplier of the type on the row is
    the multiplier applied to the fare of that passenger. *)
Theorem recorded_types_are_charged_types env req db bid fd amt db' ps :
  createBooking env req db = (Responded (BookingCreated bid fd amt), db') ->
  totalAmount req = None ->
  passengers req = Some ps ->
  Forall (fun p => typedOnce p = true) ps ->
  exists rows,
    booking_details db' = (booking_details db ++ rows)%list
    /\ Forall2
         (fun p row =>
            getPriceMultiplierForPassengerType (passenger_type row)
            = getPriceMultiplierForPassengerType (classifiedType env p))
         ps rows.
Proof.
  intros H Htot Hps Htyped.
  destruct (createBooking_created_details _ _ _ _ _ _ _ H Htot) as (ps0 & Hps0 & Hdt).
  rewrite Hps in Hps0. injection Hps0 as <-.
  exists (map (detailRow env bid (selectedServices req))
            (map (fun p => setCalculatedPassengerType p (classifiedType env p)) ps)).
  split; [exact Hdt |].
  clear - Htyped. rewrite map_map.
  induction Htyped as [| p ps' Hp Htyped IH]; cbn [map]; constructor; [| exact IH].
  cbn [passenger_type detailRow]. rewrite !multiplier_table.
  now apply detailType_charged.
Qed.

Lemma recorded_types_are_charged_types_witness :
  exists rows,
    booking_details Demo.booked = rows
    /\ Forall2
         (fun p row =>
            getPriceMultiplierForPassengerType (passenger_type row)
            = getPriceMultiplierForPassengerType (classifiedType Sample.env p))
         Sample.two rows.
Proof.
  apply (recorded_types_are_charged_types Sample.env
           (Sample.roundTrip 2 Sample.two (Some "WELCOME10") None) Sample.db
           "AAAAAAAAAA" Sample.flight1 _ Demo.booked Sample.two eq_refl eq_refl eq_refl).
  repeat constructor.
Defined.

(** ** Bounds on the calculated amount *)




